(** * Playwright report pipeline: reconciliation, report assembly, index upkeep

    A shallow embedding of the command line tool's processing core:

    - [cli/src/trace-processor.ts] (class [TraceProcessor], the version that
      works with [ReportManager]): directory scanning, trace bundle reading,
      outcome classification, expectation reconciliation, summary;
    - [cli/src/report-manager.ts] ([ReportManager.getNextReportNumber]);
    - the three writers of [reports/index.json]: [GitHubStorageAdapter],
      [SharePointStorageAdapter] and [GitHubUploader].

    JavaScript strings are modelled as [string], array lengths and counts as
    [nat], durations, line numbers and clock values as [Z] (integers far
    below 2^53, where JavaScript arithmetic is exact).  The report counter is
    read from a file and incremented without a check, so it is modelled with
    the values [JSON.parse] can deliver and with the addition of doubles
    ([JsNumber], [JsonValue]).  A value that may be [undefined] is an
    [option]. *)

From Stdlib Require Import String Ascii List ZArith Bool Arith Lia.
From Stdlib Require Import DecimalString DecimalNat.
Import ListNotations.

Open Scope string_scope.
Open Scope list_scope.

(* ================================================================== *)
(** ** JavaScript string primitives *)
(* ================================================================== *)

Module JsString.

(** [startsWith s t] is [s.startsWith(t)]. *)
Fixpoint startsWith (s t : string) {struct t} : bool :=
  match t with
  | EmptyString => true
  | String b t' =>
      match s with
      | EmptyString => false
      | String a s' => Ascii.eqb a b && startsWith s' t'
      end
  end.

(** [includes s t] is [s.includes(t)]: [t] occurs in [s] at some offset. *)
Fixpoint includes (s t : string) : bool :=
  startsWith s t ||
  match s with
  | EmptyString => false
  | String _ s' => includes s' t
  end.

(** [endsWith s t] is [s.endsWith(t)]. *)
Definition endsWith (s t : string) : bool :=
  let n := String.length s in
  let m := String.length t in
  (m <=? n)%nat && String.eqb (String.substring (n - m) m s) t.

(** [a || d] on a possibly undefined string: the empty string is falsy. *)
Definition orElse (a : option string) (d : string) : string :=
  match a with
  | Some s => if String.eqb s "" then d else s
  | None => d
  end.

(** [a || d] on a possibly undefined number: zero is falsy. *)
Definition orElseZ (a : option Z) (d : Z) : Z :=
  match a with
  | Some z => if Z.eqb z 0 then d else z
  | None => d
  end.

(** The relation [includes] decides: [t] is a contiguous part of [s]. *)
Definition Substring (t s : string) : Prop :=
  exists pre post : string, s = String.append pre (String.append t post).

End JsString.

(* ================================================================== *)
(** ** JavaScript numbers *)
(* ================================================================== *)

Module JsNumber.

(** A number as [JSON.parse] delivers it and as [+] returns it here: a
    finite double, written [m * 2^e], or an infinity ([JSON.parse] gives
    [Infinity] for a literal such as [1e999]).  An integer [n] is written
    [Finite n 0]. *)
Inductive t : Type :=
| Finite (m e : Z)
| Infinite (negative : bool).

(** [x === 0], the one falsy number among these. *)
Definition isZero (x : t) : bool :=
  match x with
  | Finite m _ => (m =? 0)%Z
  | Infinite _ => false
  end.

(** [m * 2^e], written as an integer when it is one. *)
Definition make (m e : Z) : t :=
  if (0 <=? e)%Z then Finite (m * 2 ^ e) 0 else Finite m e.

(** The double nearest to [m * 2^e]: up to 53 bits are kept as they are,
    more are rounded to 53, a tie going to the even neighbour.  The exponent
    is not bounded: the sums formed below stay within the range of the
    doubles. *)
Definition roundToDouble (m e : Z) : t :=
  let a := Z.abs m in
  if (a <? 2 ^ 53)%Z then make m e
  else
    let s := (Z.log2 a - 52)%Z in
    let q := (a / 2 ^ s)%Z in
    let r := (a mod 2 ^ s)%Z in
    let half := (2 ^ (s - 1))%Z in
    let q' := if (half <? r)%Z || ((r =? half)%Z && Z.odd q) then (q + 1)%Z else q in
    make (Z.sgn m * q') (e + s).

(** [x + 1]: the exact sum, rounded. *)
Definition addOne (x : t) : t :=
  match x with
  | Finite m e =>
      let low := Z.min e 0 in
      roundToDouble (m * 2 ^ (e - low) + 2 ^ (- low)) low
  | Infinite negative => Infinite negative
  end.

End JsNumber.

(* ================================================================== *)
(** ** Data model ([cli/src/types.ts]) *)
(* ================================================================== *)

(** [PlaywrightTestResult.status]. *)
Inductive TestStatus : Type :=
| Passed | Failed | Skipped | TimedOut | Interrupted.

(** The string each status is at run time. *)
Definition statusString (s : TestStatus) : string :=
  match s with
  | Passed => "passed"
  | Failed => "failed"
  | Skipped => "skipped"
  | TimedOut => "timedOut"
  | Interrupted => "interrupted"
  end.

Definition TestStatus_eqb (a b : TestStatus) : bool :=
  match a, b with
  | Passed, Passed | Failed, Failed | Skipped, Skipped
  | TimedOut, TimedOut | Interrupted, Interrupted => true
  | _, _ => false
  end.

(** ['pass' | 'fail' | 'skip']. *)
Inductive Outcome : Type := Pass | Fail | Skip.

Definition Outcome_eqb (a b : Outcome) : bool :=
  match a, b with
  | Pass, Pass | Fail, Fail | Skip, Skip => true
  | _, _ => false
  end.

(** [PlaywrightError]. *)
Record ErrorLocation : Type := mkErrorLocation {
  locFile : string;
  locLine : Z;
  locColumn : Z
}.

Record PlaywrightError : Type := mkPlaywrightError {
  message : string;
  stack : string;
  location : ErrorLocation
}.

(** [TestStep]; the [id] drawn from [randomUUID()] is left out, nothing reads
    it. *)
Record TestStep : Type := mkTestStep {
  stepTitle : string;
  stepDuration : Z
}.

(** [Screenshot], without its random [id]; [width] and [height] are the
    constant 0 the source writes. *)
Record Screenshot : Type := mkScreenshot {
  shotTimestamp : Z;
  filePath : string;
  width : Z;
  height : Z;
  actionBefore : option string
}.

(** [PlaywrightTestResult], restricted to the fields that report assembly
    reads (title, status, duration, errors, steps, screenshots, trace file). *)
Record PlaywrightTestResult : Type := mkPlaywrightTestResult {
  testTitle : string;
  status : TestStatus;
  duration : Z;
  screenshots : list Screenshot;
  errors : list PlaywrightError;
  steps : list TestStep;
  traceFile : option string
}.

(** [TestExecutionIntent]; [targetTests] is optional in the interface. *)
Record TestExecutionIntent : Type := mkIntent {
  purpose : string;
  description : option string;
  expectFailures : bool;
  targetTests : option (list string);
  goals : list string;
  context : option string
}.

(** An element of [ProcessedTestReport.results]. *)
Record EnhancedResult : Type := mkEnhancedResult {
  testName : string;
  r_status : TestStatus;
  r_duration : Z;
  r_error : option string;
  r_screenshots : list string;
  r_traceFile : option string;
  actualOutcome : Outcome;
  expectedOutcome : Outcome;
  outcomeMatch : bool
}.

(** [ProcessedTestReport.summary]. *)
Record Summary : Type := mkSummary {
  total : nat;
  passed : nat;
  failed : nat;
  skipped : nat;
  expectedFails : nat;
  unexpectedFails : nat;
  expectedPasses : nat;
  unexpectedPasses : nat
}.

(* ================================================================== *)
(** ** Expectation reconciler and summary ([TraceProcessor]) *)
(* ================================================================== *)

(** [mapStatusToOutcome(status: string)]. *)
Definition mapStatusToOutcome (status : string) : Outcome :=
  if String.eqb status "passed" then Pass
  else if String.eqb status "failed" then Fail
  else if String.eqb status "timedOut" then Fail
  else if String.eqb status "interrupted" then Fail
  else if String.eqb status "skipped" then Skip
  else Fail.

(** [intent.targetTests?.some(target => title.includes(target))]; an absent
    list gives [undefined], which is falsy. *)
Definition someTargetIn (title : string) (targets : option (list string)) : bool :=
  match targets with
  | Some ts => existsb (fun target => JsString.includes title target) ts
  | None => false
  end.

(** [determineExpectedOutcome(result, intent)]. *)
Definition determineExpectedOutcome
    (result : PlaywrightTestResult) (intent : TestExecutionIntent) : Outcome :=
  if expectFailures intent then
    if someTargetIn (testTitle result) (targetTests intent) then Fail
    else Pass
  else Pass.

(** The callback of [results.map(...)] in [processTestResults]. *)
Definition enhanceResult
    (intent : TestExecutionIntent) (result : PlaywrightTestResult) : EnhancedResult :=
  let actual := mapStatusToOutcome (statusString (status result)) in
  let expected := determineExpectedOutcome result intent in
  {| testName := testTitle result;
     r_status :=
       match status result with
       | TimedOut | Interrupted => Failed
       | s => s
       end;
     r_duration := duration result;
     r_error :=
       match errors result with
       | e :: _ => Some (message e)
       | [] => None
       end;
     r_screenshots := map filePath (screenshots result);
     r_traceFile := traceFile result;
     actualOutcome := actual;
     expectedOutcome := expected;
     outcomeMatch := Outcome_eqb actual expected |}.

(** [results.filter(p).length]. *)
Definition countIf {A : Type} (p : A -> bool) (l : list A) : nat :=
  List.length (filter p l).

(** [calculateEnhancedSummary(results, intent)]; the intent is not read. *)
Definition calculateEnhancedSummary
    (results : list EnhancedResult) (intent : TestExecutionIntent) : Summary :=
  {| total := List.length results;
     passed := countIf (fun r => TestStatus_eqb (r_status r) Passed) results;
     failed := countIf (fun r => TestStatus_eqb (r_status r) Failed) results;
     skipped := countIf (fun r => TestStatus_eqb (r_status r) Skipped) results;
     expectedFails :=
       countIf (fun r => Outcome_eqb (expectedOutcome r) Fail
                         && Outcome_eqb (actualOutcome r) Fail) results;
     unexpectedFails :=
       countIf (fun r => Outcome_eqb (expectedOutcome r) Pass
                         && Outcome_eqb (actualOutcome r) Fail) results;
     expectedPasses :=
       countIf (fun r => Outcome_eqb (expectedOutcome r) Pass
                         && Outcome_eqb (actualOutcome r) Pass) results;
     unexpectedPasses :=
       countIf (fun r => Outcome_eqb (expectedOutcome r) Fail
                         && Outcome_eqb (actualOutcome r) Pass) results |}.

(* ================================================================== *)
(** ** The results directory as the scanner sees it *)
(* ================================================================== *)

(** One element of [traceData.errors] as [JSON.parse] delivers it: every
    field may be missing (all are, when the element is a number, a string or
    a boolean); a field that is there is taken to hold a value of the type
    [types.ts] declares for it. *)
Record RawLocation : Type := mkRawLocation {
  rawFile : option string;
  rawLine : option Z;
  rawColumn : option Z
}.

Record RawError : Type := mkRawError {
  rawMessage : option string;
  rawStack : option string;
  rawLocation : option RawLocation
}.

(** One element of [traceData.actions]. *)
Record RawAction : Type := mkRawAction {
  apiName : option string;
  method : option string;
  startTime : option Z;
  endTime : option Z
}.

(** A property that a loop tests and then iterates with [for ... of]:
    - [Falsy]: absent, [null], [false], [0] or the empty string; the [if]
      passes over it;
    - [NotIterable]: truthy but neither array nor string (a number, [true],
      an object); [for ... of] throws before anything is pushed;
    - [Elements l]: an array, or a non-empty string, which iterates as
      its characters.  An element is [None] when it is [null]: reading a
      property of it throws.  Every other element is read property by
      property. *)
Inductive Listed (A : Type) : Type :=
| Falsy
| NotIterable
| Elements (l : list (option A)).
Arguments Falsy {A}.
Arguments NotIterable {A}.
Arguments Elements {A} l.

(** What [JSON.parse(entry.getData().toString('utf8'))] gives on an archive
    entry.  [Malformed]: [getData] or [JSON.parse] throws, or the text is
    [null], of which no property can be read; either way both readers throw
    at this entry.  [TraceData errs acts]: any other value, with its
    [errors] and its [actions] as the two readers meet them (each reader
    looks at one of the two only). *)
Inductive EntryContent : Type :=
| Malformed
| TraceData (errs : Listed RawError) (acts : Listed RawAction).

Record ZipEntry : Type := mkZipEntry {
  entryName : string;
  entryContent : EntryContent
}.

(** A regular file of a test directory: its name, what [statSync] reports,
    and, read as a zip archive, its entries in archive order ([None] when
    [new AdmZip(path)] throws). *)
Record File : Type := mkFile {
  fileName : string;
  mtimeMs : Z;
  archive : option (list ZipEntry)
}.

(** An item of the results directory: a file; a sub-directory with its
    files; a sub-directory in which [globby] or [statSync] throws while it
    is processed (it may not be read, or a file goes away under the scan). *)
Inductive DirItem : Type :=
| LooseFile (f : File)
| SubDirectory (name : string) (files : list File)
| UnreadableDirectory (name : string).

(** [path.join(a, b)] for a path [a] and a plain name [b], both already
    normalised. *)
Definition join (a b : string) : string :=
  String.append a (String.append "/" b).

(** The glob patterns the processor hands to [globby]: a literal file name
    or [*] followed by a fixed suffix. *)
Inductive Pattern : Type :=
| Literal (name : string)
| Star (suffix : string).

(** [*] does not match a leading dot ([dot: false], globby's default). *)
Definition globMatches (p : Pattern) (name : string) : bool :=
  match p with
  | Literal n => String.eqb name n
  | Star suffix =>
      JsString.endsWith name suffix && negb (JsString.startsWith name ".")
  end.

(** [globby(pattern, { cwd: testDir })] over the files of the directory. *)
Definition globby (p : Pattern) (files : list File) : list File :=
  filter (fun f => globMatches p (fileName f)) files.

(* ================================================================== *)
(** ** Trace bundle reader *)
(* ================================================================== *)

(** How a block that pushes onto an array declared outside its [try] ends:
    normally, or by a throw; either way the array keeps what was pushed. *)
Inductive Completion (A : Type) : Type :=
| Normal (acc : list A)
| Abrupt (acc : list A).
Arguments Normal {A} acc.
Arguments Abrupt {A} acc.

Definition caught {A : Type} (c : Completion A) : list A :=
  match c with
  | Normal acc => acc
  | Abrupt acc => acc
  end.

(** [entry.entryName === 'trace.trace' || entry.entryName.endsWith('.json')]. *)
Definition isStructuredEntry (e : ZipEntry) : bool :=
  String.eqb (entryName e) "trace.trace" || JsString.endsWith (entryName e) ".json".

(** The object pushed for one element of [traceData.errors]. *)
Definition toPlaywrightError (e : RawError) : PlaywrightError :=
  {| message := JsString.orElse (rawMessage e) "Unknown error";
     stack := JsString.orElse (rawStack e) "";
     location :=
       {| locFile :=
            JsString.orElse
              (match rawLocation e with Some l => rawFile l | None => None end)
              "unknown";
          locLine :=
            JsString.orElseZ
              (match rawLocation e with Some l => rawLine l | None => None end) 0;
          locColumn :=
            JsString.orElseZ
              (match rawLocation e with Some l => rawColumn l | None => None end) 0
       |} |}.

(** The object pushed for one element of [traceData.actions];
    [action.endTime - action.startTime || 0] is the difference when both
    times are there and 0 otherwise (the difference is then [NaN]). *)
Definition toTestStep (a : RawAction) : TestStep :=
  {| stepTitle :=
       JsString.orElse (apiName a) (JsString.orElse (method a) "Unknown step");
     stepDuration :=
       match endTime a, startTime a with
       | Some e, Some s => JsString.orElseZ (Some (e - s)%Z) 0
       | _, _ => 0%Z
       end |}.

(** The inner loop [for (const x of list) { out.push(record(x)) }]: the
    records are pushed one by one, and a [null] element throws after the
    records of the elements before it have been pushed. *)
Fixpoint pushEach {A B : Type} (record : A -> B) (l : list (option A)) (acc : list B)
  : Completion B :=
  match l with
  | [] => Normal acc
  | None :: _ => Abrupt acc
  | Some x :: rest => pushEach record rest (acc ++ [record x])
  end.

(** [if (list) { for (const x of list) { ... } }]. *)
Definition pushListed {A B : Type} (record : A -> B) (items : Listed A) (acc : list B)
  : Completion B :=
  match items with
  | Falsy => Normal acc
  | NotIterable => Abrupt acc
  | Elements l => pushEach record l acc
  end.

(** The [for (const entry of entries)] loop of [extractErrorsFromTrace],
    which sits inside one [try] block: a throw at one entry ends the whole
    loop.  Of the parsed entry it reads [errors] only. *)
Fixpoint errorsLoop (entries : list ZipEntry) (acc : list PlaywrightError)
  : Completion PlaywrightError :=
  match entries with
  | [] => Normal acc
  | e :: rest =>
      if isStructuredEntry e then
        match entryContent e with
        | Malformed => Abrupt acc
        | TraceData errs _ =>
            match pushListed toPlaywrightError errs acc with
            | Normal acc' => errorsLoop rest acc'
            | Abrupt acc' => Abrupt acc'
            end
        end
      else errorsLoop rest acc
  end.

(** The loop of [extractStepsFromTrace]; of the parsed entry it reads
    [actions] only. *)
Fixpoint stepsLoop (entries : list ZipEntry) (acc : list TestStep)
  : Completion TestStep :=
  match entries with
  | [] => Normal acc
  | e :: rest =>
      if isStructuredEntry e then
        match entryContent e with
        | Malformed => Abrupt acc
        | TraceData _ acts =>
            match pushListed toTestStep acts acc with
            | Normal acc' => stepsLoop rest acc'
            | Abrupt acc' => Abrupt acc'
            end
        end
      else stepsLoop rest acc
  end.

(** [extractErrorsFromTrace(traceFilePath)]: [zipped] is the archive at that
    path, [None] when it cannot be opened. *)
Definition extractErrorsFromTrace
    (traceFilePath : string) (zipped : option (list ZipEntry)) : list PlaywrightError :=
  if JsString.endsWith traceFilePath ".zip" then
    match zipped with
    | Some entries => caught (errorsLoop entries [])
    | None => []
    end
  else [].

(** [extractStepsFromTrace(traceFilePath)]. *)
Definition extractStepsFromTrace
    (traceFilePath : string) (zipped : option (list ZipEntry)) : list TestStep :=
  if JsString.endsWith traceFilePath ".zip" then
    match zipped with
    | Some entries => caught (stepsLoop entries [])
    | None => []
    end
  else [].

(* ================================================================== *)
(** ** Artifact scanner and outcome classifier *)
(* ================================================================== *)

(** [findTraceFile(testDir)], as the matching file; the path returned by the
    source is [join testDir] of its name. *)
Fixpoint firstMatch (patterns : list Pattern) (files : list File) : option File :=
  match patterns with
  | [] => None
  | p :: rest =>
      match globby p files with
      | f :: _ => Some f
      | [] => firstMatch rest files
      end
  end.

Definition tracePatterns : list Pattern :=
  [Literal "trace.zip"; Star ".trace"; Star ".zip"].

Definition findTraceFileEntry (files : list File) : option File :=
  firstMatch tracePatterns files.

Definition findTraceFile (testDir : string) (files : list File) : option string :=
  option_map (fun f => join testDir (fileName f)) (findTraceFileEntry files).

Definition screenshotPatterns : list Pattern :=
  [Star ".png"; Star ".jpg"; Star ".jpeg"].

(** [String.prototype.toLowerCase] on the ASCII letters. *)
Definition lowerAscii (c : ascii) : ascii :=
  let n := nat_of_ascii c in
  if (65 <=? n)%nat && (n <=? 90)%nat then ascii_of_nat (n + 32) else c.

Fixpoint toLowerCase (s : string) : string :=
  match s with
  | EmptyString => EmptyString
  | String c s' => String (lowerAscii c) (toLowerCase s')
  end.

(** [s] up to its last dot; [None] when [s] has no dot. *)
Fixpoint uptoLastDot (s : string) : option string :=
  match s with
  | EmptyString => None
  | String c s' =>
      match uptoLastDot s' with
      | Some t => Some (String c t)
      | None => if Ascii.eqb c "."%char then Some EmptyString else None
      end
  end.

(** [basename(filename, extname(filename))] for a plain file name: a dot in
    first position does not start an extension. *)
Definition basenameWithoutExt (filename : string) : string :=
  match filename with
  | EmptyString => EmptyString
  | String c rest =>
      match uptoLastDot rest with
      | Some t => String c t
      | None => filename
      end
  end.

(** [inferActionFromFilename(filename)]. *)
Definition inferActionFromFilename (filename : string) : option string :=
  let name := toLowerCase (basenameWithoutExt filename) in
  if JsString.includes name "click" then Some "click"
  else if JsString.includes name "fill" || JsString.includes name "type" then Some "fill"
  else if JsString.includes name "goto" || JsString.includes name "navigate" then Some "goto"
  else if JsString.includes name "wait" then Some "wait"
  else if JsString.includes name "error" || JsString.includes name "failure" then Some "error"
  else None.

(** [collectScreenshots(testDir)]. *)
Definition collectScreenshots (testDir : string) (files : list File) : list Screenshot :=
  flat_map
    (fun p =>
       map (fun f =>
              {| shotTimestamp := mtimeMs f;
                 filePath := join testDir (fileName f);
                 width := 0%Z;
                 height := 0%Z;
                 actionBefore := inferActionFromFilename (fileName f) |})
           (globby p files))
    screenshotPatterns.

(** The test of [screenshots.some(...)] in [determineTestStatus]. *)
Definition looksLikeFailure (s : Screenshot) : bool :=
  JsString.includes (filePath s) "error" || JsString.includes (filePath s) "failure".

(** [determineTestStatus(testDir)]. *)
Definition determineTestStatus (testDir : string) (files : list File) : TestStatus :=
  match findTraceFile testDir files with
  | Some _ => Failed
  | None =>
      if existsb looksLikeFailure (collectScreenshots testDir files)
      then Failed
      else Passed
  end.

(** [collectErrors(testDir)]. *)
Definition collectErrors (testDir : string) (files : list File) : list PlaywrightError :=
  match findTraceFileEntry files with
  | Some f => extractErrorsFromTrace (join testDir (fileName f)) (archive f)
  | None => []
  end.

(** [collectTestSteps(testDir)]. *)
Definition collectTestSteps (testDir : string) (files : list File) : list TestStep :=
  match findTraceFileEntry files with
  | Some f => extractStepsFromTrace (join testDir (fileName f)) (archive f)
  | None => []
  end.

(** [dirName.split('-')]. *)
Fixpoint splitDash (s : string) : list string :=
  match s with
  | EmptyString => [EmptyString]
  | String c s' =>
      if Ascii.eqb c "-"%char then EmptyString :: splitDash s'
      else
        match splitDash s' with
        | h :: t => String c h :: t
        | [] => [String c EmptyString]
        end
  end.

(** [parts.join('-')]. *)
Fixpoint joinDash (parts : list string) : string :=
  match parts with
  | [] => EmptyString
  | [p] => p
  | p :: rest => String.append p (String.append "-" (joinDash rest))
  end.

(** [parseTestDirectoryName(dirName).testName]:
    [parts.slice(0, -4).join('-') || dirName]. *)
Definition parsedTestName (dirName : string) : string :=
  let parts := splitDash dirName in
  JsString.orElse (Some (joinDash (firstn (List.length parts - 4) parts))) dirName.

(** [processTestDirectory(testDir)] for the directory [dirName] of
    [testResultsPath]. *)
Definition processTestDirectory
    (testResultsPath dirName : string) (files : list File) : PlaywrightTestResult :=
  let testDir := join testResultsPath dirName in
  {| testTitle := parsedTestName dirName;
     status := determineTestStatus testDir files;
     duration := 0%Z;
     screenshots := collectScreenshots testDir files;
     errors := collectErrors testDir files;
     steps := collectTestSteps testDir files;
     traceFile := findTraceFile testDir files |}.

(** [findTestDirectories()] followed by the loop of [processTestFiles()],
    on a results directory that [findTestDirectories] can go through
    ([ResultsDirectory] below has the other case); [root] is [None] when
    [testResultsPath] does not exist.  A file is not a directory and is left
    out.  The loop guards each directory with its own [try]: a directory in
    which [processTestDirectory] throws is warned about and yields no
    result, and the loop goes on. *)
Definition processTestFiles
    (testResultsPath : string) (root : option (list DirItem)) : list PlaywrightTestResult :=
  match root with
  | None => []
  | Some items =>
      flat_map
        (fun item =>
           match item with
           | LooseFile _ => []
           | SubDirectory name files =>
               [processTestDirectory testResultsPath name files]
           | UnreadableDirectory _ => []
           end)
        items
  end.

(** The results directory as [findTestDirectories] meets it: it goes through
    it, or [readdirSync] or one of the [statSync] calls throws (the path is
    a file, the directory may not be read, an item is a dangling link);
    nothing catches that throw. *)
Inductive ResultsDirectory : Type :=
| Scanned (root : option (list DirItem))
| ScanThrows.

(* ================================================================== *)
(** ** Report numbering ([ReportManager.getNextReportNumber]) *)
(* ================================================================== *)

(** How an [async] function ends. *)
Inductive Settled (A : Type) : Type :=
| Resolved (a : A)
| Rejected.
Arguments Resolved {A} a.
Arguments Rejected {A}.

(** How a [try] block ends. *)
Inductive Attempt (A : Type) : Type :=
| Returns (a : A)
| Throws.
Arguments Returns {A} a.
Arguments Throws {A}.

(** A value as [JSON.parse] can leave it under [lastNumber].  Of an array
    or an object only the string is kept that [+] converts it to; it is
    [None] when that conversion throws (an object whose [toString] is not a
    function). *)
Inductive JsonValue : Type :=
| JUndefined
| JNull
| JBoolean (b : bool)
| JNumber (x : JsNumber.t)
| JString (s : string)
| JCompound (asString : option string).

(** What [getNextReportNumber] returns and a report carries as its number.
    The declared type is [number]; nothing checks it, and [+] gives a string
    when the stored value was one. *)
Inductive ReportNumber : Type :=
| NumberValue (x : JsNumber.t)
| TextValue (s : string).

Definition integerNumber (n : Z) : ReportNumber :=
  NumberValue (JsNumber.Finite n 0).

Coercion integerNumber : Z >-> ReportNumber.

(** [(v || 0) + 1]: a falsy value counts as 0; [true] as 1; a number is
    added to; a string, an array or an object is converted to a string, to
    which ["1"] is appended. *)
Definition orZeroPlusOne (v : JsonValue) : Attempt ReportNumber :=
  match v with
  | JUndefined | JNull | JBoolean false => Returns (integerNumber 1)
  | JBoolean true => Returns (integerNumber 2)
  | JNumber x =>
      if JsNumber.isZero x then Returns (integerNumber 1)
      else Returns (NumberValue (JsNumber.addOne x))
  | JString s =>
      if String.eqb s "" then Returns (integerNumber 1)
      else Returns (TextValue (String.append s "1"))
  | JCompound (Some text) => Returns (TextValue (String.append text "1"))
  | JCompound None => Throws
  end.

(** The value read back after [JSON.stringify] has written [v]: an infinity
    is written as [null]. *)
Definition stringified (v : ReportNumber) : JsonValue :=
  match v with
  | NumberValue (JsNumber.Finite m e) => JNumber (JsNumber.Finite m e)
  | NumberValue (JsNumber.Infinite _) => JNull
  | TextValue s => JString s
  end.

(** The object in [report-counter.json]: its [lastNumber] and the other
    properties, which the function writes back untouched. *)
Record CounterData : Type := mkCounterData {
  lastNumber : JsonValue;
  otherProperties : list (string * string)
}.

(** The text of the counter file, as [JSON.parse] takes it: it throws, or
    gives an object, [null], a number, string or boolean, or an array. *)
Inductive CounterText : Type :=
| Unparsable
| Parsed (data : CounterData)
| ParsedNull
| ParsedPrimitive
| ParsedArray.

(** What the environment does during one call: the value of [Date.now()],
    whether [readFileSync] throws, whether [writeFileSync] throws. *)
Record CounterIo : Type := mkCounterIo {
  clock : Z;
  readThrows : bool;
  writeThrows : bool
}.

(** The state is the counter file: [None] when [existsSync] says it is not
    there. *)
Definition CounterFile : Type := option CounterText.

(** The [try] block of [getNextReportNumber].  Reading [lastNumber] of
    [null] throws.  A number, string or boolean has no [lastNumber], so the
    next number is 1, and the assignment to its property throws (the module
    is strict).  An array takes the property, but [JSON.stringify] leaves it
    out: the file is written as it was. *)
Definition nextReportNumberBody (io : CounterIo) (file : CounterFile)
  : Attempt (ReportNumber * CounterFile) :=
  match file with
  | Some text =>
      if readThrows io then Throws
      else
        match text with
        | Unparsable => Throws
        | ParsedNull => Throws
        | ParsedPrimitive => Throws
        | ParsedArray =>
            if writeThrows io then Throws
            else Returns (integerNumber 1, Some ParsedArray)
        | Parsed data =>
            match orZeroPlusOne (lastNumber data) with
            | Throws => Throws
            | Returns nextNumber =>
                if writeThrows io then Throws
                else
                  Returns (nextNumber,
                           Some (Parsed {| lastNumber := stringified nextNumber;
                                           otherProperties := otherProperties data |}))
            end
        end
  | None =>
      if writeThrows io then Throws
      else
        Returns (integerNumber 1,
                 Some (Parsed {| lastNumber := JNumber (JsNumber.Finite 1 0);
                                 otherProperties := [] |}))
  end.

(** [getNextReportNumber()]: the number the promise settles with and the
    counter file afterwards. *)
Definition getNextReportNumber (io : CounterIo) (file : CounterFile)
  : Settled ReportNumber * CounterFile :=
  match nextReportNumberBody io file with
  | Returns (n, file') => (Resolved n, file')
  | Throws => (Resolved (integerNumber (clock io)), file)
  end.

(* ================================================================== *)
(** ** Report assembly ([TraceProcessor.processTestResults]) *)
(* ================================================================== *)

(** [ProcessedTestReport.execution]; dates are kept as their ISO text.  The
    insights and the git metadata, gathered by prompting and by running git,
    are not part of the model. *)
Record Execution : Type := mkExecution {
  reportNumber : ReportNumber;
  uniqueId : string;
  developer : string;
  timestamp : string;
  branch : option string;
  environment : string;
  runDuration : Z;
  intent : TestExecutionIntent
}.

Record ProcessedTestReport : Type := mkReport {
  execution : Execution;
  results : list EnhancedResult;
  summary : Summary
}.

(** What one run takes from its surroundings: the id made by
    [generateUniqueReportId()], the start date, the time the scan took and
    the intent [captureExecutionIntent] returned. *)
Record RunInputs : Type := mkRunInputs {
  freshId : string;
  startedAt : string;
  elapsed : Z;
  capturedIntent : TestExecutionIntent
}.

(** The part of [processTestResults] that follows the gathering of the
    inputs: reconcile every result, summarise, build the report.
    [collectTestRun] sets neither developer, branch nor environment, so the
    defaults apply. *)
Definition assembleReport
    (run : RunInputs) (number : ReportNumber) (rawResults : list PlaywrightTestResult)
  : ProcessedTestReport :=
  let enhancedResults := map (enhanceResult (capturedIntent run)) rawResults in
  {| execution :=
       {| reportNumber := number;
          uniqueId := freshId run;
          developer := "unknown";
          timestamp := startedAt run;
          branch := None;
          environment := "local";
          runDuration := elapsed run;
          intent := capturedIntent run |};
     results := enhancedResults;
     summary := calculateEnhancedSummary enhancedResults (capturedIntent run) |}.

(** [processTestResults()] on a results directory that the scan can go
    through: scan, number, assemble.  The promise rejects when an awaited
    call rejects; of the awaited calls the scan and the numbering are
    modelled. *)
Definition processTestResults
    (testResultsPath : string) (root : option (list DirItem))
    (run : RunInputs) (io : CounterIo) (file : CounterFile)
  : Settled ProcessedTestReport * CounterFile :=
  let rawResults := processTestFiles testResultsPath root in
  match getNextReportNumber io file with
  | (Resolved number, file') => (Resolved (assembleReport run number rawResults), file')
  | (Rejected, file') => (Rejected, file')
  end.

(** [processTestResults()] on any results directory: when the scan throws,
    the promise rejects before a number is asked for. *)
Definition processTestResultsOn
    (testResultsPath : string) (dir : ResultsDirectory)
    (run : RunInputs) (io : CounterIo) (file : CounterFile)
  : Settled ProcessedTestReport * CounterFile :=
  match dir with
  | ScanThrows => (Rejected, file)
  | Scanned root => processTestResults testResultsPath root run io file
  end.

(* ================================================================== *)
(** ** The reports index and its writers *)
(* ================================================================== *)

(** [reports/index.json]: the entries, newest first, and [lastUpdated]. *)
Record Index (E : Type) : Type := mkIndex {
  reports : list E;
  lastUpdated : option string
}.
Arguments mkIndex {E} reports lastUpdated.
Arguments reports {E} i.
Arguments lastUpdated {E} i.

(** The stored index file of a backend: [None] while it does not exist. *)
Definition Stored (E : Type) : Type := option (Index E).

Definition storedReports {E : Type} (s : Stored E) : list E :=
  match s with
  | Some i => reports i
  | None => []
  end.

(** What the backend does during one call: the text of [new Date()], whether
    reading the index fails for a reason other than its absence, whether
    writing it fails. *)
Record BackendIo : Type := mkBackendIo {
  nowIso : string;
  fetchFails : bool;
  storeFails : bool
}.

Definition reliable (io : BackendIo) : bool :=
  negb (fetchFails io) && negb (storeFails io).

(** The entry written by [GitHubStorageAdapter] and by [GitHubUploader]. *)
Record GitHubEntry : Type := mkGitHubEntry {
  gh_id : string;
  gh_timestamp : string;
  gh_developer : string;
  gh_branch : option string;
  gh_summary : Summary;
  gh_url : string
}.

(** The entry written by [SharePointStorageAdapter]. *)
Record SharePointEntry : Type := mkSharePointEntry {
  sp_id : string;
  sp_timestamp : string;
  sp_developer : string;
  sp_branch : option string;
  sp_environment : string;
  sp_totalTests : nat;
  sp_passed : nat;
  sp_failed : nat;
  sp_duration : Z
}.

Definition gitHubReportSummary (report : ProcessedTestReport) : GitHubEntry :=
  {| gh_id := uniqueId (execution report);
     gh_timestamp := timestamp (execution report);
     gh_developer := developer (execution report);
     gh_branch := branch (execution report);
     gh_summary := summary report;
     gh_url :=
       String.append "reports/"
         (String.append (uniqueId (execution report)) "/report.json") |}.

Definition sharePointReportSummary (report : ProcessedTestReport) : SharePointEntry :=
  {| sp_id := uniqueId (execution report);
     sp_timestamp := timestamp (execution report);
     sp_developer := developer (execution report);
     sp_branch := branch (execution report);
     sp_environment := environment (execution report);
     sp_totalTests := total (summary report);
     sp_passed := passed (summary report);
     sp_failed := failed (summary report);
     sp_duration := runDuration (execution report) |}.

(** [unshift], then [slice(0, 100)] when more than 100 entries: the index
    computed by both GitHub writers. *)
Definition gitHubMerge
    (index : Index GitHubEntry) (report : ProcessedTestReport) (now : string)
  : Index GitHubEntry :=
  let unshifted := gitHubReportSummary report :: reports index in
  {| reports :=
       if (100 <? List.length unshifted)%nat then firstn 100 unshifted
       else unshifted;
     lastUpdated := Some now |}.

(** [filter] out the report's id, [unshift], [slice(0, 100)]: the index
    computed by the SharePoint adapter. *)
Definition sharePointMerge
    (index : Index SharePointEntry) (report : ProcessedTestReport)
  : Index SharePointEntry :=
  let kept :=
    filter (fun r => negb (String.eqb (sp_id r) (uniqueId (execution report))))
           (reports index) in
  {| reports := firstn 100 (sharePointReportSummary report :: kept);
     lastUpdated := lastUpdated index |}.

Module GitHubStorageAdapter.

(** [updateReportsIndex(report)]: a missing index (404) starts empty, any
    other failure is caught and leaves the stored file as it was. *)
Definition updateReportsIndex
    (io : BackendIo) (stored : Stored GitHubEntry) (report : ProcessedTestReport)
  : Stored GitHubEntry :=
  if fetchFails io then stored
  else
    let index :=
      match stored with
      | Some i => i
      | None => {| reports := []; lastUpdated := Some (nowIso io) |}
      end in
    if storeFails io then stored
    else Some (gitHubMerge index report (nowIso io)).

End GitHubStorageAdapter.

Module SharePointStorageAdapter.

(** [updateReportsIndex(report)]: [downloadFile] turns every failure into
    [null], so an index that cannot be read counts as empty. *)
Definition updateReportsIndex
    (io : BackendIo) (stored : Stored SharePointEntry) (report : ProcessedTestReport)
  : Stored SharePointEntry :=
  let existingIndex :=
    if fetchFails io then {| reports := []; lastUpdated := None |}
    else
      match stored with
      | Some i => i
      | None => {| reports := []; lastUpdated := None |}
      end in
  if storeFails io then stored
  else Some (sharePointMerge existingIndex report).

End SharePointStorageAdapter.

Module GitHubUploader.

(** [updateReportsIndex(report)]: here a missing index is a failure like
    any other, and nothing is written. *)
Definition updateReportsIndex
    (io : BackendIo) (stored : Stored GitHubEntry) (report : ProcessedTestReport)
  : Stored GitHubEntry :=
  if fetchFails io then stored
  else
    match stored with
    | None => stored
    | Some index =>
        if storeFails io then stored
        else Some (gitHubMerge index report (nowIso io))
    end.

End GitHubUploader.

(** One call of an index writer, and a run of calls in order. *)
Definition Call : Type := (BackendIo * ProcessedTestReport)%type.

Definition runCalls {E : Type}
    (update : BackendIo -> Stored E -> ProcessedTestReport -> Stored E)
    (calls : list Call) (stored : Stored E) : Stored E :=
  fold_left (fun s c => update (fst c) s (snd c)) calls stored.

(* ================================================================== *)
(** ** The upload command ([uploadCommand] of the command line tool) *)
(* ================================================================== *)

(** [filteredResults]: all results, or with [--failures-only] those whose
    status is ['failed']. *)
Definition filteredResults
    (failuresOnly : bool) (report : ProcessedTestReport) : list EnhancedResult :=
  if failuresOnly
  then filter (fun r => TestStatus_eqb (r_status r) Failed) (results report)
  else results report.

(** The loop that fills [assetFiles]: the screenshots of each result, then
    its trace file when that is a non-empty string. *)
Definition collectAssetFiles (rs : list EnhancedResult) : list string :=
  flat_map
    (fun r =>
       r_screenshots r ++
       match r_traceFile r with
       | Some t => if String.eqb t "" then [] else [t]
       | None => []
       end)
    rs.

(* ================================================================== *)
(** ** Intent and insights ([ReportManager]) *)
(* ================================================================== *)

(** The own properties of the [mapping] object literal of
    [mapIntentToPurpose]. *)
Definition purposeMapping : list (string * string) :=
  [ ("dev", "development"); ("development", "development");
    ("debug", "debugging"); ("debugging", "debugging");
    ("regression", "regression");
    ("validate", "validation"); ("validation", "validation");
    ("explore", "exploration"); ("exploration", "exploration");
    ("ci", "ci-cd"); ("ci-cd", "ci-cd");
    ("manual", "manual") ].

Fixpoint lookupOwn (key : string) (table : list (string * string)) : option string :=
  match table with
  | [] => None
  | (k, v) :: rest => if String.eqb key k then Some v else lookupOwn key rest
  end.

(** The lower-case names that an object literal inherits from
    [Object.prototype]; under these [mapping[key]] is a truthy value that
    is not a string. *)
Definition inheritedKey (key : string) : bool :=
  String.eqb key "constructor" || String.eqb key "__proto__".

(** [mapIntentToPurpose(intent)]: [mapping[intent.toLowerCase()] ||
    'development'].  [None] stands for the inherited, non-string value.
    The keys are ASCII, so lower-casing the ASCII letters decides the
    lookup. *)
Definition mapIntentToPurpose (intentName : string) : option string :=
  let key := toLowerCase intentName in
  match lookupOwn key purposeMapping with
  | Some p => Some p
  | None => if inheritedKey key then None else Some "development"
  end.

(** The options [captureExecutionIntent] reads. *)
Record IntentOptions : Type := mkIntentOptions {
  o_intent : option string;
  o_reasoning : option string;
  o_goals : option (list string);
  o_expectFailures : option bool;
  o_targetTests : option (list string);
  o_context : option string
}.

(** What [inquirer.prompt] does: it throws, or it returns the answers (the
    purpose is one of the listed choices, the goals come out of the
    [filter] of the question and may be missing). *)
Inductive IntentPrompt : Type :=
| IntentPromptFails
| IntentAnswers (answeredPurpose : string) (answeredDescription : string)
    (answeredExpectFailures : bool) (answeredGoals : option (list string)).

Definition truthyString (a : option string) : bool :=
  match a with
  | Some s => negb (String.eqb s "")
  | None => false
  end.

Definition isSome {A : Type} (a : option A) : bool :=
  match a with
  | Some _ => true
  | None => false
  end.

(** [captureExecutionIntent(options)].  The result is [None] when the
    purpose is not a string (see [mapIntentToPurpose]). *)
Definition captureExecutionIntent
    (options : IntentOptions) (prompt : IntentPrompt) : option TestExecutionIntent :=
  if truthyString (o_intent options) || truthyString (o_reasoning options)
     || isSome (o_goals options)
  then
    match mapIntentToPurpose (JsString.orElse (o_intent options) "development") with
    | Some p =>
        Some {| purpose := p;
                description := o_reasoning options;
                expectFailures :=
                  match o_expectFailures options with Some b => b | None => false end;
                targetTests :=
                  Some (match o_targetTests options with Some l => l | None => [] end);
                goals := match o_goals options with Some l => l | None => [] end;
                context := o_context options |}
    | None => None
    end
  else
    match prompt with
    | IntentAnswers p d e g =>
        Some {| purpose := p;
                description := Some d;
                expectFailures := e;
                targetTests := Some [];
                goals := match g with Some l => l | None => [] end;
                context := None |}
    | IntentPromptFails =>
        Some {| purpose := "development";
                description := None;
                expectFailures := false;
                targetTests := Some [];
                goals := [];
                context := None |}
    end.

(** [UploadOptions], the fields the processor passes on. *)
Record UploadOptions : Type := mkUploadOptions {
  u_intent : option string;
  u_expectFailures : option bool;
  u_reasoning : option string;
  u_goals : option (list string);
  u_targetTests : option (list string);
  u_context : option string;
  u_confidence : option Z
}.

(** The object literal [processTestResults] hands to
    [captureExecutionIntent]: it carries [this.options.intent] under the key
    [purpose], so the property [intent] that the callee reads is absent. *)
Definition intentOptionsOf (u : UploadOptions) : IntentOptions :=
  {| o_intent := None;
     o_reasoning := u_reasoning u;
     o_goals := u_goals u;
     o_expectFailures := u_expectFailures u;
     o_targetTests := u_targetTests u;
     o_context := u_context u |}.

(** A count printed by a template literal. *)
Definition natToString (n : nat) : string :=
  DecimalString.NilZero.string_of_uint (Nat.to_uint n).

(** [summarizeResults(results)]. *)
Definition summarizeResults (rs : list EnhancedResult) : string :=
  let totalCount := List.length rs in
  let passedCount := countIf (fun r => TestStatus_eqb (r_status r) Passed) rs in
  let failedCount := countIf (fun r => TestStatus_eqb (r_status r) Failed) rs in
  let skippedCount := countIf (fun r => TestStatus_eqb (r_status r) Skipped) rs in
  if Nat.eqb failedCount 0 then
    String.append "All " (String.append (natToString totalCount) " tests passed")
  else
    String.append (natToString passedCount)
      (String.append " passed, "
         (String.append (natToString failedCount)
            (String.append " failed, "
               (String.append (natToString skippedCount)
                  (String.append " skipped out of "
                     (String.append (natToString totalCount) " tests")))))).

(** [ExecutionInsights]. *)
Record ExecutionInsights : Type := mkInsights {
  reasoning : string;
  expectedBehavior : string;
  actualBehavior : string;
  surprises : list string;
  learnings : list string;
  nextSteps : list string;
  confidence : Z
}.

(** The prompt of [captureExecutionInsights]: it throws or returns answers,
    whose three lists may be missing. *)
Inductive InsightsPrompt : Type :=
| InsightsPromptFails
| InsightsAnswers (a_reasoning a_expected a_actual : string)
    (a_surprises a_learnings a_nextSteps : option (list string))
    (a_confidence : Z).

Definition orEmpty (l : option (list string)) : list string :=
  match l with
  | Some x => x
  | None => []
  end.

(** [captureExecutionInsights(intent, results, { confidence })]. *)
Definition captureExecutionInsights
    (i : TestExecutionIntent) (rs : list EnhancedResult)
    (optConfidence : option Z) (prompt : InsightsPrompt) : ExecutionInsights :=
  let failedResults := filter (fun r => TestStatus_eqb (r_status r) Failed) rs in
  let unexpected := filter (fun r => negb (outcomeMatch r)) rs in
  match prompt with
  | InsightsAnswers re ex ac su le ne co =>
      {| reasoning := re;
         expectedBehavior := ex;
         actualBehavior := ac;
         surprises := orEmpty su;
         learnings := orEmpty le;
         nextSteps := orEmpty ne;
         confidence := co |}
  | InsightsPromptFails =>
      {| reasoning := JsString.orElse (description i) "Local test execution";
         expectedBehavior := "Tests to pass";
         actualBehavior := summarizeResults rs;
         surprises :=
           if (0 <? List.length unexpected)%nat
           then [String.append (natToString (List.length unexpected))
                               " tests had unexpected outcomes"]
           else [];
         learnings := [];
         nextSteps :=
           if (0 <? List.length failedResults)%nat
           then ["Investigate test failures"]
           else [];
         confidence := JsString.orElseZ optConfidence 5 |}
  end.

(** Successive calls of [getNextReportNumber], one per element of [ios]:
    the numbers returned and the counter file at the end. *)
Fixpoint reportNumbers (ios : list CounterIo) (file : CounterFile)
  : list (Settled ReportNumber) * CounterFile :=
  match ios with
  | [] => ([], file)
  | io :: rest =>
      let (n, file') := getNextReportNumber io file in
      let (ns, file'') := reportNumbers rest file' in
      (n :: ns, file'')
  end.

(* ================================================================== *)
(** ** More of the storage adapters *)
(* ================================================================== *)

(** [path.basename(p)] for the path of a file (no trailing separator). *)
Fixpoint basename (p : string) : string :=
  match p with
  | EmptyString => EmptyString
  | String c rest =>
      if Ascii.eqb c "/"%char then basename rest
      else if JsString.includes rest "/" then basename rest
      else p
  end.

(** [GitHubStorageConfig], without the token. *)
Record GitHubStorageConfig : Type := mkGitHubStorageConfig {
  cfgOwner : string;
  cfgRepo : string;
  cfgBranch : option string
}.

(** [UploadResult]. *)
Record UploadResult : Type := mkUploadResult {
  resultReportId : string;
  reportUrl : string;
  dashboardUrl : string;
  uploadedFiles : list string;
  success : bool;
  uploadError : option string;
  filesUploaded : nat
}.

(** A value thrown by a backend call: an [Error] with its message, or
    something else. *)
Inductive Thrown : Type :=
| ThrownError (msg : string)
| ThrownOther.

(** [error instanceof Error ? error.message : 'Unknown error']. *)
Definition errorText (t : Thrown) : string :=
  match t with
  | ThrownError msg => msg
  | ThrownOther => "Unknown error"
  end.

(** An asset path with what happens to it: whether [statSync] finds a
    regular file there (a throw counts as no), and whether the transfer to
    the backend goes through. *)
Record Asset : Type := mkAsset {
  assetPath : string;
  regularFile : bool;
  transfers : bool
}.

(** What the backend does during one [uploadReport]: the throw, if any, of
    [ensureStorageStructure] and of the write of [report.json], and the
    behaviour during the index update. *)
Record UploadIo : Type := mkUploadIo {
  structureThrows : option Thrown;
  reportWriteThrows : option Thrown;
  indexIo : BackendIo
}.

Module GitHubStorageAdapterUpload.

(** [uploadAssets(reportId, assetPaths)]: an asset that is no regular file
    or whose transfer fails is logged and left out. *)
Definition uploadAssets (reportId : string) (assets : list Asset) : list string :=
  flat_map
    (fun a =>
       if regularFile a && transfers a
       then [String.append "reports/"
               (String.append reportId
                  (String.append "/" (basename (assetPath a))))]
       else [])
    assets.

Definition branchOrMain (config : GitHubStorageConfig) : string :=
  JsString.orElse (cfgBranch config) "main".

Definition failedUpload (report : ProcessedTestReport) (t : Thrown) : UploadResult :=
  {| resultReportId := uniqueId (execution report);
     reportUrl := "";
     dashboardUrl := "";
     uploadedFiles := [];
     success := false;
     uploadError := Some (errorText t);
     filesUploaded := 0 |}.

(** [uploadReport(report, assetPaths)] with the stored index before and
    after. *)
Definition uploadReport
    (config : GitHubStorageConfig) (io : UploadIo)
    (stored : Stored GitHubEntry)
    (report : ProcessedTestReport) (assets : list Asset)
  : UploadResult * Stored GitHubEntry :=
  match structureThrows io with
  | Some t => (failedUpload report t, stored)
  | None =>
      let reportId := uniqueId (execution report) in
      let reportPath := String.append "reports/" reportId in
      match reportWriteThrows io with
      | Some t => (failedUpload report t, stored)
      | None =>
          let uploadedAssets := uploadAssets reportPath assets in
          let stored' :=
            GitHubStorageAdapter.updateReportsIndex (indexIo io) stored report in
          ({| resultReportId := reportId;
              reportUrl :=
                String.append "https://github.com/"
                  (String.append (cfgOwner config)
                     (String.append "/"
                        (String.append (cfgRepo config)
                           (String.append "/tree/"
                              (String.append (branchOrMain config)
                                 (String.append "/reports/" reportId))))));
              dashboardUrl :=
                String.append "https://"
                  (String.append (cfgOwner config)
                     (String.append ".github.io/" (cfgRepo config)));
              uploadedFiles :=
                String.append reportPath "/report.json" :: uploadedAssets;
              success := true;
              uploadError := None;
              filesUploaded := List.length uploadedAssets + 1 |},
           stored')
      end
  end.

(** A report as [listReports()] rebuilds it from an index entry. *)
Record ListedReport : Type := mkListedReport {
  l_uniqueId : string;
  l_reportNumber : Z;
  l_timestamp : string;
  l_developer : string;
  l_branch : option string;
  l_environment : string;
  l_duration : Z;
  l_summary : Summary;
  l_results : list EnhancedResult
}.

(** [listReports()]: every failure, a missing index included, gives the
    empty list. *)
Definition listReports (fetchFailed : bool) (stored : Stored GitHubEntry)
  : list ListedReport :=
  if fetchFailed then []
  else
    match stored with
    | None => []
    | Some index =>
        map (fun entry =>
               {| l_uniqueId := gh_id entry;
                  l_reportNumber := 0%Z;
                  l_timestamp := gh_timestamp entry;
                  l_developer := gh_developer entry;
                  l_branch := gh_branch entry;
                  l_environment := "local";
                  l_duration := 0%Z;
                  l_summary := gh_summary entry;
                  l_results := [] |})
            (reports index)
    end.

End GitHubStorageAdapterUpload.

Module SharePointStorageAdapterMore.

(** [deleteReport(reportId)]: [deleteFolderFails] says whether removing the
    folder throws; the index update that follows has its own [try]. *)
Definition deleteReport
    (deleteFolderFails : bool) (io : BackendIo)
    (stored : Stored SharePointEntry) (reportId : string)
  : bool * Stored SharePointEntry :=
  if deleteFolderFails then (false, stored)
  else
    (true,
     if fetchFails io then stored
     else
       match stored with
       | None => stored
       | Some index =>
           if storeFails io then stored
           else
             Some {| reports :=
                       filter (fun r => negb (String.eqb (sp_id r) reportId))
                              (reports index);
                     lastUpdated := lastUpdated index |}
       end).

(** One [PUT] of [uploadLargeFile]: the two bounds of its [Content-Range]
    header and its [Content-Length]. *)
Record Chunk : Type := mkChunk {
  rangeFirst : Z;
  rangeLast : Z;
  chunkLength : Z
}.

Definition chunkSize : Z := 327680.

(** The loop [for (start = 0; start < content.length; start += chunkSize)]
    from [start] on, run for at most [fuel] rounds. *)
Fixpoint chunksFrom (fuel : nat) (start len : Z) : list Chunk :=
  match fuel with
  | O => []
  | S fuel' =>
      if (start <? len)%Z then
        let stop := Z.min (start + chunkSize) len in
        {| rangeFirst := start; rangeLast := (stop - 1)%Z;
           chunkLength := (stop - start)%Z |}
        :: chunksFrom fuel' (start + chunkSize)%Z len
      else []
  end.

(** [uploadLargeFile(path, content)] for a content of [len] bytes: the
    requests it sends when none fails.  The loop makes at most
    [len / chunkSize + 1] rounds. *)
Definition uploadLargeFile (len : Z) : list Chunk :=
  chunksFrom (S (Z.to_nat (len / chunkSize))) 0 len.

(** [uploadFile(path, content)]: one request below 4 MB, chunks from there
    on. *)
Inductive UploadPlan : Type :=
| SimpleUpload
| ChunkedUpload (chunks : list Chunk).

Definition uploadFile (len : Z) : UploadPlan :=
  if (len <? 4 * 1024 * 1024)%Z then SimpleUpload
  else ChunkedUpload (uploadLargeFile len).

End SharePointStorageAdapterMore.

Module GitHubUploaderMore.

(** The last step of [ensureReportsStructure()]: a missing index (404) is
    created empty, which may throw; any other failure of the look-up is
    swallowed. *)
Definition ensureReportsIndex (io : BackendIo) (stored : Stored GitHubEntry)
  : Attempt (Stored GitHubEntry) :=
  if fetchFails io then Returns stored
  else
    match stored with
    | Some _ => Returns stored
    | None =>
        if storeFails io then Throws
        else Returns (Some {| reports := []; lastUpdated := Some (nowIso io) |})
    end.

(** [str.split('/')]. *)
Fixpoint splitSlash (s : string) : list string :=
  match s with
  | EmptyString => [EmptyString]
  | String c s' =>
      if Ascii.eqb c "/"%char then EmptyString :: splitSlash s'
      else
        match splitSlash s' with
        | h :: t => String c h :: t
        | [] => [String c EmptyString]
        end
  end.

(** What [fromConfig(config)] builds or throws. *)
Inductive FromConfig : Type :=
| InvalidRepository
| TokenNotFound
| Uploader (owner repo token : string).

(** [GitHubUploader.fromConfig(config)], from [config.repository],
    [config.github?.token] and [process.env.GITHUB_TOKEN]. *)
Definition fromConfig
    (repository : string) (configToken envToken : option string) : FromConfig :=
  match splitSlash repository with
  | owner :: repo :: _ =>
      if String.eqb owner "" || String.eqb repo "" then InvalidRepository
      else
        let token :=
          if truthyString configToken then configToken else envToken in
        match token with
        | Some t => if String.eqb t "" then TokenNotFound else Uploader owner repo t
        | None => TokenNotFound
        end
  | _ => InvalidRepository
  end.

End GitHubUploaderMore.

(* ================================================================== *)
(** ** The first [TraceProcessor] of [trace-processor.ts] *)
(* ================================================================== *)

Module LegacyTraceProcessor.

(** [TestResult]. *)
Record TestResult : Type := mkTestResult {
  l_testName : string;
  l_status : TestStatus;
  l_duration : Z;
  l_error : option string;
  l_screenshots : list string;
  l_traceFile : option string
}.

(** [TestSummary]. *)
Record TestSummary : Type := mkTestSummary {
  l_total : nat;
  l_passed : nat;
  l_failed : nat;
  l_skipped : nat;
  l_totalDuration : Z
}.

(** The object in a result file, every property optional. *)
Record ResultJson : Type := mkResultJson {
  j_status : option string;
  j_name : option string;
  j_duration : option Z;
  j_error : option string;
  j_screenshots : option (list string);
  j_traceFile : option string
}.

(** What [JSON.parse(readFileSync(filePath, 'utf8'))] gives: a throw of the
    read, of the parse or of the access to [data.status], or an object. *)
Inductive FileText : Type :=
| NotJson
| Json (data : ResultJson).

(** A file below the results directory: its path relative to it, as
    [readdirSync(..., { recursive: true })] lists it, and its text. *)
Record FoundFile : Type := mkFoundFile {
  relativePath : string;
  fileText : FileText
}.

(** The two tests of [findTestResults()]. *)
Definition isResultFile (file : string) : bool :=
  JsString.endsWith file ".json" && JsString.includes file "results".

Definition isTraceArchive (file : string) : bool :=
  JsString.endsWith file ".zip" && JsString.includes file "trace".

(** [findTestResults()]: the listing is [None] when [readdirSync] throws.
    Each of the two tests pushes the path. *)
Definition findTestResults (listing : option (list FoundFile)) : list FoundFile :=
  match listing with
  | None => []
  | Some files =>
      flat_map
        (fun f =>
           (if isResultFile (relativePath f) then [f] else []) ++
           (if isTraceArchive (relativePath f) then [f] else []))
        files
  end.

(** [processTestResult(filePath)]. *)
Definition processTestResult (testResultsPath : string) (f : FoundFile) : TestResult :=
  let fileName := basename (join testResultsPath (relativePath f)) in
  let fallback :=
    {| l_testName := fileName; l_status := Passed; l_duration := 0%Z;
       l_error := None; l_screenshots := []; l_traceFile := None |} in
  match fileText f with
  | Json data =>
      if truthyString (j_status data) then
        {| l_testName := JsString.orElse (j_name data) fileName;
           l_status :=
             match j_status data with
             | Some st =>
                 if String.eqb st "passed" then Passed
                 else if String.eqb st "failed" then Failed
                 else Skipped
             | None => Skipped
             end;
           l_duration := JsString.orElseZ (j_duration data) 0;
           l_error := j_error data;
           l_screenshots :=
             match j_screenshots data with Some l => l | None => [] end;
           l_traceFile := j_traceFile data |}
      else fallback
  | NotJson => fallback
  end.

(** [generateSummary(results)]. *)
Definition generateSummary (rs : list TestResult) : TestSummary :=
  {| l_total := List.length rs;
     l_passed := countIf (fun r => TestStatus_eqb (l_status r) Passed) rs;
     l_failed := countIf (fun r => TestStatus_eqb (l_status r) Failed) rs;
     l_skipped := countIf (fun r => TestStatus_eqb (l_status r) Skipped) rs;
     l_totalDuration := fold_left (fun sum r => (sum + l_duration r)%Z) rs 0%Z |}.

(** The results and the summary of [processTestResults()]. *)
Definition processTestResults
    (testResultsPath : string) (listing : option (list FoundFile))
  : list TestResult * TestSummary :=
  let processed := map (processTestResult testResultsPath) (findTestResults listing) in
  (processed, generateSummary processed).

End LegacyTraceProcessor.

(* end of model *)

(* ================================================================== *)
(** ** Vocabulary of the statements *)
(* ================================================================== *)

(** The intent asks for the failure of this result: failures are expected
    and some target is a part of the title. *)
Definition TargetedForFailure
    (result : PlaywrightTestResult) (i : TestExecutionIntent) : Prop :=
  expectFailures i = true /\
  exists targets target,
    targetTests i = Some targets /\
    In target targets /\
    JsString.Substring target (testTitle result).

(** The raw statuses that end up as [Failed]. *)
Definition countsAsFailed (r : PlaywrightTestResult) : bool :=
  match status r with
  | Failed | TimedOut | Interrupted => true
  | _ => false
  end.

(** The elements of a list that come before its first [null]. *)
Fixpoint beforeFirstNull {A : Type} (l : list (option A)) : list A :=
  match l with
  | Some x :: rest => x :: beforeFirstNull rest
  | _ => []
  end.

Definition isNull {A : Type} (x : option A) : bool :=
  match x with
  | Some _ => false
  | None => true
  end.

(** Iterating the property throws, and the records it yields before that,
    or in all when nothing throws. *)
Definition listedThrows {A : Type} (items : Listed A) : bool :=
  match items with
  | Falsy => false
  | NotIterable => true
  | Elements l => existsb isNull l
  end.

Definition listedRecords {A B : Type} (record : A -> B) (items : Listed A) : list B :=
  match items with
  | Elements l => map record (beforeFirstNull l)
  | _ => []
  end.

(** The errors reader throws at this entry; the steps reader does. *)
Definition errorsThrowAt (e : ZipEntry) : bool :=
  isStructuredEntry e &&
  match entryContent e with
  | Malformed => true
  | TraceData errs _ => listedThrows errs
  end.

Definition stepsThrowAt (e : ZipEntry) : bool :=
  isStructuredEntry e &&
  match entryContent e with
  | Malformed => true
  | TraceData _ acts => listedThrows acts
  end.

(** The records each reader has pushed from this entry when it leaves it,
    normally or by a throw. *)
Definition errorsPushedAt (e : ZipEntry) : list PlaywrightError :=
  if isStructuredEntry e then
    match entryContent e with
    | Malformed => []
    | TraceData errs _ => listedRecords toPlaywrightError errs
    end
  else [].

Definition stepsPushedAt (e : ZipEntry) : list TestStep :=
  if isStructuredEntry e then
    match entryContent e with
    | Malformed => []
    | TraceData _ acts => listedRecords toTestStep acts
    end
  else [].

(** The entries of an archive up to and including the first at which a
    reader throws. *)
Fixpoint throughFirst {A : Type} (p : A -> bool) (l : list A) : list A :=
  match l with
  | [] => []
  | x :: rest => if p x then [x] else x :: throughFirst p rest
  end.

(** The trace reader as the specification words it: every entry that cannot
    be read is skipped on its own and every other structured entry
    contributes its records. *)
Definition errorsOfEntry (e : ZipEntry) : list PlaywrightError :=
  if errorsThrowAt e then [] else errorsPushedAt e.

Definition stepsOfEntry (e : ZipEntry) : list TestStep :=
  if stepsThrowAt e then [] else stepsPushedAt e.

Definition errorsSkippingMalformed (entries : list ZipEntry) : list PlaywrightError :=
  flat_map errorsOfEntry entries.

Definition stepsSkippingMalformed (entries : list ZipEntry) : list TestStep :=
  flat_map stepsOfEntry entries.

Definition SkipsMalformedIndividually (path : string) (entries : list ZipEntry) : Prop :=
  extractErrorsFromTrace path (Some entries) = errorsSkippingMalformed entries /\
  extractStepsFromTrace path (Some entries) = stepsSkippingMalformed entries.

(** The classifier as the specification words it: the screenshot rule looks
    at the file names. *)
Definition nameLooksLikeFailure (f : File) : bool :=
  JsString.includes (fileName f) "error" || JsString.includes (fileName f) "failure".

Definition screenshotFiles (files : list File) : list File :=
  flat_map (fun p => globby p files) screenshotPatterns.

Definition classifyByFileNames (files : list File) : TestStatus :=
  match findTraceFileEntry files with
  | Some _ => Failed
  | None =>
      if existsb nameLooksLikeFailure (screenshotFiles files) then Failed
      else Passed
  end.

(** Every call of a run reaches the backend both ways. *)
Definition allReliable (calls : list Call) : bool :=
  forallb (fun c => reliable (fst c)) calls.

(** A report with the given id over the given raw results, for the worked
    examples. *)
Definition reportOf (id : string) (number : Z) (raw : list PlaywrightTestResult)
  : ProcessedTestReport :=
  assembleReport
    {| freshId := id;
       startedAt := "2024-05-01T10:00:00.000Z";
       elapsed := 1200%Z;
       capturedIntent :=
         {| purpose := "development"; description := None;
            expectFailures := false; targetTests := Some [];
            goals := []; context := None |} |}
    number raw.

Definition onePassingResult : PlaywrightTestResult :=
  {| testTitle := "login"; status := Passed; duration := 0%Z;
     screenshots := []; errors := []; steps := []; traceFile := None |}.

Definition reliableIo : BackendIo :=
  {| nowIso := "2024-05-01T10:00:02.000Z"; fetchFails := false; storeFails := false |}.

(** Whatever the backend does, a call leaves the stored index alone or leaves
    one of at most 100 entries. *)
Definition BoundedOrUntouched {E : Type}
    (update : BackendIo -> Stored E -> ProcessedTestReport -> Stored E) : Prop :=
  forall io stored report,
    update io stored report = stored \/
    List.length (storedReports (update io stored report)) <= 100.

(** A call that reaches the backend leaves at most 100 entries. *)
Definition BoundedWhenReliable {E : Type}
    (update : BackendIo -> Stored E -> ProcessedTestReport -> Stored E) : Prop :=
  forall io stored report,
    reliable io = true ->
    List.length (storedReports (update io stored report)) <= 100.

(** A file name that one of the trace patterns takes: not a dot file, and
    ending in [.trace] or [.zip]. *)
Definition looksLikeTrace (name : string) : bool :=
  negb (JsString.startsWith name ".") &&
  (JsString.endsWith name ".trace" || JsString.endsWith name ".zip").

(** The seven values of [TestExecutionIntent['purpose']]. *)
Definition purposes : list string :=
  [ "development"; "debugging"; "regression"; "validation"; "exploration";
    "ci-cd"; "manual" ].

(** A call during which neither reading nor writing the counter file
    throws. *)
Definition counterIoWorks (io : CounterIo) : bool :=
  negb (readThrows io) && negb (writeThrows io).

(** The names of the sub-directories among the items of a results
    directory, in order: those that can be processed, and those in which
    processing throws. *)
Definition readableDirectoryNames (items : list DirItem) : list string :=
  flat_map
    (fun item =>
       match item with
       | SubDirectory name _ => [name]
       | _ => []
       end)
    items.

Definition unreadableDirectoryNames (items : list DirItem) : list string :=
  flat_map
    (fun item =>
       match item with
       | UnreadableDirectory name => [name]
       | _ => []
       end)
    items.

Definition isDirectory (item : DirItem) : bool :=
  match item with
  | LooseFile _ => false
  | _ => true
  end.

(** The integers to which 1 can be added without rounding, the sum being
    an integer of less than 54 bits. *)
Definition safeToIncrement (n : Z) : Prop :=
  (- 2 ^ 53 <= n <= 2 ^ 53 - 2)%Z.


(** The ids of the reports uploaded by a run of calls, oldest first. *)
Definition uploadedIds (calls : list Call) : list string :=
  map (fun c => uniqueId (execution (snd c))) calls.

(** The bytes sent by a list of chunks. *)
Definition totalLength (cs : list SharePointStorageAdapterMore.Chunk) : Z :=
  fold_right Z.add 0%Z (map SharePointStorageAdapterMore.chunkLength cs).

(** A chunk is well formed for a content of [len] bytes: it is not empty, no
    longer than the chunk size, lies inside the content, and ends where the
    next multiple of the chunk size or the content ends. *)
Definition chunkFits (len : Z) (c : SharePointStorageAdapterMore.Chunk) : Prop :=
  (1 <= SharePointStorageAdapterMore.chunkLength c
     <= SharePointStorageAdapterMore.chunkSize)%Z /\
  (0 <= SharePointStorageAdapterMore.rangeFirst c)%Z /\
  (SharePointStorageAdapterMore.rangeLast c < len)%Z /\
  (SharePointStorageAdapterMore.rangeLast c
   = SharePointStorageAdapterMore.rangeFirst c
     + SharePointStorageAdapterMore.chunkLength c - 1)%Z /\
  (SharePointStorageAdapterMore.rangeLast c
   = Z.min (SharePointStorageAdapterMore.rangeFirst c
            + SharePointStorageAdapterMore.chunkSize) len - 1)%Z.

(** A file name that one of the screenshot patterns takes. *)
Definition isScreenshotName (name : string) : bool :=
  negb (JsString.startsWith name ".") &&
  (JsString.endsWith name ".png" || JsString.endsWith name ".jpg"
   || JsString.endsWith name ".jpeg").

(* end of vocabulary *)

(* ================================================================== *)
(** * Properties *)
(* ================================================================== *)

(** ** Strings *)

Section StringFacts.

Import JsString.

Lemma startsWith_iff (s t : string) :
  startsWith s t = true <-> exists post, s = String.append t post.
Proof.
  revert s; induction t as [| b t IH]; intros s; simpl.
  - split; [intros _; now exists s | reflexivity].
  - destruct s as [| a s]; simpl.
    + split; [discriminate | intros [post H]; discriminate].
    + rewrite andb_true_iff, Ascii.eqb_eq, IH. split.
      * intros [-> [post ->]]. now exists post.
      * intros [post H]. injection H as -> ->. split; [reflexivity | now exists post].
Qed.

Lemma includes_unfold (s t : string) :
  includes s t =
  startsWith s t ||
  match s with
  | EmptyString => false
  | String _ s' => includes s' t
  end.
Proof. destruct s; reflexivity. Qed.

Lemma includes_iff (s t : string) :
  includes s t = true <-> Substring t s.
Proof.
  unfold Substring. induction s as [| a s IH]; rewrite includes_unfold.
  - rewrite orb_false_r, startsWith_iff. split.
    + intros [post H]. exists EmptyString, post. exact H.
    + intros [pre [post H]]. destruct pre; [now exists post | discriminate].
  - rewrite orb_true_iff, startsWith_iff, IH. split.
    + intros [[post H] | [pre [post H]]].
      * exists EmptyString, post. exact H.
      * exists (String a pre), post. simpl. now rewrite H.
    + intros [pre [post H]]. destruct pre as [| c pre]; simpl in H.
      * left. now exists post.
      * right. injection H as _ H. now exists pre, post.
Qed.

Lemma append_assoc (a b c : string) :
  String.append (String.append a b) c = String.append a (String.append b c).
Proof. induction a as [| x a IH]; simpl; [reflexivity | now rewrite IH]. Qed.

(** What is found in a file name is found in every path that ends with it. *)
Lemma includes_join (dir name t : string) :
  includes name t = true -> includes (join dir name) t = true.
Proof.
  rewrite !includes_iff. intros [pre [post ->]]. unfold join.
  exists (String.append dir (String.append "/" pre)), post.
  now rewrite !append_assoc.
Qed.

End StringFacts.

(** ** The primitives on sample inputs *)

Example endsWith_trace_zip :
  JsString.endsWith "test-results/cart-chromium/trace.zip" ".zip" = true /\
  JsString.endsWith "recording.trace" ".zip" = false /\
  JsString.endsWith "zip" ".zip" = false.
Proof. repeat split. Qed.

Example includes_samples :
  JsString.includes "checkout > should apply discount" "checkout" = true /\
  JsString.includes "login-error.png" "error" = true /\
  JsString.includes "login.png" "failure" = false /\
  JsString.includes "" "" = true.
Proof. repeat split. Qed.

Example globMatches_samples :
  globMatches (Star ".png") "login-error.png" = true /\
  globMatches (Star ".png") ".png" = false /\
  globMatches (Literal "trace.zip") "trace.zip" = true /\
  globMatches (Star ".zip") "trace.zip" = true /\
  globMatches (Star ".trace") "trace.zip" = false.
Proof. repeat split. Qed.

Example parsedTestName_samples :
  parsedTestName "auth-login-chromium-retry0-20231120-123456" = "auth-login" /\
  parsedTestName "cart-chromium" = "cart-chromium".
Proof. repeat split. Qed.

Example inferActionFromFilename_samples :
  inferActionFromFilename "Login-Error.png" = Some "error" /\
  inferActionFromFilename "after-click-submit.png" = Some "click" /\
  inferActionFromFilename "test-finished-1.png" = None.
Proof. repeat split. Qed.

Example mapStatusToOutcome_samples :
  map (fun s => mapStatusToOutcome (statusString s))
      [Passed; Failed; Skipped; TimedOut; Interrupted]
  = [Pass; Fail; Skip; Fail; Fail] /\
  mapStatusToOutcome "flaky" = Fail.
Proof. repeat split. Qed.

(** Scenario 2 of the specification: [login-error.png] and no trace file. *)
Example classify_error_screenshot :
  determineTestStatus "test-results/login-chromium"
    [ {| fileName := "login-error.png"; mtimeMs := 0%Z; archive := None |} ]
  = Failed.
Proof. reflexivity. Qed.

(** A trace file and a screenshot with a harmless name. *)
Example classify_trace_present :
  determineTestStatus "test-results/login-chromium"
    [ {| fileName := "done.png"; mtimeMs := 0%Z; archive := None |};
      {| fileName := "trace.zip"; mtimeMs := 0%Z; archive := Some [] |} ]
  = Failed.
Proof. reflexivity. Qed.

Example classify_clean_directory :
  determineTestStatus "test-results/login-chromium"
    [ {| fileName := "done.png"; mtimeMs := 0%Z; archive := None |};
      {| fileName := "video.webm"; mtimeMs := 0%Z; archive := None |} ]
  = Passed.
Proof. reflexivity. Qed.

(** ** Expectation reconciler *)

Lemma someTargetIn_iff (title : string) (targets : option (list string)) :
  someTargetIn title targets = true <->
  exists ts target,
    targets = Some ts /\ In target ts /\ JsString.Substring target title.
Proof.
  destruct targets as [ts |]; simpl.
  - rewrite existsb_exists. split.
    + intros [target [Hin Hinc]]. exists ts, target.
      rewrite includes_iff in Hinc. auto.
    + intros [ts' [target [Heq [Hin Hsub]]]]. injection Heq as <-.
      exists target. rewrite includes_iff. auto.
  - split; [discriminate | intros [ts [target [H _]]]; discriminate].
Qed.

(** C7.  The expected outcome is [Fail] exactly when the intent expects
    failures and the title contains one of the target tests as a substring;
    in every other case it is [Pass], in particular when failures are
    expected but the target list is empty or absent. *)
Theorem C7_expected_outcome (result : PlaywrightTestResult) (i : TestExecutionIntent) :
  (determineExpectedOutcome result i = Fail <-> TargetedForFailure result i) /\
  (~ TargetedForFailure result i -> determineExpectedOutcome result i = Pass) /\
  (targetTests i = None \/ targetTests i = Some [] ->
   determineExpectedOutcome result i = Pass).
Proof.
  assert (Hiff : determineExpectedOutcome result i = Fail <-> TargetedForFailure result i).
  { unfold determineExpectedOutcome, TargetedForFailure.
    rewrite <- someTargetIn_iff.
    destruct (expectFailures i);
      destruct (someTargetIn (testTitle result) (targetTests i)); split;
      try tauto; try discriminate; intros [H1 H2]; discriminate. }
  assert (Hcases : determineExpectedOutcome result i = Fail \/
                   determineExpectedOutcome result i = Pass).
  { unfold determineExpectedOutcome.
    destruct (expectFailures i);
      destruct (someTargetIn (testTitle result) (targetTests i)); auto. }
  split; [exact Hiff | split].
  - intros Hn. destruct Hcases as [Hf | Hp]; [| exact Hp].
    exfalso. apply Hn, Hiff, Hf.
  - intros Hempty. unfold determineExpectedOutcome.
    destruct (expectFailures i); [| reflexivity].
    destruct Hempty as [-> | ->]; reflexivity.
Qed.

Lemma C7_expected_outcome_witness :
  let result :=
    {| testTitle := "checkout > should apply discount"; status := Failed;
       duration := 0%Z; screenshots := []; errors := []; steps := [];
       traceFile := None |} in
  let i :=
    {| purpose := "debugging"; description := None; expectFailures := true;
       targetTests := Some ["checkout"]; goals := []; context := None |} in
  determineExpectedOutcome result i = Fail /\ TargetedForFailure result i.
Proof.
  intros result i.
  assert (H : determineExpectedOutcome result i = Fail) by reflexivity.
  split; [exact H |].
  exact (proj1 (proj1 (C7_expected_outcome result i)) H).
Defined.

(** ** Counting *)

Section Counting.

Context {A : Type}.

Lemma countIf_cons (p : A -> bool) (a : A) (l : list A) :
  countIf p (a :: l) = Nat.b2n (p a) + countIf p l.
Proof. unfold countIf. simpl. now destruct (p a). Qed.

(** When [p] and [q] split [r] on every element, their counts add up to
    the count of [r]. *)
Lemma countIf_split (p q r : A -> bool) (l : list A) :
  Forall (fun a => Nat.b2n (p a) + Nat.b2n (q a) = Nat.b2n (r a)) l ->
  countIf p l + countIf q l = countIf r l.
Proof.
  induction 1 as [| a l Ha _ IH].
  - reflexivity.
  - rewrite !countIf_cons. lia.
Qed.

Lemma countIf_all (l : list A) : countIf (fun _ => true) l = List.length l.
Proof.
  induction l as [| a l IH]; [reflexivity |].
  rewrite countIf_cons, IH. reflexivity.
Qed.

Lemma countIf_none (p : A -> bool) (l : list A) :
  Forall (fun a => p a = false) l -> countIf p l = 0.
Proof.
  induction 1 as [| a l Ha _ IH]; [reflexivity |].
  rewrite countIf_cons, Ha, IH. reflexivity.
Qed.

Lemma countIf_ext (p q : A -> bool) (l : list A) :
  Forall (fun a => p a = q a) l -> countIf p l = countIf q l.
Proof.
  induction 1 as [| a l Ha _ IH]; [reflexivity |].
  rewrite !countIf_cons, Ha, IH. reflexivity.
Qed.

End Counting.

Lemma countIf_map {A B : Type} (f : A -> B) (p : B -> bool) (l : list A) :
  countIf p (map f l) = countIf (fun a => p (f a)) l.
Proof.
  induction l as [| a l IH]; [reflexivity |].
  simpl map. rewrite !countIf_cons, IH. reflexivity.
Qed.

(** ** What the reconciler writes into one result *)

(** The status written into a report is never [TimedOut] or [Interrupted]. *)
Lemma enhanceResult_status (i : TestExecutionIntent) (r : PlaywrightTestResult) :
  r_status (enhanceResult i r) = Passed \/
  r_status (enhanceResult i r) = Failed \/
  r_status (enhanceResult i r) = Skipped.
Proof. unfold enhanceResult; simpl. destruct (status r); auto. Qed.

(** The actual outcome follows the normalised status. *)
Lemma enhanceResult_actual (i : TestExecutionIntent) (r : PlaywrightTestResult) :
  actualOutcome (enhanceResult i r) =
  match r_status (enhanceResult i r) with
  | Passed => Pass
  | Skipped => Skip
  | _ => Fail
  end.
Proof. unfold enhanceResult; simpl. destruct (status r); reflexivity. Qed.

Lemma enhanceResult_expected (i : TestExecutionIntent) (r : PlaywrightTestResult) :
  expectedOutcome (enhanceResult i r) = Pass \/
  expectedOutcome (enhanceResult i r) = Fail.
Proof.
  unfold enhanceResult, determineExpectedOutcome; simpl.
  destruct (expectFailures i); [| now left].
  destruct (someTargetIn (testTitle r) (targetTests i)); auto.
Qed.

Lemma Forall_enhanced (P : EnhancedResult -> Prop)
    (i : TestExecutionIntent) (raw : list PlaywrightTestResult) :
  (forall r, P (enhanceResult i r)) -> Forall P (map (enhanceResult i) raw).
Proof. intros H. apply Forall_forall. intros x Hx. apply in_map_iff in Hx as [r [<- _]]. apply H. Qed.

(** ** Report summary *)

(** C2.  In every assembled report the passed, failed and skipped counts add
    up to the total, and the total is the number of results in the report. *)
Theorem C2_summary_partitions_results
    (run : RunInputs) (number : Z) (rawResults : list PlaywrightTestResult) :
  let report := assembleReport run number rawResults in
  passed (summary report) + failed (summary report) + skipped (summary report)
    = total (summary report) /\
  total (summary report) = List.length (results report).
Proof.
  simpl. split; [| reflexivity].
  set (rs := map (enhanceResult (capturedIntent run)) rawResults).
  rewrite <- (countIf_all rs).
  rewrite (countIf_split
             (fun r => TestStatus_eqb (r_status r) Passed)
             (fun r => TestStatus_eqb (r_status r) Failed)
             (fun r => negb (TestStatus_eqb (r_status r) Skipped)) rs).
  - apply countIf_split. apply Forall_forall. intros r _.
    destruct (TestStatus_eqb (r_status r) Skipped); reflexivity.
  - apply Forall_enhanced. intros r.
    destruct (enhanceResult_status (capturedIntent run) r) as [-> | [-> | ->]];
      reflexivity.
Qed.

(** C3.  In every assembled report the expected and unexpected failures add
    up to the failed count and the expected and unexpected passes add up to
    the passed count; this rests on the actual outcome of every result being
    [Fail] exactly when its normalised status is [Failed], and [Pass] exactly
    when it is [Passed]. *)
Theorem C3_summary_expectation_split
    (run : RunInputs) (number : Z) (rawResults : list PlaywrightTestResult) :
  let report := assembleReport run number rawResults in
  expectedFails (summary report) + unexpectedFails (summary report)
    = failed (summary report) /\
  expectedPasses (summary report) + unexpectedPasses (summary report)
    = passed (summary report) /\
  Forall (fun r => (actualOutcome r = Fail <-> r_status r = Failed) /\
                   (actualOutcome r = Pass <-> r_status r = Passed))
         (results report).
Proof.
  simpl. repeat split.
  - apply countIf_split. apply Forall_enhanced. intros r.
    rewrite enhanceResult_actual.
    destruct (enhanceResult_expected (capturedIntent run) r) as [-> | ->];
      destruct (enhanceResult_status (capturedIntent run) r) as [-> | [-> | ->]];
      reflexivity.
  - apply countIf_split. apply Forall_enhanced. intros r.
    rewrite enhanceResult_actual.
    destruct (enhanceResult_expected (capturedIntent run) r) as [-> | ->];
      destruct (enhanceResult_status (capturedIntent run) r) as [-> | [-> | ->]];
      reflexivity.
  - apply Forall_enhanced. intros r. rewrite enhanceResult_actual.
    destruct (enhanceResult_status (capturedIntent run) r) as [-> | [-> | ->]];
      repeat split; intros H; try reflexivity; discriminate.
Qed.

(** C8.  Report assembly turns the raw statuses [TimedOut] and [Interrupted]
    into [Failed] before the summary is computed: every status in the report
    is [Passed], [Failed] or [Skipped], and the failed count of the summary
    counts the raw results that failed, timed out or were interrupted. *)
Theorem C8_statuses_normalised
    (run : RunInputs) (number : Z) (rawResults : list PlaywrightTestResult) :
  let report := assembleReport run number rawResults in
  Forall (fun r => r_status r = Passed \/ r_status r = Failed \/ r_status r = Skipped)
         (results report) /\
  Forall2 (fun raw r =>
             (status raw = TimedOut \/ status raw = Interrupted -> r_status r = Failed) /\
             (status raw = Passed \/ status raw = Failed \/ status raw = Skipped ->
              r_status r = status raw))
          rawResults (results report) /\
  failed (summary report) = countIf countsAsFailed rawResults /\
  summary report = calculateEnhancedSummary (results report) (capturedIntent run).
Proof.
  simpl. repeat split.
  - apply Forall_enhanced. intros r. apply enhanceResult_status.
  - induction rawResults as [| raw l IH]; simpl; constructor; [| exact IH].
    unfold enhanceResult; simpl. split.
    + intros [-> | ->]; reflexivity.
    + intros [H | [H | H]]; rewrite H; reflexivity.
  - rewrite countIf_map. apply countIf_ext. apply Forall_forall. intros r _.
    unfold enhanceResult, countsAsFailed; simpl. destruct (status r); reflexivity.
Qed.

(** ** Outcome classifier *)

Lemma findTraceFile_entry (testDir : string) (files : list File) :
  findTraceFile testDir files = None <-> findTraceFileEntry files = None.
Proof.
  unfold findTraceFile. destruct (findTraceFileEntry files); simpl; split;
    intros H; try reflexivity; discriminate.
Qed.

(** Rule 1: a trace file decides, whatever the screenshots are. *)
Lemma trace_takes_precedence (testDir : string) (files : list File) (t : string) :
  findTraceFile testDir files = Some t -> determineTestStatus testDir files = Failed.
Proof. unfold determineTestStatus. now intros ->. Qed.

Lemma collectScreenshots_paths (testDir : string) (files : list File) :
  map filePath (collectScreenshots testDir files) =
  map (fun f => join testDir (fileName f)) (screenshotFiles files).
Proof.
  unfold collectScreenshots, screenshotFiles.
  induction screenshotPatterns as [| p ps IH]; simpl; [reflexivity |].
  rewrite !map_app, IH, map_map. reflexivity.
Qed.

Lemma existsb_looksLikeFailure (testDir : string) (files : list File) :
  existsb looksLikeFailure (collectScreenshots testDir files) =
  existsb (fun f => JsString.includes (join testDir (fileName f)) "error"
                    || JsString.includes (join testDir (fileName f)) "failure")
          (screenshotFiles files).
Proof.
  unfold collectScreenshots, screenshotFiles.
  induction screenshotPatterns as [| p ps IH]; simpl; [reflexivity |].
  rewrite !existsb_app, IH. f_equal.
  induction (globby p files) as [| f l IHl]; simpl; [reflexivity |].
  now rewrite IHl.
Qed.

(** Rule 2: without a trace file, a screenshot whose name has the word
    decides. *)
Lemma failure_screenshot_fails (testDir : string) (files : list File) :
  findTraceFile testDir files = None ->
  existsb nameLooksLikeFailure (screenshotFiles files) = true ->
  determineTestStatus testDir files = Failed.
Proof.
  intros Hnone Hshot. unfold determineTestStatus. rewrite Hnone.
  rewrite existsb_looksLikeFailure.
  apply existsb_exists in Hshot as [f [Hin Hname]].
  replace (existsb _ (screenshotFiles files)) with true; [reflexivity |].
  symmetry. apply existsb_exists. exists f. split; [exact Hin |].
  unfold nameLooksLikeFailure in Hname.
  apply orb_true_iff in Hname as [H | H]; apply orb_true_iff;
    [left | right]; now apply includes_join.
Qed.

(** The classifier answers [Passed] or [Failed], nothing else. *)
Lemma determineTestStatus_two_valued (testDir : string) (files : list File) :
  determineTestStatus testDir files = Passed \/
  determineTestStatus testDir files = Failed.
Proof.
  unfold determineTestStatus.
  destruct (findTraceFile testDir files); [now right |].
  destruct (existsb looksLikeFailure (collectScreenshots testDir files)); auto.
Qed.

(** C6.  The screenshot rule reads the whole path, so the name of the test
    directory takes part in it: a directory [login-error-message-chromium]
    that holds no trace file and one screenshot [test-finished-1.png] is
    classified [Failed], although no screenshot file name carries the word
    and the three rules of the specification give [Passed]. *)
Theorem C6_directory_name_triggers_screenshot_rule :
  let testDir := join "test-results" "login-error-message-chromium" in
  let files := [ {| fileName := "test-finished-1.png"; mtimeMs := 1700000000000%Z;
                    archive := None |} ] in
  findTraceFile testDir files = None /\
  existsb nameLooksLikeFailure (screenshotFiles files) = false /\
  map actionBefore (collectScreenshots testDir files) = [None] /\
  classifyByFileNames files = Passed /\
  determineTestStatus testDir files = Failed.
Proof. vm_compute. repeat split. Qed.

(** ** Reports assembled from scanned directories *)

Lemma processTestFiles_statuses (path : string) (root : option (list DirItem)) :
  Forall (fun r => status r = Passed \/ status r = Failed)
         (processTestFiles path root).
Proof.
  destruct root as [items |]; simpl; [| constructor].
  induction items as [| item items IH]; simpl; [constructor |].
  destruct item as [f | name files | name]; simpl; [exact IH | | exact IH].
  constructor; [| exact IH].
  apply determineTestStatus_two_valued.
Qed.

Lemma getNextReportNumber_resolves (io : CounterIo) (file : CounterFile) :
  exists n, fst (getNextReportNumber io file) = Resolved n.
Proof.
  unfold getNextReportNumber.
  destruct (nextReportNumberBody io file) as [[n file'] |]; simpl; eauto.
Qed.

Lemma processTestResults_resolves
    (path : string) (root : option (list DirItem))
    (run : RunInputs) (io : CounterIo) (file : CounterFile) :
  exists number,
    fst (getNextReportNumber io file) = Resolved number /\
    fst (processTestResults path root run io file) =
    Resolved (assembleReport run number (processTestFiles path root)).
Proof.
  destruct (getNextReportNumber_resolves io file) as [n Hn].
  exists n. split; [exact Hn |].
  unfold processTestResults.
  destruct (getNextReportNumber io file) as [[m |] file']; simpl in *;
    [injection Hn as -> | discriminate]; reflexivity.
Qed.

(** C10.  The classifier returns [Passed] or [Failed] for every directory;
    so the report assembled from a scan of any results directory has a
    skipped count of 0 and no result whose actual outcome is [Skip]. *)
Theorem C10_scanned_reports_never_skip :
  (forall testDir files,
      determineTestStatus testDir files = Passed \/
      determineTestStatus testDir files = Failed) /\
  (forall path root run io file,
      exists report,
        fst (processTestResults path root run io file) = Resolved report /\
        skipped (summary report) = 0 /\
        Forall (fun r => actualOutcome r <> Skip) (results report)).
Proof.
  split; [exact determineTestStatus_two_valued |].
  intros path root run io file.
  destruct (processTestResults_resolves path root run io file) as [n [_ H]].
  eexists. split; [exact H |].
  pose proof (processTestFiles_statuses path root) as Hst.
  simpl. split.
  - rewrite countIf_map. apply countIf_none.
    eapply Forall_impl; [| exact Hst]. intros r [Hr | Hr];
      unfold enhanceResult; simpl; rewrite Hr; reflexivity.
  - apply Forall_forall. intros x Hx. apply in_map_iff in Hx as [r [<- Hr]].
    rewrite Forall_forall in Hst. destruct (Hst r Hr) as [Hs | Hs];
      unfold enhanceResult; simpl; rewrite Hs; discriminate.
Qed.

(** ** Trace bundle reader *)

Section Pushing.

Context {A B : Type}.
Variable record : A -> B.

Lemma pushEach_spec (l : list (option A)) (acc : list B) :
  pushEach record l acc =
  (if existsb isNull l then Abrupt else Normal)
    (acc ++ map record (beforeFirstNull l)).
Proof.
  revert acc. induction l as [| x rest IH]; intros acc; simpl.
  - now rewrite app_nil_r.
  - destruct x as [a |]; simpl.
    + rewrite IH, <- app_assoc. reflexivity.
    + now rewrite app_nil_r.
Qed.

Lemma pushListed_spec (items : Listed A) (acc : list B) :
  pushListed record items acc =
  (if listedThrows items then Abrupt else Normal)
    (acc ++ listedRecords record items).
Proof.
  destruct items as [| | l]; simpl; try now rewrite app_nil_r.
  apply pushEach_spec.
Qed.

End Pushing.

Lemma errorsLoop_caught (entries : list ZipEntry) (acc : list PlaywrightError) :
  caught (errorsLoop entries acc) =
  acc ++ flat_map errorsPushedAt (throughFirst errorsThrowAt entries).
Proof.
  revert acc. induction entries as [| e rest IH]; intros acc; simpl.
  - now rewrite app_nil_r.
  - unfold errorsThrowAt, errorsPushedAt.
    destruct (isStructuredEntry e) eqn:Hs; simpl.
    + destruct (entryContent e) as [| errs acts] eqn:Hc; simpl.
      * rewrite Hs, Hc. simpl. now rewrite app_nil_r.
      * rewrite pushListed_spec.
        destruct (listedThrows errs) eqn:Ht; simpl; rewrite Hs, Hc.
        -- now rewrite app_nil_r.
        -- rewrite IH, <- app_assoc. reflexivity.
    + rewrite IH, Hs. reflexivity.
Qed.

Lemma stepsLoop_caught (entries : list ZipEntry) (acc : list TestStep) :
  caught (stepsLoop entries acc) =
  acc ++ flat_map stepsPushedAt (throughFirst stepsThrowAt entries).
Proof.
  revert acc. induction entries as [| e rest IH]; intros acc; simpl.
  - now rewrite app_nil_r.
  - unfold stepsThrowAt, stepsPushedAt.
    destruct (isStructuredEntry e) eqn:Hs; simpl.
    + destruct (entryContent e) as [| errs acts] eqn:Hc; simpl.
      * rewrite Hs, Hc. simpl. now rewrite app_nil_r.
      * rewrite pushListed_spec.
        destruct (listedThrows acts) eqn:Ht; simpl; rewrite Hs, Hc.
        -- now rewrite app_nil_r.
        -- rewrite IH, <- app_assoc. reflexivity.
    + rewrite IH, Hs. reflexivity.
Qed.

(** Where nothing throws, nothing is cut off and nothing is skipped. *)
Lemma throughFirst_all {A : Type} (p : A -> bool) (l : list A) :
  existsb p l = false -> throughFirst p l = l.
Proof.
  induction l as [| x rest IH]; simpl; [reflexivity |].
  destruct (p x); simpl; [discriminate |].
  intros H. now rewrite IH.
Qed.

Lemma flat_map_unless {A B : Type} (p : A -> bool) (f : A -> list B) (l : list A) :
  existsb p l = false ->
  flat_map (fun x => if p x then [] else f x) l = flat_map f l.
Proof.
  induction l as [| x rest IH]; simpl; [reflexivity |].
  destruct (p x); simpl; [discriminate |].
  intros H. now rewrite IH.
Qed.

(** C4, as the code has it.  Reading a bundle never throws.  Each of the
    two readers returns the records it had pushed when it first threw: all
    the records of the structured entries before the entry at which it
    throws, and of that entry the records that precede the throw; nothing
    of the entries behind it.  The errors reader throws at an entry that
    cannot be parsed or whose [errors] cannot be iterated or hold a [null];
    the steps reader at one that cannot be parsed or whose [actions] cannot
    be iterated or hold a [null].  A reader that throws nowhere returns all
    the records of the bundle. *)
Theorem C4_extraction_stops_at_first_throw
    (path : string) (entries : list ZipEntry) :
  JsString.endsWith path ".zip" = true ->
  extractErrorsFromTrace path (Some entries) =
    flat_map errorsPushedAt (throughFirst errorsThrowAt entries) /\
  extractStepsFromTrace path (Some entries) =
    flat_map stepsPushedAt (throughFirst stepsThrowAt entries) /\
  (existsb errorsThrowAt entries = false ->
   extractErrorsFromTrace path (Some entries) = errorsSkippingMalformed entries) /\
  (existsb stepsThrowAt entries = false ->
   extractStepsFromTrace path (Some entries) = stepsSkippingMalformed entries).
Proof.
  intros Hzip.
  assert (He : extractErrorsFromTrace path (Some entries) =
               flat_map errorsPushedAt (throughFirst errorsThrowAt entries)).
  { unfold extractErrorsFromTrace. rewrite Hzip. apply errorsLoop_caught. }
  assert (Hs : extractStepsFromTrace path (Some entries) =
               flat_map stepsPushedAt (throughFirst stepsThrowAt entries)).
  { unfold extractStepsFromTrace. rewrite Hzip. apply stepsLoop_caught. }
  split; [exact He | split; [exact Hs | split]].
  - intros Hclean. rewrite He, (throughFirst_all _ _ Hclean).
    unfold errorsSkippingMalformed, errorsOfEntry.
    symmetry. now apply flat_map_unless.
  - intros Hclean. rewrite Hs, (throughFirst_all _ _ Hclean).
    unfold stepsSkippingMalformed, stepsOfEntry.
    symmetry. now apply flat_map_unless.
Qed.

Lemma C4_extraction_witness :
  let path := "test-results/cart-chromium/trace.zip" in
  let good :=
    {| entryName := "trace.trace";
       entryContent :=
         TraceData
           (Elements [ Some {| rawMessage := Some "Timeout 30000ms exceeded";
                               rawStack := None; rawLocation := None |} ])
           (Elements [ Some {| apiName := Some "page.click"; method := None;
                               startTime := Some 10%Z; endTime := Some 35%Z |} ]) |} in
  let bad := {| entryName := "resources.json"; entryContent := Malformed |} in
  JsString.endsWith path ".zip" = true /\
  List.length (extractErrorsFromTrace path (Some [good; bad; good])) = 1 /\
  List.length (extractStepsFromTrace path (Some [good; bad; good])) = 1.
Proof.
  intros path good bad.
  assert (Hzip : JsString.endsWith path ".zip" = true) by reflexivity.
  destruct (C4_extraction_stops_at_first_throw path [good; bad; good] Hzip)
    as [He [Hs _]].
  rewrite He, Hs.
  split; [exact Hzip | split; reflexivity].
Defined.

(** C4, as the specification has it, fails: in a bundle whose first
    structured entry is malformed and whose second is well-formed, the
    records of the second are lost. *)
Lemma C4_corrupt_entry_aborts_the_rest :
  let path := "test-results/cart-chromium/trace.zip" in
  let good :=
    {| entryName := "trace.trace";
       entryContent :=
         TraceData
           (Elements [ Some {| rawMessage := Some "Timeout 30000ms exceeded";
                               rawStack := None; rawLocation := None |} ])
           (Elements [ Some {| apiName := Some "page.click"; method := None;
                               startTime := Some 10%Z; endTime := Some 35%Z |} ]) |} in
  let bad := {| entryName := "resources.json"; entryContent := Malformed |} in
  errorsThrowAt good = false /\
  stepsThrowAt good = false /\
  errorsThrowAt bad = true /\
  extractErrorsFromTrace path (Some [bad; good]) = [] /\
  extractStepsFromTrace path (Some [bad; good]) = [] /\
  List.length (errorsSkippingMalformed [bad; good]) = 1 /\
  List.length (stepsSkippingMalformed [bad; good]) = 1 /\
  ~ SkipsMalformedIndividually path [bad; good].
Proof.
  intros path good bad.
  do 7 (split; [reflexivity |]).
  intros [He _]. vm_compute in He. discriminate He.
Qed.

(** The two readers stop on their own: with [errors] a number and
    [actions] a list, the errors reader gives up at the entry and the steps
    reader reads on; a [null] among the errors keeps what was pushed before
    it. *)
Example readers_stop_independently :
  let path := "test-results/cart-chromium/trace.zip" in
  let step name := Some {| apiName := Some name; method := None;
                           startTime := None; endTime := None |} in
  let error text := Some {| rawMessage := Some text; rawStack := None;
                            rawLocation := None |} in
  let first := {| entryName := "a.json";
                  entryContent := TraceData NotIterable (Elements [step "page.goto"]) |} in
  let second := {| entryName := "b.json";
                   entryContent := TraceData (Elements [error "late"])
                                             (Elements [step "page.click"]) |} in
  let third := {| entryName := "c.json";
                  entryContent := TraceData (Elements [error "one"; None; error "two"])
                                            Falsy |} in
  extractErrorsFromTrace path (Some [first; second]) = [] /\
  map stepTitle (extractStepsFromTrace path (Some [first; second]))
    = ["page.goto"; "page.click"] /\
  map message (extractErrorsFromTrace path (Some [third; second])) = ["one"].
Proof. vm_compute. repeat split. Qed.

(** ** Report numbering *)

(** Adding 1 to an integer is exact as long as the sum has less than 54
    bits. *)
Lemma addOne_safe (n : Z) :
  safeToIncrement n ->
  JsNumber.addOne (JsNumber.Finite n 0) = JsNumber.Finite (n + 1) 0.
Proof.
  unfold safeToIncrement. intros Hn.
  unfold JsNumber.addOne, JsNumber.roundToDouble, JsNumber.make.
  change (Z.min 0 0) with 0%Z. change (0 - 0)%Z with 0%Z. change (- 0)%Z with 0%Z.
  change (2 ^ 0)%Z with 1%Z. rewrite Z.mul_1_r.
  change (2 ^ 53)%Z with 9007199254740992%Z in *.
  destruct (Z.ltb_spec (Z.abs (n + 1)) 9007199254740992) as [_ | Hbig]; [| lia].
  change (0 <=? 0)%Z with true. cbn iota. now rewrite Z.mul_1_r.
Qed.

Lemma orZeroPlusOne_safe (n : Z) :
  safeToIncrement n ->
  orZeroPlusOne (JNumber (JsNumber.Finite n 0)) = Returns (integerNumber (n + 1)).
Proof.
  intros Hn. unfold orZeroPlusOne, JsNumber.isZero.
  destruct (Z.eqb_spec n 0) as [-> | _]; [reflexivity |].
  now rewrite addOne_safe.
Qed.

Lemma getNextReportNumber_safe (io : CounterIo) (data : CounterData) (n : Z) :
  lastNumber data = JNumber (JsNumber.Finite n 0) ->
  safeToIncrement n ->
  readThrows io = false -> writeThrows io = false ->
  getNextReportNumber io (Some (Parsed data)) =
  (Resolved (integerNumber (n + 1)),
   Some (Parsed {| lastNumber := JNumber (JsNumber.Finite (n + 1) 0);
                   otherProperties := otherProperties data |})).
Proof.
  intros Hdata Hn Hr Hw. unfold getNextReportNumber, nextReportNumberBody.
  rewrite Hr, Hdata, (orZeroPlusOne_safe n Hn), Hw. reflexivity.
Qed.




(** The addition on sample inputs: exact below 2^53, rounded to even from
    there on, exact on fractions that fit. *)
Example addOne_samples :
  JsNumber.addOne (JsNumber.Finite 41 0) = JsNumber.Finite 42 0 /\
  JsNumber.addOne (JsNumber.Finite (-1) 0) = JsNumber.Finite 0 0 /\
  JsNumber.addOne (JsNumber.Finite (2 ^ 53 - 1) 0) = JsNumber.Finite (2 ^ 53) 0 /\
  JsNumber.addOne (JsNumber.Finite (2 ^ 53) 0) = JsNumber.Finite (2 ^ 53) 0 /\
  JsNumber.addOne (JsNumber.Finite (2 ^ 53 + 2) 0) = JsNumber.Finite (2 ^ 53 + 4) 0 /\
  JsNumber.addOne (JsNumber.Finite (- (2 ^ 53 + 2)) 0) = JsNumber.Finite (- 2 ^ 53) 0 /\
  JsNumber.addOne (JsNumber.Finite 3 (-1)) = JsNumber.Finite 5 (-1) /\
  JsNumber.addOne (JsNumber.Finite 7205759403792794 (-56))
    = JsNumber.Finite 4953959590107546 (-52) /\
  JsNumber.addOne (JsNumber.Infinite false) = JsNumber.Infinite false.
Proof. vm_compute. repeat split. Qed.

(** The counter on stored values that are not numbers, and on texts that
    are not objects. *)
Example getNextReportNumber_samples :
  let io := {| clock := 1700000000000%Z; readThrows := false; writeThrows := false |} in
  let holding v := Some (Parsed {| lastNumber := v; otherProperties := [] |}) in
  getNextReportNumber io (holding JUndefined) =
    (Resolved (integerNumber 1), holding (JNumber (JsNumber.Finite 1 0))) /\
  getNextReportNumber io (holding (JBoolean true)) =
    (Resolved (integerNumber 2), holding (JNumber (JsNumber.Finite 2 0))) /\
  getNextReportNumber io (holding (JString "41")) =
    (Resolved (TextValue "411"), holding (JString "411")) /\
  getNextReportNumber io (holding (JCompound (Some "[object Object]"))) =
    (Resolved (TextValue "[object Object]1"), holding (JString "[object Object]1")) /\
  getNextReportNumber io (holding (JCompound None)) =
    (Resolved (integerNumber 1700000000000), holding (JCompound None)) /\
  getNextReportNumber io (holding (JNumber (JsNumber.Infinite false))) =
    (Resolved (NumberValue (JsNumber.Infinite false)), holding JNull) /\
  getNextReportNumber io (Some ParsedArray) =
    (Resolved (integerNumber 1), Some ParsedArray) /\
  getNextReportNumber io (Some ParsedPrimitive) =
    (Resolved (integerNumber 1700000000000), Some ParsedPrimitive).
Proof. vm_compute. repeat split. Qed.

(** ** The reports index *)

Lemma gitHubMerge_bound (index : Index GitHubEntry) (report : ProcessedTestReport)
    (now : string) :
  List.length (reports (gitHubMerge index report now)) <= 100.
Proof.
  unfold gitHubMerge. cbn [reports].
  destruct (Nat.ltb_spec 100 (List.length (gitHubReportSummary report :: reports index)))
    as [Hlong | Hshort].
  - apply firstn_le_length.
  - exact Hshort.
Qed.

Lemma sharePointMerge_bound (index : Index SharePointEntry) (report : ProcessedTestReport) :
  List.length (reports (sharePointMerge index report)) <= 100.
Proof. unfold sharePointMerge. cbn [reports]. apply firstn_le_length. Qed.

Lemma reliable_flags (io : BackendIo) :
  reliable io = true -> fetchFails io = false /\ storeFails io = false.
Proof.
  unfold reliable. destruct (fetchFails io), (storeFails io); simpl;
    intros H; try discriminate; auto.
Qed.

Lemma gitHubAdapter_reliable : BoundedWhenReliable GitHubStorageAdapter.updateReportsIndex.
Proof.
  intros io stored report Hio. apply reliable_flags in Hio as [Hf Hs].
  unfold GitHubStorageAdapter.updateReportsIndex. rewrite Hf, Hs.
  apply gitHubMerge_bound.
Qed.

Lemma sharePointAdapter_reliable :
  BoundedWhenReliable SharePointStorageAdapter.updateReportsIndex.
Proof.
  intros io stored report Hio. apply reliable_flags in Hio as [Hf Hs].
  unfold SharePointStorageAdapter.updateReportsIndex. rewrite Hf, Hs.
  apply sharePointMerge_bound.
Qed.

Lemma gitHubUploader_reliable : BoundedWhenReliable GitHubUploader.updateReportsIndex.
Proof.
  intros io stored report Hio. apply reliable_flags in Hio as [Hf Hs].
  unfold GitHubUploader.updateReportsIndex. rewrite Hf.
  destruct stored as [index |]; [| simpl; lia].
  rewrite Hs. apply gitHubMerge_bound.
Qed.

Lemma gitHubAdapter_any : BoundedOrUntouched GitHubStorageAdapter.updateReportsIndex.
Proof.
  intros io stored report. unfold GitHubStorageAdapter.updateReportsIndex.
  destruct (fetchFails io); [now left |].
  destruct (storeFails io); [now left |].
  right. apply gitHubMerge_bound.
Qed.

Lemma sharePointAdapter_any : BoundedOrUntouched SharePointStorageAdapter.updateReportsIndex.
Proof.
  intros io stored report. unfold SharePointStorageAdapter.updateReportsIndex.
  destruct (storeFails io); [now left |].
  right. apply sharePointMerge_bound.
Qed.

Lemma gitHubUploader_any : BoundedOrUntouched GitHubUploader.updateReportsIndex.
Proof.
  intros io stored report. unfold GitHubUploader.updateReportsIndex.
  destruct (fetchFails io); [now left |].
  destruct stored as [index |]; [| now left].
  destruct (storeFails io); [now left |].
  right. apply gitHubMerge_bound.
Qed.

Section Runs.

Context {E : Type}.
Variable update : BackendIo -> Stored E -> ProcessedTestReport -> Stored E.

Lemma runCalls_snoc (calls : list Call) (c : Call) (stored : Stored E) :
  runCalls update (calls ++ [c]) stored =
  update (fst c) (runCalls update calls stored) (snd c).
Proof. unfold runCalls. now rewrite fold_left_app. Qed.

(** After a run of calls that all reach the backend, the last call has
    left at most 100 entries. *)
Lemma runCalls_bound (calls : list Call) (stored : Stored E) :
  BoundedWhenReliable update ->
  calls <> [] -> allReliable calls = true ->
  List.length (storedReports (runCalls update calls stored)) <= 100.
Proof.
  intros Hb Hne Hall.
  destruct (exists_last Hne) as [front [c ->]].
  rewrite runCalls_snoc. apply Hb.
  unfold allReliable in Hall. rewrite forallb_app in Hall.
  apply andb_true_iff in Hall as [_ Hc]. simpl in Hc.
  now rewrite andb_true_r in Hc.
Qed.

(** It is the last call that counts: when it reaches the backend, at most
    100 entries are left, whatever the calls before it did. *)
Lemma runCalls_last_reliable (calls : list Call) (c : Call) (stored : Stored E) :
  BoundedWhenReliable update ->
  reliable (fst c) = true ->
  List.length (storedReports (runCalls update (calls ++ [c]) stored)) <= 100.
Proof. intros Hb Hc. rewrite runCalls_snoc. now apply Hb. Qed.

(** With failures allowed: the index is as it was at the start, or has at
    most 100 entries. *)
Lemma runCalls_bounded_or_untouched (calls : list Call) (stored : Stored E) :
  BoundedOrUntouched update ->
  runCalls update calls stored = stored \/
  List.length (storedReports (runCalls update calls stored)) <= 100.
Proof.
  intros Hb. induction calls as [| c calls IH] using rev_ind.
  - now left.
  - rewrite runCalls_snoc.
    destruct (Hb (fst c) (runCalls update calls stored) (snd c)) as [Hsame | Hle].
    + rewrite Hsame. exact IH.
    + now right.
Qed.

End Runs.

(** C5, as the specification has it, fails: a call whose request to the
    backend fails is caught and writes nothing, so an index of 150 entries
    still has 150 entries after it.  The GitHub adapter and the uploader
    give up when the index cannot be fetched, the SharePoint adapter when it
    cannot be stored. *)
Lemma C5_failed_update_keeps_long_index :
  let report := reportOf "R-151" 151%Z [onePassingResult] in
  let offline := {| nowIso := "2024-05-01T10:00:02.000Z";
                    fetchFails := true; storeFails := true |} in
  let long (E : Type) (entry : E) : Stored E :=
    Some {| reports := repeat entry 150; lastUpdated := None |} in
  let old := reportOf "R-old" 7%Z [] in
  List.length
    (storedReports
       (runCalls GitHubStorageAdapter.updateReportsIndex [(offline, report)]
                 (long _ (gitHubReportSummary old)))) = 150 /\
  List.length
    (storedReports
       (runCalls SharePointStorageAdapter.updateReportsIndex [(offline, report)]
                 (long _ (sharePointReportSummary old)))) = 150 /\
  List.length
    (storedReports
       (runCalls GitHubUploader.updateReportsIndex [(offline, report)]
                 (long _ (gitHubReportSummary old)))) = 150 /\
  ~ (List.length
       (storedReports
          (runCalls GitHubStorageAdapter.updateReportsIndex [(offline, report)]
                    (long _ (gitHubReportSummary old)))) <= 100).
Proof.
  intros report offline long old.
  assert (H : List.length
                (storedReports
                   (runCalls GitHubStorageAdapter.updateReportsIndex [(offline, report)]
                             (long _ (gitHubReportSummary old)))) = 150)
    by (vm_compute; reflexivity).
  split; [exact H |].
  split; [vm_compute; reflexivity |].
  split; [vm_compute; reflexivity |].
  rewrite H. lia.
Qed.

(** C5, as the code has it.  Start from any stored index, of any length,
    and apply [updateReportsIndex] any number of times, with any reports:
    for the GitHub adapter, the SharePoint adapter and the GitHub uploader
    alike, the index that results is the one the run started from, no call
    having written it, or it has at most 100 entries; and it has at most 100
    entries whenever the last call reached the backend. *)
Theorem C5_index_bounded_or_untouched (calls : list Call) :
  (forall stored,
      runCalls GitHubStorageAdapter.updateReportsIndex calls stored = stored \/
      List.length
        (storedReports (runCalls GitHubStorageAdapter.updateReportsIndex calls stored))
      <= 100) /\
  (forall stored,
      runCalls SharePointStorageAdapter.updateReportsIndex calls stored = stored \/
      List.length
        (storedReports (runCalls SharePointStorageAdapter.updateReportsIndex calls stored))
      <= 100) /\
  (forall stored,
      runCalls GitHubUploader.updateReportsIndex calls stored = stored \/
      List.length
        (storedReports (runCalls GitHubUploader.updateReportsIndex calls stored))
      <= 100) /\
  (forall last,
      reliable (fst last) = true ->
      (forall stored,
          List.length
            (storedReports
               (runCalls GitHubStorageAdapter.updateReportsIndex (calls ++ [last]) stored))
          <= 100) /\
      (forall stored,
          List.length
            (storedReports
               (runCalls SharePointStorageAdapter.updateReportsIndex (calls ++ [last]) stored))
          <= 100) /\
      (forall stored,
          List.length
            (storedReports
               (runCalls GitHubUploader.updateReportsIndex (calls ++ [last]) stored))
          <= 100)).
Proof.
  split; [| split; [| split]].
  - intros stored. apply runCalls_bounded_or_untouched, gitHubAdapter_any.
  - intros stored. apply runCalls_bounded_or_untouched, sharePointAdapter_any.
  - intros stored. apply runCalls_bounded_or_untouched, gitHubUploader_any.
  - intros last Hlast. split; [| split]; intros stored;
      apply runCalls_last_reliable;
      auto using gitHubAdapter_reliable, sharePointAdapter_reliable,
                 gitHubUploader_reliable.
Qed.

Lemma C5_index_bounded_witness :
  let report := reportOf "R-151" 151%Z [onePassingResult] in
  let old := gitHubReportSummary (reportOf "R-old" 7%Z []) in
  let stored := Some {| reports := repeat old 150; lastUpdated := None |} in
  let offline := {| nowIso := "2024-05-01T10:00:01.000Z";
                    fetchFails := true; storeFails := false |} in
  reliable (fst (reliableIo, report)) = true /\
  List.length (storedReports stored) = 150 /\
  List.length
    (storedReports
       (runCalls GitHubStorageAdapter.updateReportsIndex
                 ([(offline, report)] ++ [(reliableIo, report)]) stored))
  <= 100.
Proof.
  intros report old stored offline.
  assert (Hlast : reliable (fst (reliableIo, report)) = true) by reflexivity.
  split; [exact Hlast | split; [reflexivity |]].
  exact (proj1 (proj2 (proj2 (proj2 (C5_index_bounded_or_untouched [(offline, report)])))
                 (reliableIo, report) Hlast) stored).
Defined.

(** The SharePoint adapter does what the index contract says: the reports
    of the new index are the new entry, then the old entries with another
    id, cut at 100; a report that was already listed ends up first, once,
    and the index is no longer than before. *)
Lemma firstn_none {A : Type} (p : A -> bool) (n : nat) (l : list A) :
  Forall (fun a => p a = false) l -> Forall (fun a => p a = false) (firstn n l).
Proof.
  intros H. revert n. induction H as [| a l Ha _ IH]; intros [| n]; simpl;
    constructor; auto.
Qed.

Lemma filter_shorter_when_present (id : string) (l : list SharePointEntry) :
  In id (map sp_id l) ->
  S (List.length (filter (fun r => negb (String.eqb (sp_id r) id)) l))
  <= List.length l.
Proof.
  induction l as [| a l IH]; simpl; [contradiction |].
  intros [Ha | Hin].
  - rewrite Ha, String.eqb_refl. simpl.
    pose proof (filter_length_le (fun r => negb (String.eqb (sp_id r) id)) l). lia.
  - specialize (IH Hin).
    destruct (negb (String.eqb (sp_id a) id)); simpl; lia.
Qed.

Lemma sharePoint_replaces_existing_entry
    (io : BackendIo) (index : Index SharePointEntry) (report : ProcessedTestReport) :
  reliable io = true ->
  let id := uniqueId (execution report) in
  let after :=
    storedReports (SharePointStorageAdapter.updateReportsIndex io (Some index) report) in
  after =
    firstn 100 (sharePointReportSummary report
                  :: filter (fun r => negb (String.eqb (sp_id r) id)) (reports index)) /\
  hd_error after = Some (sharePointReportSummary report) /\
  countIf (fun r => String.eqb (sp_id r) id) after = 1 /\
  (In id (map sp_id (reports index)) ->
   List.length after <= List.length (reports index)).
Proof.
  intros Hio id after. apply reliable_flags in Hio as [Hf Hs].
  unfold after, SharePointStorageAdapter.updateReportsIndex. rewrite Hf, Hs.
  unfold sharePointMerge. cbn [storedReports reports]. fold id.
  split; [reflexivity | split; [reflexivity | split]].
  - rewrite (firstn_cons 99).
    rewrite countIf_cons. cbn [sp_id sharePointReportSummary]. fold id. rewrite String.eqb_refl.
    rewrite countIf_none; [reflexivity |].
    apply firstn_none. apply Forall_forall. intros r Hr.
    apply filter_In in Hr as [_ Hr]. now apply negb_true_iff in Hr.
  - intros Hin. apply filter_shorter_when_present in Hin.
    rewrite (firstn_cons 99). cbn [List.length].
    pose proof (firstn_le_length 99
                  (filter (fun r => negb (String.eqb (sp_id r) id)) (reports index))).
    rewrite length_firstn. lia.
Qed.

(** C1.  The GitHub adapter has no removal step: uploading the report
    [R1] a second time, with another summary, leaves two entries for [R1];
    the index grew from one entry to two, and the older entry is still
    listed behind the newer one. *)
Theorem C1_github_adapter_duplicates_reupload :
  let first := reportOf "R1" 1%Z [] in
  let second := reportOf "R1" 2%Z [onePassingResult] in
  let after1 := GitHubStorageAdapter.updateReportsIndex reliableIo None first in
  let after2 := GitHubStorageAdapter.updateReportsIndex reliableIo after1 second in
  map gh_id (storedReports after1) = ["R1"] /\
  storedReports after2 = [gitHubReportSummary second; gitHubReportSummary first] /\
  map gh_id (storedReports after2) = ["R1"; "R1"] /\
  List.length (storedReports after1) < List.length (storedReports after2).
Proof. vm_compute. repeat split; lia. Qed.

(** The uploader in [github-uploader.ts] computes the index the same way. *)
Lemma gitHubUploader_duplicates_reupload :
  let first := reportOf "R1" 1%Z [] in
  let second := reportOf "R1" 2%Z [onePassingResult] in
  let stored := Some {| reports := [gitHubReportSummary first]; lastUpdated := None |} in
  map gh_id (storedReports (GitHubUploader.updateReportsIndex reliableIo stored second))
  = ["R1"; "R1"].
Proof. reflexivity. Qed.

(** The SharePoint adapter on the same two uploads keeps one entry. *)
Lemma sharePoint_reupload_example :
  let first := reportOf "R1" 1%Z [] in
  let second := reportOf "R1" 2%Z [onePassingResult] in
  let after1 := SharePointStorageAdapter.updateReportsIndex reliableIo None first in
  let after2 := SharePointStorageAdapter.updateReportsIndex reliableIo after1 second in
  storedReports after2 = [sharePointReportSummary second].
Proof. reflexivity. Qed.

(** ** Where the classifier and the file-name reading of its rules agree *)

Lemma append_split (a b c d : string) :
  String.append a b = String.append c d ->
  (exists m, c = String.append a m /\ b = String.append m d) \/
  (exists m, a = String.append c m /\ d = String.append m b).
Proof.
  revert c. induction a as [| x a IH]; intros c H; simpl in H.
  - left. exists c. split; [reflexivity | exact H].
  - destruct c as [| y c]; simpl in H.
    + right. exists (String x a). split; [reflexivity | now rewrite <- H].
    + injection H as -> H. destruct (IH c H) as [[m [-> ->]] | [m [-> ->]]].
      * left. now exists m.
      * right. now exists m.
Qed.

Lemma append_empty_r (s : string) : String.append s "" = s.
Proof. induction s as [| c s IH]; simpl; [reflexivity | now rewrite IH]. Qed.

(** A word without a slash that occurs in [dir/name] occurs in [dir] or in
    [name]. *)
Lemma includes_join_inv (dir name t : string) :
  JsString.includes t "/" = false ->
  JsString.includes (join dir name) t = true ->
  JsString.includes dir t = true \/ JsString.includes name t = true.
Proof.
  intros Hslash H. rewrite !includes_iff. apply includes_iff in H as [pre [post H]].
  assert (Hno : forall u v, t <> String.append u (String "/" v)).
  { intros u v ->. enough (JsString.includes (String.append u (String "/" v)) "/" = true)
      by congruence.
    apply includes_iff. now exists u, v. }
  unfold join in H. apply append_split in H as [[m [-> H]] | [m [-> H]]].
  - destruct m as [| c m]; simpl in H.
    + destruct t as [| c t]; simpl in H.
      * left. exists dir, "". simpl. now rewrite append_empty_r.
      * injection H as <- _. exfalso. now apply (Hno "" t).
    + injection H as _ ->. right. now exists m, post.
  - apply append_split in H as [[m2 [-> _]] | [m2 [-> H]]].
    + left. exists pre, m2. reflexivity.
    + destruct m2 as [| c m2]; simpl in H.
      * left. exists pre, "". now rewrite !append_empty_r.
      * injection H as <- _. exfalso. now apply (Hno m m2).
Qed.

Lemma includes_join_name (dir name t : string) :
  JsString.includes t "/" = false ->
  JsString.includes dir t = false ->
  JsString.includes (join dir name) t = JsString.includes name t.
Proof.
  intros Hslash Hdir.
  destruct (JsString.includes name t) eqn:Hn.
  - now apply includes_join.
  - destruct (JsString.includes (join dir name) t) eqn:Hj; [| reflexivity].
    destruct (includes_join_inv dir name t Hslash Hj); congruence.
Qed.

(** When the path of the test directory carries neither word, the classifier
    is the three rules read on file names. *)
Lemma classifier_agrees_off_directory_name (testDir : string) (files : list File) :
  JsString.includes testDir "error" = false ->
  JsString.includes testDir "failure" = false ->
  determineTestStatus testDir files = classifyByFileNames files.
Proof.
  intros He Hf. unfold determineTestStatus, classifyByFileNames, findTraceFile.
  destruct (findTraceFileEntry files); simpl; [reflexivity |].
  rewrite existsb_looksLikeFailure.
  replace (existsb nameLooksLikeFailure (screenshotFiles files))
    with (existsb (fun f => JsString.includes (join testDir (fileName f)) "error"
                            || JsString.includes (join testDir (fileName f)) "failure")
                  (screenshotFiles files)); [reflexivity |].
  induction (screenshotFiles files) as [| f l IH]; simpl; [reflexivity |].
  rewrite IH. unfold nameLooksLikeFailure.
  rewrite (includes_join_name testDir (fileName f) "error" eq_refl He).
  rewrite (includes_join_name testDir (fileName f) "failure" eq_refl Hf).
  reflexivity.
Qed.

(* ================================================================== *)
(** * Further properties of the processor *)
(* ================================================================== *)

(** ** Suffixes *)

Lemma substring_skip (pre r : string) (m : nat) :
  String.substring (String.length pre) m (String.append pre r) = String.substring 0 m r.
Proof. induction pre as [| c pre IH]; simpl; [reflexivity | exact IH]. Qed.

Lemma substring_whole (t : string) :
  String.substring 0 (String.length t) t = t.
Proof. induction t as [| c t IH]; simpl; [reflexivity | now rewrite IH]. Qed.

Lemma append_length (a b : string) :
  String.length (String.append a b) = String.length a + String.length b.
Proof. induction a as [| c a IH]; simpl; [reflexivity | now rewrite IH]. Qed.

Lemma split_at (k : nat) (s : string) :
  k <= String.length s ->
  exists pre r, s = String.append pre r /\ String.length pre = k.
Proof.
  revert s. induction k as [| k IH]; intros s Hk.
  - exists EmptyString, s. split; reflexivity.
  - destruct s as [| c s]; simpl in Hk; [lia |].
    destruct (IH s) as [pre [r [-> Hlen]]]; [lia |].
    exists (String c pre), r. simpl. split; [reflexivity | now rewrite Hlen].
Qed.

(** [endsWith] decides: [t] is the end of [s]. *)
Lemma endsWith_iff (s t : string) :
  JsString.endsWith s t = true <-> exists pre, s = String.append pre t.
Proof.
  unfold JsString.endsWith. rewrite andb_true_iff, Nat.leb_le, String.eqb_eq. split.
  - intros [Hle Hsub].
    destruct (split_at (String.length s - String.length t) s) as [pre [r [Hs Hpre]]];
      [lia |].
    exists pre.
    assert (Hr : String.length r = String.length t).
    { pose proof (f_equal String.length Hs) as Hl. rewrite append_length in Hl. lia. }
    rewrite <- Hpre in Hsub. rewrite Hs in Hsub at 1.
    rewrite substring_skip, <- Hr, substring_whole in Hsub.
    now rewrite <- Hsub.
  - intros [pre ->]. rewrite append_length. split; [lia |].
    replace (String.length pre + String.length t - String.length t)
      with (String.length pre) by lia.
    rewrite substring_skip. apply substring_whole.
Qed.

Lemma endsWith_join (dir name t : string) :
  JsString.endsWith name t = true -> JsString.endsWith (join dir name) t = true.
Proof.
  rewrite !endsWith_iff. intros [pre ->]. unfold join.
  exists (String.append dir (String.append "/" pre)). now rewrite !append_assoc.
Qed.

(** A name that ends in [.trace] does not end in [.zip]. *)
Lemma trace_suffix_not_zip (s : string) :
  JsString.endsWith s ".trace" = true -> JsString.endsWith s ".zip" = false.
Proof.
  intros Ht. destruct (JsString.endsWith s ".zip") eqn:Hz; [| reflexivity].
  apply endsWith_iff in Ht as [p1 ->]. apply endsWith_iff in Hz as [p2 Hz].
  exfalso. apply append_split in Hz as [[m [_ H]] | [m [_ H]]].
  - do 7 (destruct m as [| ? m]; simpl in H; try discriminate H).
  - do 7 (destruct m as [| ? m]; simpl in H; try discriminate H).
Qed.

(** ** Finding the trace file *)

Lemma globby_nil (p : Pattern) (files : list File) :
  globby p files = [] <-> forall f, In f files -> globMatches p (fileName f) = false.
Proof.
  unfold globby. induction files as [| g files IH]; simpl.
  - split; [intros _ f [] | reflexivity].
  - destruct (globMatches p (fileName g)) eqn:Hg.
    + split; [discriminate |]. intros H. specialize (H g (or_introl eq_refl)). congruence.
    + rewrite IH. split.
      * intros H f [<- | Hf]; auto.
      * intros H f Hf. apply H. now right.
Qed.

Lemma globby_head (p : Pattern) (files : list File) (g : File) (rest : list File) :
  globby p files = g :: rest -> In g files /\ globMatches p (fileName g) = true.
Proof.
  intros H. assert (Hin : In g (globby p files)) by (rewrite H; now left).
  unfold globby in Hin. now apply filter_In in Hin.
Qed.

Lemma looksLikeTrace_patterns (name : string) :
  looksLikeTrace name =
  globMatches (Star ".trace") name || globMatches (Star ".zip") name.
Proof.
  unfold looksLikeTrace, globMatches.
  destruct (JsString.startsWith name "."), (JsString.endsWith name ".trace"),
    (JsString.endsWith name ".zip"); reflexivity.
Qed.

Lemma literal_trace_zip (name : string) :
  globMatches (Literal "trace.zip") name = true -> looksLikeTrace name = true.
Proof. simpl. rewrite String.eqb_eq. now intros ->. Qed.

Lemma findTraceFileEntry_found (files : list File) (g : File) :
  findTraceFileEntry files = Some g ->
  In g files /\ looksLikeTrace (fileName g) = true.
Proof.
  unfold findTraceFileEntry, tracePatterns, firstMatch.
  destruct (globby (Literal "trace.zip") files) as [| a l] eqn:H1.
  - destruct (globby (Star ".trace") files) as [| b l2] eqn:H2.
    + destruct (globby (Star ".zip") files) as [| c l3] eqn:H3; [discriminate |].
      intros [= <-]. apply globby_head in H3 as [Hin Hm]. split; [exact Hin |].
      rewrite looksLikeTrace_patterns, Hm. apply orb_true_r.
    + intros [= <-]. apply globby_head in H2 as [Hin Hm]. split; [exact Hin |].
      rewrite looksLikeTrace_patterns, Hm. reflexivity.
  - intros [= <-]. apply globby_head in H1 as [Hin Hm]. split; [exact Hin |].
    now apply literal_trace_zip.
Qed.

(** X1.  [findTraceFile] finds a trace file exactly when some file of the
    directory, other than a dot file, has a name ending in [.trace] or
    [.zip]; the path it returns is that of such a file of the directory. *)
Theorem findTraceFile_characterised (testDir : string) (files : list File) :
  (findTraceFile testDir files = None <->
   existsb (fun f => looksLikeTrace (fileName f)) files = false) /\
  (forall p, findTraceFile testDir files = Some p ->
     exists f, In f files /\ looksLikeTrace (fileName f) = true /\
               p = join testDir (fileName f)).
Proof.
  split.
  - rewrite findTraceFile_entry. split.
    + intros Hnone. destruct (existsb _ files) eqn:He; [| reflexivity].
      apply existsb_exists in He as [f [Hin Hf]]. exfalso.
      unfold findTraceFileEntry, tracePatterns, firstMatch in Hnone.
      destruct (globby (Literal "trace.zip") files) eqn:H1; [| discriminate].
      destruct (globby (Star ".trace") files) eqn:H2; [| discriminate].
      destruct (globby (Star ".zip") files) eqn:H3; [| discriminate].
      rewrite looksLikeTrace_patterns in Hf.
      rewrite globby_nil in H2, H3. rewrite (H2 f Hin), (H3 f Hin) in Hf. discriminate.
    + intros He. destruct (findTraceFileEntry files) as [g |] eqn:Hg; [| reflexivity].
      apply findTraceFileEntry_found in Hg as [Hin Hl]. exfalso.
      assert (existsb (fun f => looksLikeTrace (fileName f)) files = true)
        by (apply existsb_exists; now exists g).
      congruence.
  - intros p Hp. unfold findTraceFile in Hp.
    destruct (findTraceFileEntry files) as [g |] eqn:Hg; [| discriminate].
    injection Hp as <-. apply findTraceFileEntry_found in Hg as [Hin Hl].
    now exists g.
Qed.

(** X2.  A file called [trace.zip] is preferred to every other candidate:
    when the directory has one, [findTraceFile] returns its path. *)
Theorem findTraceFile_prefers_trace_zip (testDir : string) (files : list File) :
  (exists f, In f files /\ fileName f = "trace.zip") ->
  findTraceFile testDir files = Some (join testDir "trace.zip").
Proof.
  intros [f [Hin Hname]]. unfold findTraceFile, findTraceFileEntry, tracePatterns, firstMatch.
  destruct (globby (Literal "trace.zip") files) as [| g l] eqn:H1.
  - rewrite globby_nil in H1. specialize (H1 f Hin). simpl in H1.
    rewrite Hname in H1. discriminate.
  - apply globby_head in H1 as [_ Hm]. simpl in Hm. apply String.eqb_eq in Hm.
    simpl. now rewrite Hm.
Qed.

Lemma findTraceFile_prefers_trace_zip_witness :
  let files := [ {| fileName := "a-recording.trace"; mtimeMs := 0%Z; archive := None |};
                 {| fileName := "trace.zip"; mtimeMs := 0%Z; archive := Some [] |} ] in
  findTraceFile "test-results/cart-chromium" files
  = Some "test-results/cart-chromium/trace.zip".
Proof.
  intros files.
  apply (findTraceFile_prefers_trace_zip "test-results/cart-chromium" files).
  exists {| fileName := "trace.zip"; mtimeMs := 0%Z; archive := Some [] |}.
  split; [right; left; reflexivity | reflexivity].
Defined.

(** X3.  A [.trace] file shadows the zip archives: in a directory without
    [trace.zip] but with a file matching [*.trace], that file is the trace
    file, so the test counts as failed while no error and no step is read,
    whatever other archives the directory holds. *)
Theorem trace_file_shadows_archives (testDir : string) (files : list File) :
  existsb (fun f => String.eqb (fileName f) "trace.zip") files = false ->
  existsb (fun f => globMatches (Star ".trace") (fileName f)) files = true ->
  exists f,
    In f files /\
    JsString.endsWith (fileName f) ".trace" = true /\
    findTraceFile testDir files = Some (join testDir (fileName f)) /\
    determineTestStatus testDir files = Failed /\
    collectErrors testDir files = [] /\
    collectTestSteps testDir files = [].
Proof.
  intros Hno Hsome.
  assert (H1 : globby (Literal "trace.zip") files = []).
  { apply globby_nil. intros f Hf. simpl.
    destruct (String.eqb (fileName f) "trace.zip") eqn:E; [| reflexivity].
    assert (existsb (fun f => String.eqb (fileName f) "trace.zip") files = true)
      by (apply existsb_exists; now exists f).
    congruence. }
  destruct (globby (Star ".trace") files) as [| g l] eqn:H2.
  { rewrite globby_nil in H2. apply existsb_exists in Hsome as [f [Hin Hf]].
    rewrite (H2 f Hin) in Hf. discriminate. }
  assert (Hentry : findTraceFileEntry files = Some g).
  { unfold findTraceFileEntry, tracePatterns, firstMatch. now rewrite H1, H2. }
  apply globby_head in H2 as [Hin Hm]. simpl in Hm.
  apply andb_true_iff in Hm as [Hends _].
  assert (Hnozip : JsString.endsWith (join testDir (fileName g)) ".zip" = false).
  { apply trace_suffix_not_zip. now apply endsWith_join. }
  exists g. repeat split; try assumption.
  - unfold findTraceFile. now rewrite Hentry.
  - unfold determineTestStatus, findTraceFile. now rewrite Hentry.
  - unfold collectErrors, extractErrorsFromTrace. now rewrite Hentry, Hnozip.
  - unfold collectTestSteps, extractStepsFromTrace. now rewrite Hentry, Hnozip.
Qed.

Lemma trace_file_shadows_archives_witness :
  let bundle :=
    [ {| entryName := "trace.trace";
         entryContent :=
           TraceData (Elements [ Some {| rawMessage := Some "boom"; rawStack := None;
                                         rawLocation := None |} ]) Falsy |} ] in
  let files := [ {| fileName := "run.trace"; mtimeMs := 0%Z; archive := None |};
                 {| fileName := "bundle.zip"; mtimeMs := 0%Z; archive := Some bundle |} ] in
  determineTestStatus "test-results/cart-chromium" files = Failed /\
  collectErrors "test-results/cart-chromium" files = [].
Proof.
  intros bundle files.
  destruct (trace_file_shadows_archives "test-results/cart-chromium" files eq_refl eq_refl)
    as [f [_ [_ [_ [Hs [He _]]]]]].
  split; [exact Hs | exact He].
Defined.

(** ** What the trace reader returns *)

Lemma orElse_nonempty (a : option string) (d : string) :
  d <> "" -> JsString.orElse a d <> "".
Proof.
  intros Hd. unfold JsString.orElse. destruct a as [s |]; [| exact Hd].
  destruct (String.eqb_spec s ""); assumption.
Qed.

Lemma in_throughFirst {A : Type} (p : A -> bool) (x : A) (l : list A) :
  In x (throughFirst p l) -> In x l.
Proof.
  induction l as [| y rest IH]; simpl; [tauto |].
  destruct (p y); simpl; intros [H | H]; auto; contradiction.
Qed.

Lemma in_beforeFirstNull {A : Type} (x : A) (l : list (option A)) :
  In x (beforeFirstNull l) -> In (Some x) l.
Proof.
  induction l as [| y rest IH]; simpl; [tauto |].
  destruct y as [a |]; simpl; [| tauto].
  intros [-> | H]; auto.
Qed.

Lemma in_listedRecords {A B : Type} (record : A -> B) (items : Listed A) (b : B) :
  In b (listedRecords record items) ->
  exists l raw, items = Elements l /\ In (Some raw) l /\ b = record raw.
Proof.
  destruct items as [| | l]; simpl; try tauto.
  intros Hb. apply in_map_iff in Hb as [raw [<- Hraw]].
  exists l, raw. repeat split. now apply in_beforeFirstNull.
Qed.

Lemma extractErrors_from_entries (path : string) (zipped : option (list ZipEntry))
    (e : PlaywrightError) :
  In e (extractErrorsFromTrace path zipped) ->
  exists entries entry errs acts raw,
    zipped = Some entries /\ In entry entries /\
    isStructuredEntry entry = true /\
    entryContent entry = TraceData (Elements errs) acts /\
    In (Some raw) errs /\ e = toPlaywrightError raw.
Proof.
  unfold extractErrorsFromTrace.
  destruct (JsString.endsWith path ".zip"); [| intros []].
  destruct zipped as [entries |]; [| intros []].
  rewrite (errorsLoop_caught entries []). simpl. intros He.
  apply in_flat_map in He as [entry [Hentry He]].
  apply in_throughFirst in Hentry.
  unfold errorsPushedAt in He.
  destruct (isStructuredEntry entry) eqn:Hs; [| contradiction].
  destruct (entryContent entry) as [| errs acts] eqn:Hc; [contradiction |].
  apply in_listedRecords in He as [l [raw [-> [Hraw ->]]]].
  exists entries, entry, l, acts, raw. repeat split; auto.
Qed.

Lemma extractSteps_from_entries (path : string) (zipped : option (list ZipEntry))
    (s : TestStep) :
  In s (extractStepsFromTrace path zipped) ->
  exists entries entry errs acts raw,
    zipped = Some entries /\ In entry entries /\
    isStructuredEntry entry = true /\
    entryContent entry = TraceData errs (Elements acts) /\
    In (Some raw) acts /\ s = toTestStep raw.
Proof.
  unfold extractStepsFromTrace.
  destruct (JsString.endsWith path ".zip"); [| intros []].
  destruct zipped as [entries |]; [| intros []].
  rewrite (stepsLoop_caught entries []). simpl. intros He.
  apply in_flat_map in He as [entry [Hentry He]].
  apply in_throughFirst in Hentry.
  unfold stepsPushedAt in He.
  destruct (isStructuredEntry entry) eqn:Hs; [| contradiction].
  destruct (entryContent entry) as [| errs acts] eqn:Hc; [contradiction |].
  apply in_listedRecords in He as [l [raw [-> [Hraw ->]]]].
  exists entries, entry, errs, l, raw. repeat split; auto.
Qed.

(** X4.  The reader fills in what a record lacks: no extracted error has an
    empty message or an empty file in its location, and no extracted step
    has an empty title, whatever the bundle contains. *)
Theorem extracted_records_have_text (path : string) (zipped : option (list ZipEntry)) :
  Forall (fun e => message e <> "" /\ locFile (location e) <> "")
         (extractErrorsFromTrace path zipped) /\
  Forall (fun s => stepTitle s <> "") (extractStepsFromTrace path zipped).
Proof.
  split; apply Forall_forall.
  - intros e He. apply extractErrors_from_entries in He
      as [_ [_ [_ [_ [raw [_ [_ [_ [_ [_ ->]]]]]]]]]].
    unfold toPlaywrightError; simpl. split; apply orElse_nonempty; discriminate.
  - intros s Hs. apply extractSteps_from_entries in Hs
      as [_ [_ [_ [_ [raw [_ [_ [_ [_ [_ ->]]]]]]]]]].
    unfold toTestStep; simpl. apply orElse_nonempty, orElse_nonempty. discriminate.
Qed.

Lemma errorsLoop_filter (entries : list ZipEntry) (acc : list PlaywrightError) :
  errorsLoop (filter isStructuredEntry entries) acc = errorsLoop entries acc.
Proof.
  revert acc. induction entries as [| e rest IH]; intros acc; simpl; [reflexivity |].
  destruct (isStructuredEntry e) eqn:Hs; simpl; [rewrite Hs |]; [| apply IH].
  destruct (entryContent e) as [| errs acts]; [reflexivity |].
  destruct (pushListed toPlaywrightError errs acc); [apply IH | reflexivity].
Qed.

Lemma stepsLoop_filter (entries : list ZipEntry) (acc : list TestStep) :
  stepsLoop (filter isStructuredEntry entries) acc = stepsLoop entries acc.
Proof.
  revert acc. induction entries as [| e rest IH]; intros acc; simpl; [reflexivity |].
  destruct (isStructuredEntry e) eqn:Hs; simpl; [rewrite Hs |]; [| apply IH].
  destruct (entryContent e) as [| errs acts]; [reflexivity |].
  destruct (pushListed toTestStep acts acc); [apply IH | reflexivity].
Qed.

(** X5.  Entries that are neither [trace.trace] nor [*.json] play no part:
    the reader returns the same errors and steps when they are taken out of
    the archive, be they parsable or not. *)
Theorem unstructured_entries_ignored (path : string) (entries : list ZipEntry) :
  extractErrorsFromTrace path (Some (filter isStructuredEntry entries)) =
  extractErrorsFromTrace path (Some entries) /\
  extractStepsFromTrace path (Some (filter isStructuredEntry entries)) =
  extractStepsFromTrace path (Some entries).
Proof.
  unfold extractErrorsFromTrace, extractStepsFromTrace.
  destruct (JsString.endsWith path ".zip"); [| split; reflexivity].
  now rewrite errorsLoop_filter, stepsLoop_filter.
Qed.

(** ** Scanned results *)

Lemma processTestDirectory_passed (path dirName : string) (files : list File) :
  status (processTestDirectory path dirName files) = Passed ->
  errors (processTestDirectory path dirName files) = [] /\
  steps (processTestDirectory path dirName files) = [] /\
  traceFile (processTestDirectory path dirName files) = None.
Proof.
  unfold processTestDirectory; simpl.
  unfold determineTestStatus, collectErrors, collectTestSteps, findTraceFile.
  destruct (findTraceFileEntry files); simpl; [discriminate | auto].
Qed.

Lemma in_processTestFiles (path : string) (root : option (list DirItem))
    (r : PlaywrightTestResult) :
  In r (processTestFiles path root) ->
  exists items name files,
    root = Some items /\ In (SubDirectory name files) items /\
    r = processTestDirectory path name files.
Proof.
  destruct root as [items |]; simpl; [| intros []].
  intros Hr. apply in_flat_map in Hr as [item [Hitem Hr]].
  destruct item as [f | name files | name]; simpl in Hr; try contradiction.
  destruct Hr as [<- | []]. now exists items, name, files.
Qed.

(** One scanned directory, reconciled: it passed and carries neither error
    nor trace file, or it failed. *)
Lemma enhanced_directory
    (i : TestExecutionIntent) (path name : string) (files : list File) :
  let x := enhanceResult i (processTestDirectory path name files) in
  (r_status x = Passed /\ r_error x = None /\ r_traceFile x = None) \/
  r_status x = Failed.
Proof.
  unfold enhanceResult, processTestDirectory.
  cbn [r_status r_error r_traceFile status errors traceFile].
  unfold determineTestStatus, collectErrors, findTraceFile.
  destruct (findTraceFileEntry files) as [f |]; cbn [option_map];
    [right; reflexivity |].
  destruct (existsb looksLikeFailure (collectScreenshots (join path name) files));
    [right; reflexivity | left; repeat split].
Qed.

Lemma in_scanned_results
    (path : string) (root : option (list DirItem)) (run : RunInputs)
    (number : ReportNumber) (x : EnhancedResult) :
  In x (results (assembleReport run number (processTestFiles path root))) ->
  exists name files,
    x = enhanceResult (capturedIntent run) (processTestDirectory path name files).
Proof.
  simpl. intros Hx. apply in_map_iff in Hx as [r [<- Hr]].
  apply in_processTestFiles in Hr as [items [name [files [_ [_ ->]]]]].
  now exists name, files.
Qed.

(** X6.  In a report assembled from a scan, a result that passed carries no
    error message and no trace file; put the other way, every result that
    has an error message or a trace file is a failed one. *)
Theorem passed_results_carry_no_trace
    (path : string) (root : option (list DirItem)) (run : RunInputs) (number : Z) :
  let report := assembleReport run number (processTestFiles path root) in
  Forall (fun r => (r_status r = Passed -> r_error r = None /\ r_traceFile r = None) /\
                   (r_error r <> None \/ r_traceFile r <> None -> r_status r = Failed))
         (results report).
Proof.
  intros report. apply Forall_forall. intros x Hx.
  apply in_scanned_results in Hx as [name [files ->]].
  destruct (enhanced_directory (capturedIntent run) path name files)
    as [[Hs [He Ht]] | Hf].
  - split; [auto |]. intros [H | H]; contradiction.
  - split; [| auto]. intros Hp. rewrite Hf in Hp. discriminate.
Qed.

Lemma join_nonempty (a b : string) : join a b <> "".
Proof. unfold join. destruct a; discriminate. Qed.

(** X7.  With [--failures-only], every trace file the scan found is still
    among the assets to upload, and an asset that is dropped is a
    screenshot of a passed test. *)
Theorem failures_only_keeps_traces
    (path : string) (root : option (list DirItem)) (run : RunInputs) (number : Z) :
  let report := assembleReport run number (processTestFiles path root) in
  (forall r t, In r (results report) -> r_traceFile r = Some t ->
               In t (collectAssetFiles (filteredResults true report))) /\
  (forall a, In a (collectAssetFiles (filteredResults false report)) ->
             In a (collectAssetFiles (filteredResults true report)) \/
             exists r, In r (results report) /\ r_status r = Passed /\
                       In a (r_screenshots r)).
Proof.
  intros report.
  assert (Hne : forall r t, In r (results report) -> r_traceFile r = Some t -> t <> "").
  { intros r t Hr Ht. apply in_scanned_results in Hr as [name [files ->]].
    simpl in Ht. unfold findTraceFile in Ht.
    destruct (findTraceFileEntry files); simpl in Ht; [| discriminate].
    injection Ht as <-. apply join_nonempty. }
  assert (Hkeep : forall r, In r (results report) -> r_status r = Failed ->
                            forall a, In a (r_screenshots r) \/ r_traceFile r = Some a ->
                            In a (collectAssetFiles (filteredResults true report))).
  { intros r Hr Hs a Ha. unfold collectAssetFiles, filteredResults.
    apply in_flat_map. exists r. split.
    - apply filter_In. split; [exact Hr | now rewrite Hs].
    - apply in_or_app. destruct Ha as [Ha | Ha]; [now left | right].
      rewrite Ha. destruct (String.eqb_spec a "") as [E | _]; [| now left].
      exfalso. exact (Hne r a Hr Ha E). }
  assert (Hshape : forall r, In r (results report) ->
                             (r_status r = Passed /\ r_traceFile r = None) \/
                             r_status r = Failed).
  { intros r Hr. apply in_scanned_results in Hr as [name [files ->]].
    destruct (enhanced_directory (capturedIntent run) path name files)
      as [[Hs [_ Ht]] | Hf]; [left | right]; auto. }
  split.
  - intros r t Hr Ht. apply (Hkeep r Hr); [| now right].
    destruct (Hshape r Hr) as [[_ Hnone] | Hf]; [| exact Hf].
    rewrite Hnone in Ht. discriminate.
  - intros a Ha. unfold collectAssetFiles, filteredResults in Ha.
    apply in_flat_map in Ha as [r [Hr Ha]]. apply in_app_or in Ha.
    destruct (Hshape r Hr) as [[Hp Hnone] | Hf].
    + destruct Ha as [Ha | Ha].
      * right. now exists r.
      * rewrite Hnone in Ha. contradiction.
    + left. apply (Hkeep r Hr Hf). destruct Ha as [Ha | Ha]; [now left | right].
      destruct (r_traceFile r) as [t |]; [| contradiction].
      destruct (String.eqb t ""); [contradiction |].
      destruct Ha as [<- | []]. reflexivity.
Qed.

(** ** Reconciliation *)

Lemma expected_fail_iff (r : PlaywrightTestResult) (i : TestExecutionIntent) :
  determineExpectedOutcome r i = Fail <-> TargetedForFailure r i.
Proof.
  unfold determineExpectedOutcome, TargetedForFailure.
  rewrite <- someTargetIn_iff.
  destruct (expectFailures i);
    destruct (someTargetIn (testTitle r) (targetTests i)); split;
    try tauto; try discriminate; intros [H1 H2]; discriminate.
Qed.

Lemma expected_cases (r : PlaywrightTestResult) (i : TestExecutionIntent) :
  (determineExpectedOutcome r i = Fail /\ TargetedForFailure r i) \/
  (determineExpectedOutcome r i = Pass /\ ~ TargetedForFailure r i).
Proof.
  pose proof (expected_fail_iff r i) as Hiff.
  destruct (determineExpectedOutcome r i) eqn:E.
  - right. split; [reflexivity |]. intros H. apply Hiff in H. discriminate.
  - left. split; [reflexivity |]. now apply Hiff.
  - exfalso. unfold determineExpectedOutcome in E.
    destruct (expectFailures i); [| discriminate].
    destruct (someTargetIn (testTitle r) (targetTests i)); discriminate.
Qed.

(** X8.  A result matches its expectation exactly when it passed without
    being targeted for failure, or failed (timed out, was interrupted) while
    being targeted; a skipped result never matches. *)
Theorem outcomeMatch_characterised
    (i : TestExecutionIntent) (r : PlaywrightTestResult) :
  (outcomeMatch (enhanceResult i r) = true <->
   (r_status (enhanceResult i r) = Passed /\ ~ TargetedForFailure r i) \/
   (r_status (enhanceResult i r) = Failed /\ TargetedForFailure r i)) /\
  (status r = Skipped -> outcomeMatch (enhanceResult i r) = false).
Proof.
  unfold enhanceResult; simpl.
  destruct (expected_cases r i) as [[-> Ht] | [-> Hn]].
  - split.
    + destruct (status r); simpl;
        (split; [intros H | intros [[H1 H2] | [H1 H2]]]);
        try discriminate; try contradiction; try reflexivity;
        right; (split; [reflexivity | assumption]).
    + intros ->. reflexivity.
  - split.
    + destruct (status r); simpl;
        (split; [intros H | intros [[H1 H2] | [H1 H2]]]);
        try discriminate; try contradiction; try reflexivity;
        left; (split; [reflexivity | assumption]).
    + intros ->. reflexivity.
Qed.

Lemma enhanced_match_split (i : TestExecutionIntent) (r : PlaywrightTestResult) :
  let x := enhanceResult i r in
  Nat.b2n (Outcome_eqb (expectedOutcome x) Fail && Outcome_eqb (actualOutcome x) Fail)
  + Nat.b2n (Outcome_eqb (expectedOutcome x) Pass && Outcome_eqb (actualOutcome x) Pass)
  = Nat.b2n (outcomeMatch x).
Proof.
  unfold enhanceResult; simpl.
  destruct (expected_cases r i) as [[-> _] | [-> _]]; destruct (status r); reflexivity.
Qed.

Lemma enhanced_mismatch_split (i : TestExecutionIntent) (r : PlaywrightTestResult) :
  let x := enhanceResult i r in
  Nat.b2n (Outcome_eqb (expectedOutcome x) Pass && Outcome_eqb (actualOutcome x) Fail)
  + Nat.b2n (Outcome_eqb (expectedOutcome x) Fail && Outcome_eqb (actualOutcome x) Pass)
  + Nat.b2n (TestStatus_eqb (r_status x) Skipped)
  = Nat.b2n (negb (outcomeMatch x)).
Proof.
  unfold enhanceResult; simpl.
  destruct (expected_cases r i) as [[-> _] | [-> _]]; destruct (status r); reflexivity.
Qed.

Lemma countIf_split3 {A : Type} (p q r t : A -> bool) (l : list A) :
  Forall (fun a => Nat.b2n (p a) + Nat.b2n (q a) + Nat.b2n (r a) = Nat.b2n (t a)) l ->
  countIf p l + countIf q l + countIf r l = countIf t l.
Proof.
  induction 1 as [| a l Ha _ IH]; [reflexivity |].
  rewrite !countIf_cons. lia.
Qed.

Lemma match_counts
    (run : RunInputs) (number : Z) (rawResults : list PlaywrightTestResult) :
  let report := assembleReport run number rawResults in
  countIf outcomeMatch (results report)
    = expectedFails (summary report) + expectedPasses (summary report) /\
  countIf (fun r => negb (outcomeMatch r)) (results report)
    = unexpectedFails (summary report) + unexpectedPasses (summary report)
      + skipped (summary report).
Proof.
  simpl. split; symmetry.
  - apply countIf_split. apply Forall_enhanced. intros r.
    apply (enhanced_match_split (capturedIntent run) r).
  - apply countIf_split3. apply Forall_enhanced. intros r.
    apply (enhanced_mismatch_split (capturedIntent run) r).
Qed.

(** X9.  In every assembled report the results that match their expectation
    number [expectedFails + expectedPasses], and those that do not number
    [unexpectedFails + unexpectedPasses + skipped]: a skipped test counts as
    a mismatch. *)
Theorem matched_and_unmatched_counts
    (run : RunInputs) (number : Z) (rawResults : list PlaywrightTestResult) :
  let report := assembleReport run number rawResults in
  countIf outcomeMatch (results report)
    = expectedFails (summary report) + expectedPasses (summary report) /\
  countIf (fun r => negb (outcomeMatch r)) (results report)
    = unexpectedFails (summary report) + unexpectedPasses (summary report)
      + skipped (summary report).
Proof.
  simpl. split; symmetry.
  - apply countIf_split. apply Forall_enhanced. intros r.
    apply (enhanced_match_split (capturedIntent run) r).
  - apply countIf_split3. apply Forall_enhanced. intros r.
    apply (enhanced_mismatch_split (capturedIntent run) r).
Qed.

(** X10.  When the intent expects no failure, or names no target test, the
    summary has no expected failure and no unexpected pass: every failure is
    unexpected and every pass expected. *)
Theorem summary_without_expected_failures
    (run : RunInputs) (number : Z) (rawResults : list PlaywrightTestResult) :
  expectFailures (capturedIntent run) = false \/
  targetTests (capturedIntent run) = None \/
  targetTests (capturedIntent run) = Some [] ->
  let report := assembleReport run number rawResults in
  expectedFails (summary report) = 0 /\
  unexpectedPasses (summary report) = 0 /\
  unexpectedFails (summary report) = failed (summary report) /\
  expectedPasses (summary report) = passed (summary report) /\
  Forall (fun r => expectedOutcome r = Pass) (results report).
Proof.
  intros Hno. simpl.
  assert (Hpass : forall r, determineExpectedOutcome r (capturedIntent run) = Pass).
  { intros r. unfold determineExpectedOutcome.
    destruct Hno as [-> | [H | H]]; [reflexivity | |];
      rewrite H; destruct (expectFailures (capturedIntent run)); reflexivity. }
  repeat split.
  - apply countIf_none. apply Forall_enhanced. intros r.
    unfold enhanceResult; simpl. now rewrite Hpass.
  - apply countIf_none. apply Forall_enhanced. intros r.
    unfold enhanceResult; simpl. now rewrite Hpass.
  - apply countIf_ext. apply Forall_enhanced. intros r.
    unfold enhanceResult; simpl. rewrite Hpass. destruct (status r); reflexivity.
  - apply countIf_ext. apply Forall_enhanced. intros r.
    unfold enhanceResult; simpl. rewrite Hpass. destruct (status r); reflexivity.
  - apply Forall_enhanced. intros r. apply Hpass.
Qed.

Lemma summary_without_expected_failures_witness :
  let run :=
    {| freshId := "R7"; startedAt := "2024-05-01T10:00:00.000Z"; elapsed := 10%Z;
       capturedIntent :=
         {| purpose := "debugging"; description := None; expectFailures := true;
            targetTests := Some []; goals := []; context := None |} |} in
  let raw :=
    [ onePassingResult;
      {| testTitle := "cart"; status := TimedOut; duration := 0%Z; screenshots := [];
         errors := []; steps := []; traceFile := None |} ] in
  unexpectedFails (summary (assembleReport run 7%Z raw)) = 1 /\
  expectedFails (summary (assembleReport run 7%Z raw)) = 0.
Proof.
  intros run raw.
  destruct (summary_without_expected_failures run 7%Z raw (or_intror (or_intror eq_refl)))
    as [H0 [_ [H1 _]]].
  split; [rewrite H1; reflexivity | exact H0].
Defined.

(** ** Names of test directories *)

Lemma splitDash_nonempty (s : string) : splitDash s <> [].
Proof.
  destruct s as [| c s]; simpl; [discriminate |].
  destruct (Ascii.eqb c "-"); [discriminate |].
  destruct (splitDash s); discriminate.
Qed.

Lemma joinDash_cons (p : string) (rest : list string) :
  rest <> [] ->
  joinDash (p :: rest) = String.append p (String.append "-" (joinDash rest)).
Proof. destruct rest; [contradiction | reflexivity]. Qed.

(** [join('-')] undoes [split('-')]. *)
Lemma joinDash_splitDash (s : string) : joinDash (splitDash s) = s.
Proof.
  induction s as [| c s IH]; [reflexivity |].
  simpl. destruct (Ascii.eqb_spec c "-"%char) as [-> | Hc].
  - rewrite joinDash_cons by apply splitDash_nonempty. simpl. now rewrite IH.
  - pose proof (splitDash_nonempty s) as Hne.
    destruct (splitDash s) as [| h t] eqn:E; [contradiction |].
    destruct t as [| h2 t].
    + simpl in *. now rewrite IH.
    + change (joinDash (String c h :: h2 :: t))
        with (String c (String.append h (String.append "-" (joinDash (h2 :: t))))).
      change (joinDash (h :: h2 :: t))
        with (String.append h (String.append "-" (joinDash (h2 :: t)))) in IH.
      now rewrite IH.
Qed.

Lemma joinDash_app (l1 l2 : list string) :
  l1 <> [] -> l2 <> [] ->
  joinDash (l1 ++ l2) =
  String.append (joinDash l1) (String.append "-" (joinDash l2)).
Proof.
  induction l1 as [| a l1 IH]; intros H1 H2; [contradiction |].
  destruct l1 as [| b l1].
  - simpl app. now rewrite joinDash_cons.
  - change ((a :: b :: l1) ++ l2) with (a :: ((b :: l1) ++ l2)).
    rewrite joinDash_cons by discriminate.
    rewrite IH by (discriminate || assumption).
    rewrite (joinDash_cons a (b :: l1)) by discriminate.
    now rewrite !append_assoc.
Qed.

Lemma splitDash_no_dash (s : string) :
  Forall (fun p => JsString.includes p "-" = false) (splitDash s).
Proof.
  induction s as [| c s IH]; simpl.
  - constructor; [reflexivity | constructor].
  - destruct (Ascii.eqb c "-"%char) eqn:Hc.
    + constructor; [reflexivity | exact IH].
    + destruct (splitDash s) as [| h t].
      * constructor; [| constructor]. rewrite includes_unfold. simpl.
        now rewrite Hc.
      * inversion IH as [| ? ? Hh Ht]; subst. constructor; [| exact Ht].
        rewrite includes_unfold. simpl. now rewrite Hc, Hh.
Qed.

(** X11.  The test name taken from a directory name is the directory name
    itself, or what stands before its last four dash-separated parts; it is
    empty only for the empty directory name. *)
Theorem parsedTestName_prefix (dirName : string) :
  (parsedTestName dirName = dirName \/
   exists a b c d,
     dirName =
       String.append (parsedTestName dirName)
         (String.append "-" (joinDash [a; b; c; d])) /\
     Forall (fun p => JsString.includes p "-" = false) [a; b; c; d]) /\
  (dirName <> "" -> parsedTestName dirName <> "").
Proof.
  unfold parsedTestName, JsString.orElse.
  set (parts := splitDash dirName).
  set (k := List.length parts - 4).
  destruct (String.eqb_spec (joinDash (firstn k parts)) "") as [E | E].
  - split; [now left | auto].
  - split; [right | intros _; exact E].
    assert (Hk : 0 < k).
    { destruct k; [exfalso; apply E; reflexivity | lia]. }
    assert (Hlen : List.length (skipn k parts) = 4).
    { rewrite length_skipn. unfold k in *. lia. }
    assert (Hdash : Forall (fun p => JsString.includes p "-" = false) (skipn k parts)).
    { pose proof (splitDash_no_dash dirName) as H. fold parts in H.
      rewrite <- (firstn_skipn k parts) in H. now apply Forall_app in H. }
    destruct (skipn k parts) as [| a [| b [| c [| d [| ? ?]]]]] eqn:Hs;
      simpl in Hlen; try lia.
    exists a, b, c, d. split; [| exact Hdash].
    rewrite <- (joinDash_splitDash dirName) at 1. fold parts.
    rewrite <- (firstn_skipn k parts) at 1. rewrite Hs.
    apply joinDash_app; [| discriminate].
    intros Hnil. apply E. now rewrite Hnil.
Qed.

Lemma processTestFiles_names (path : string) (items : list DirItem) :
  map (fun r => testTitle r) (processTestFiles path (Some items)) =
  map parsedTestName (readableDirectoryNames items).
Proof.
  simpl. induction items as [| item items IH]; simpl; [reflexivity |].
  destruct item as [f | name files | name]; simpl; [exact IH | now rewrite IH | exact IH].
Qed.

Lemma directories_split (items : list DirItem) :
  List.length (readableDirectoryNames items)
  + List.length (unreadableDirectoryNames items)
  = List.length (filter isDirectory items).
Proof.
  induction items as [| item items IH]; simpl; [reflexivity |].
  destruct item as [f | name files | name]; simpl; lia.
Qed.

(** X12.  A scan gives one result for each sub-directory of the results
    directory in which processing does not throw, in directory order and
    named after the directory.  Loose files give none, and neither does a
    sub-directory in which processing throws: the report has as many results
    fewer than there are sub-directories.  A results directory that does not
    exist gives a report without results.  When the scan itself throws, the
    run rejects and the counter file is left as it was; in every other case
    the run resolves. *)
Theorem one_result_per_readable_directory
    (path : string) (run : RunInputs) (io : CounterIo) (file : CounterFile) :
  (forall items (number : Z),
      let report := assembleReport run number (processTestFiles path (Some items)) in
      map testName (results report) = map parsedTestName (readableDirectoryNames items) /\
      total (summary report) + List.length (unreadableDirectoryNames items)
      = List.length (filter isDirectory items)) /\
  (forall number : Z,
      results (assembleReport run number (processTestFiles path None)) = []) /\
  (forall dir,
      fst (processTestResultsOn path dir run io file) = Rejected <-> dir = ScanThrows) /\
  (forall dir,
      fst (processTestResultsOn path dir run io file) = Rejected ->
      snd (processTestResultsOn path dir run io file) = file).
Proof.
  split; [| split; [| split]].
  - intros items number. cbn zeta.
    assert (H : map testName (results (assembleReport run number
                                         (processTestFiles path (Some items))))
                = map parsedTestName (readableDirectoryNames items)).
    { cbn [assembleReport results]. rewrite map_map.
      unfold enhanceResult; cbn [testName]. apply processTestFiles_names. }
    split; [exact H |].
    rewrite <- directories_split. f_equal.
    apply (f_equal (@List.length string)) in H.
    rewrite !length_map in H. rewrite <- H.
    cbn [assembleReport summary results calculateEnhancedSummary total].
    now rewrite length_map.
  - intros number. reflexivity.
  - intros [root |]; simpl.
    + destruct (processTestResults_resolves path root run io file) as [n [_ H]].
      rewrite H. split; discriminate.
    + split; reflexivity.
  - intros [root |]; simpl; [| reflexivity].
    destruct (processTestResults_resolves path root run io file) as [n [_ H]].
    rewrite H. discriminate.
Qed.

Lemma one_result_per_readable_directory_witness :
  let io := {| clock := 1700000000000%Z; readThrows := false; writeThrows := false |} in
  let run := {| freshId := "R1"; startedAt := "2024-05-01T10:00:00.000Z";
                elapsed := 5%Z;
                capturedIntent :=
                  {| purpose := "development"; description := None;
                     expectFailures := false; targetTests := None;
                     goals := []; context := None |} |} in
  let items := [ SubDirectory "auth-login-chromium-retry0-20231120-123456" [];
                 UnreadableDirectory "cart-chromium-retry0-20231120-123457";
                 LooseFile {| fileName := ".last-run.json"; mtimeMs := 0%Z;
                              archive := None |} ] in
  fst (processTestResultsOn "test-results" ScanThrows run io None) = Rejected /\
  map testName (results (assembleReport run 1%Z (processTestFiles "test-results" (Some items))))
  = ["auth-login"].
Proof.
  intros io run items.
  pose proof (one_result_per_readable_directory "test-results" run io None)
    as [Hitems [_ [Hrej _]]].
  split; [apply Hrej; reflexivity |].
  etransitivity; [exact (proj1 (Hitems items 1%Z)) | reflexivity].
Defined.

(** ** Intent *)

Lemma toLowerCase_lower (s : string) : toLowerCase (toLowerCase s) = toLowerCase s.
Proof.
  induction s as [| c s IH]; simpl; [reflexivity |]. rewrite IH. f_equal.
  unfold lowerAscii.
  destruct ((65 <=? nat_of_ascii c)%nat && (nat_of_ascii c <=? 90)%nat) eqn:E.
  - apply andb_true_iff in E as [E1 E2].
    apply Nat.leb_le in E1. apply Nat.leb_le in E2.
    rewrite nat_ascii_embedding by lia.
    replace ((65 <=? nat_of_ascii c + 32)%nat && (nat_of_ascii c + 32 <=? 90)%nat)
      with false; [reflexivity |].
    symmetry. apply andb_false_iff. right. apply Nat.leb_gt. lia.
  - now rewrite E.
Qed.

(** X13.  [mapIntentToPurpose] answers with one of the seven purposes for
    every name except, in any letter case, [constructor] and [__proto__]
    (which the mapping object inherits); it does not depend on the letter
    case of the name, and each of the seven purposes is mapped to itself. *)
Theorem mapIntentToPurpose_range (name : string) :
  (forall p, mapIntentToPurpose name = Some p -> In p purposes) /\
  (mapIntentToPurpose name = None <-> inheritedKey (toLowerCase name) = true) /\
  mapIntentToPurpose (toLowerCase name) = mapIntentToPurpose name /\
  (forall p, mapIntentToPurpose name = Some p -> mapIntentToPurpose p = Some p).
Proof.
  assert (Hrange : forall p, mapIntentToPurpose name = Some p -> In p purposes).
  { intros p. unfold mapIntentToPurpose, purposeMapping, lookupOwn.
    repeat match goal with
           | |- context [String.eqb ?a ?b] => destruct (String.eqb a b)
           end;
      try (intros [= <-]; simpl; tauto);
      destruct (inheritedKey (toLowerCase name)); try discriminate;
      intros [= <-]; simpl; tauto. }
  split; [exact Hrange | split; [| split]].
  - unfold mapIntentToPurpose.
    destruct (lookupOwn (toLowerCase name) purposeMapping) eqn:El.
    + split; [discriminate |]. intros Hi. exfalso.
      unfold inheritedKey in Hi. apply orb_true_iff in Hi.
      destruct Hi as [Hi | Hi]; apply String.eqb_eq in Hi; rewrite Hi in El;
        discriminate.
    + destruct (inheritedKey (toLowerCase name)); split;
        intros; try reflexivity; discriminate.
  - unfold mapIntentToPurpose. now rewrite toLowerCase_lower.
  - intros p Hp. apply Hrange in Hp. simpl in Hp.
    repeat (destruct Hp as [<- | Hp]; [reflexivity |]). contradiction.
Qed.

Lemma empty_targets_expect_pass (i : TestExecutionIntent) (r : PlaywrightTestResult) :
  targetTests i = Some [] -> determineExpectedOutcome r i = Pass.
Proof.
  intros H. unfold determineExpectedOutcome. rewrite H.
  destruct (expectFailures i); reflexivity.
Qed.

(** X14.  An intent obtained by prompting, or by default when the prompt
    fails, names no target test; so with such an intent every result is
    expected to pass and the summary has no expected failure, even when the
    answer to "Do you expect some tests to fail?" was yes. *)
Theorem prompted_intent_expects_no_failure
    (options : IntentOptions) (prompt : IntentPrompt) (i : TestExecutionIntent)
    (run : RunInputs) (number : Z) (rawResults : list PlaywrightTestResult) :
  truthyString (o_intent options) = false ->
  truthyString (o_reasoning options) = false ->
  o_goals options = None ->
  captureExecutionIntent options prompt = Some i ->
  capturedIntent run = i ->
  targetTests i = Some [] /\
  Forall (fun r => expectedOutcome r = Pass)
         (results (assembleReport run number rawResults)) /\
  expectedFails (summary (assembleReport run number rawResults)) = 0.
Proof.
  intros H1 H2 H3 Hc Hrun. unfold captureExecutionIntent in Hc.
  rewrite H1, H2, H3 in Hc. simpl in Hc.
  assert (Ht : targetTests i = Some []).
  { destruct prompt; injection Hc as <-; reflexivity. }
  split; [exact Ht |]. simpl. rewrite Hrun. split.
  - apply Forall_enhanced. intros r. unfold enhanceResult; simpl.
    now apply empty_targets_expect_pass.
  - apply countIf_none. apply Forall_enhanced. intros r.
    unfold enhanceResult; simpl. now rewrite empty_targets_expect_pass.
Qed.

Lemma prompted_intent_witness :
  let options := {| o_intent := None; o_reasoning := None; o_goals := None;
                    o_expectFailures := Some true; o_targetTests := Some ["cart"];
                    o_context := None |} in
  let prompt := IntentAnswers "debugging" "cart is broken" true None in
  let i := {| purpose := "debugging"; description := Some "cart is broken";
              expectFailures := true; targetTests := Some []; goals := [];
              context := None |} in
  let run := {| freshId := "R9"; startedAt := "2024-05-01T10:00:00.000Z";
                elapsed := 5%Z; capturedIntent := i |} in
  let failing := {| testTitle := "cart"; status := Failed; duration := 0%Z;
                    screenshots := []; errors := []; steps := [];
                    traceFile := None |} in
  captureExecutionIntent options prompt = Some i /\
  expectedFails (summary (assembleReport run 9%Z [failing])) = 0.
Proof.
  intros options prompt i run failing.
  split; [reflexivity |].
  exact (proj2 (proj2 (prompted_intent_expects_no_failure options prompt i run 9%Z
                         [failing] eq_refl eq_refl eq_refl eq_refl eq_refl))).
Defined.

(** X15.  The intent name of the upload options does not reach
    [captureExecutionIntent] (the processor passes it under another key):
    the call always yields an intent, and when a reasoning or goals are
    given the purpose is [development], the description is the reasoning,
    and absent options default to no expected failure and no target. *)
Theorem processor_intent_ignores_name (u : UploadOptions) (prompt : IntentPrompt) :
  (exists i, captureExecutionIntent (intentOptionsOf u) prompt = Some i) /\
  (truthyString (u_reasoning u) || isSome (u_goals u) = true ->
   captureExecutionIntent (intentOptionsOf u) prompt =
   Some {| purpose := "development";
           description := u_reasoning u;
           expectFailures :=
             match u_expectFailures u with Some b => b | None => false end;
           targetTests :=
             Some (match u_targetTests u with Some l => l | None => [] end);
           goals := match u_goals u with Some l => l | None => [] end;
           context := u_context u |}).
Proof.
  unfold captureExecutionIntent, intentOptionsOf; simpl. split.
  - destruct (truthyString (u_reasoning u) || isSome (u_goals u)); [eauto |].
    destruct prompt; eauto.
  - intros ->. reflexivity.
Qed.

Lemma processor_intent_witness :
  let u := {| u_intent := Some "regression"; u_expectFailures := None;
              u_reasoning := Some "nightly run"; u_goals := None;
              u_targetTests := None; u_context := None; u_confidence := None |} in
  option_map purpose (captureExecutionIntent (intentOptionsOf u) IntentPromptFails)
  = Some "development".
Proof.
  intros u.
  rewrite (proj2 (processor_intent_ignores_name u IntentPromptFails) eq_refl).
  reflexivity.
Defined.

(** ** Insights *)

Lemma natToString_digit (n : nat) :
  exists c rest, natToString n = String c rest /\ c <> "A"%char.
Proof.
  unfold natToString, DecimalString.NilZero.string_of_uint.
  destruct (Nat.to_uint n); simpl;
    eexists; eexists; (split; [reflexivity | discriminate]).
Qed.

Lemma summarizeResults_all (rs : list EnhancedResult) :
  summarizeResults rs =
    String.append "All " (String.append (natToString (List.length rs)) " tests passed")
  <-> countIf (fun r => TestStatus_eqb (r_status r) Failed) rs = 0.
Proof.
  unfold summarizeResults.
  destruct (Nat.eqb_spec (countIf (fun r => TestStatus_eqb (r_status r) Failed) rs) 0)
    as [E | E].
  - split; [intros _; exact E | reflexivity].
  - split; [| contradiction]. intros H. exfalso.
    destruct (natToString_digit
                (countIf (fun r => TestStatus_eqb (r_status r) Passed) rs))
      as [c [rest [Hs Hc]]].
    rewrite Hs in H. simpl in H. injection H as H _. now apply Hc.
Qed.

(** X16.  When the insights prompt fails, the automatic insights follow the
    summary of the report: a surprise is noted exactly when some result is
    an unexpected failure, an unexpected pass or a skip, and its text gives
    their number; the next step "Investigate test failures" is there exactly
    when a test failed; and the actual behaviour reads "All N tests passed",
    N being the total, exactly when no test failed, skipped tests included
    in N. *)
Theorem fallback_insights_follow_summary
    (run : RunInputs) (number : Z) (rawResults : list PlaywrightTestResult)
    (optConfidence : option Z) :
  let report := assembleReport run number rawResults in
  let s := summary report in
  let ins := captureExecutionInsights (capturedIntent run) (results report)
               optConfidence InsightsPromptFails in
  let odd := unexpectedFails s + unexpectedPasses s + skipped s in
  surprises ins =
    (if (0 <? odd)%nat
     then [String.append (natToString odd) " tests had unexpected outcomes"]
     else []) /\
  (nextSteps ins = [] <-> failed s = 0) /\
  (actualBehavior ins =
     String.append "All " (String.append (natToString (total s)) " tests passed")
   <-> failed s = 0).
Proof.
  intros report s ins odd.
  pose proof (proj2 (match_counts run number rawResults)) as Hodd.
  fold report in Hodd. fold s in Hodd. fold odd in Hodd.
  unfold ins, captureExecutionInsights. cbn [surprises nextSteps actualBehavior].
  change (List.length (filter (fun r => negb (outcomeMatch r)) (results report)))
    with (countIf (fun r => negb (outcomeMatch r)) (results report)).
  rewrite Hodd. split; [reflexivity |].
  change (List.length (filter (fun r => TestStatus_eqb (r_status r) Failed)
                              (results report)))
    with (failed s).
  split.
  - destruct (failed s); simpl; split; intros H; try reflexivity; discriminate.
  - apply summarizeResults_all.
Qed.

(** ** Numbering over several runs *)

Lemma counterIoWorks_flags (io : CounterIo) :
  counterIoWorks io = true -> readThrows io = false /\ writeThrows io = false.
Proof.
  unfold counterIoWorks. intros Hio.
  apply andb_true_iff in Hio as [Hr Hw].
  apply negb_true_iff in Hr. apply negb_true_iff in Hw. now split.
Qed.

Lemma reportNumbers_from (ios : list CounterIo) (data : CounterData) (n : Z) :
  forallb counterIoWorks ios = true ->
  lastNumber data = JNumber (JsNumber.Finite n 0) ->
  (- 2 ^ 53 <= n)%Z -> (n + Z.of_nat (List.length ios) < 2 ^ 53)%Z ->
  reportNumbers ios (Some (Parsed data)) =
  (map (fun k => Resolved (integerNumber (n + Z.of_nat k))) (seq 1 (List.length ios)),
   Some (Parsed {| lastNumber := JNumber (JsNumber.Finite (n + Z.of_nat (List.length ios)) 0);
                   otherProperties := otherProperties data |})).
Proof.
  revert data n. induction ios as [| io ios IH]; intros data n Hall Hn Hlow Hhigh.
  - simpl. rewrite Z.add_0_r. destruct data as [l o]. simpl in Hn. now rewrite Hn.
  - simpl in Hall. apply andb_true_iff in Hall as [Hio Hall].
    apply counterIoWorks_flags in Hio as [Hr Hw].
    cbn [List.length] in Hhigh.
    assert (Hsafe : safeToIncrement n) by (unfold safeToIncrement; lia).
    cbn [reportNumbers].
    rewrite (getNextReportNumber_safe io data n Hn Hsafe Hr Hw).
    rewrite (IH {| lastNumber := JNumber (JsNumber.Finite (n + 1) 0);
                   otherProperties := otherProperties data |} (n + 1)%Z Hall eq_refl)
      by lia.
    cbn [otherProperties List.length].
    replace (n + 1 + Z.of_nat (List.length ios))%Z
      with (n + Z.of_nat (S (List.length ios)))%Z by lia.
    f_equal. cbn [seq map].
    replace (n + Z.of_nat 1)%Z with (n + 1)%Z by lia. f_equal.
    rewrite <- (seq_shift (List.length ios) 1), map_map.
    apply map_ext. intros k. do 2 f_equal. lia.
Qed.

Lemma reportNumbers_first (io : CounterIo) (ios : list CounterIo) :
  forallb counterIoWorks (io :: ios) = true ->
  (Z.of_nat (List.length (io :: ios)) < 2 ^ 53)%Z ->
  reportNumbers (io :: ios) None =
  (map (fun k => Resolved (integerNumber (Z.of_nat k))) (seq 1 (List.length (io :: ios))),
   Some (Parsed {| lastNumber :=
                     JNumber (JsNumber.Finite (Z.of_nat (List.length (io :: ios))) 0);
                   otherProperties := [] |})).
Proof.
  intros Hall Hlen. simpl in Hall. apply andb_true_iff in Hall as [Hio Hall].
  apply counterIoWorks_flags in Hio as [_ Hw].
  cbn [List.length] in *. cbn [reportNumbers].
  assert (H1 : getNextReportNumber io None =
               (Resolved (integerNumber 1),
                Some (Parsed {| lastNumber := JNumber (JsNumber.Finite 1 0);
                                otherProperties := [] |}))).
  { unfold getNextReportNumber, nextReportNumberBody. now rewrite Hw. }
  rewrite H1.
  rewrite (reportNumbers_from ios
             {| lastNumber := JNumber (JsNumber.Finite 1 0); otherProperties := [] |}
             1%Z Hall eq_refl) by lia.
  cbn [otherProperties seq map].
  replace (1 + Z.of_nat (List.length ios))%Z
    with (Z.of_nat (S (List.length ios))) by lia.
  f_equal. f_equal.
  rewrite <- (seq_shift (List.length ios) 1), map_map.
  apply map_ext. intros k. do 2 f_equal. lia.
Qed.

Lemma reportNumbers_stalled (ios : list CounterIo) (others : list (string * string)) :
  forallb counterIoWorks ios = true ->
  reportNumbers ios
    (Some (Parsed {| lastNumber := JNumber (JsNumber.Finite (2 ^ 53) 0);
                     otherProperties := others |})) =
  (repeat (Resolved (integerNumber (2 ^ 53))) (List.length ios),
   Some (Parsed {| lastNumber := JNumber (JsNumber.Finite (2 ^ 53) 0);
                   otherProperties := others |})).
Proof.
  induction ios as [| io ios IH]; intros Hall; [reflexivity |].
  simpl in Hall. apply andb_true_iff in Hall as [Hio Hall].
  apply counterIoWorks_flags in Hio as [Hr Hw].
  cbn [reportNumbers List.length repeat].
  assert (H1 : getNextReportNumber io
                 (Some (Parsed {| lastNumber := JNumber (JsNumber.Finite (2 ^ 53) 0);
                                  otherProperties := others |})) =
               (Resolved (integerNumber (2 ^ 53)),
                Some (Parsed {| lastNumber := JNumber (JsNumber.Finite (2 ^ 53) 0);
                                otherProperties := others |}))).
  { unfold getNextReportNumber, nextReportNumberBody. rewrite Hr.
    cbn [lastNumber otherProperties].
    replace (orZeroPlusOne (JNumber (JsNumber.Finite (2 ^ 53) 0)))
      with (Returns (integerNumber (2 ^ 53))) by (vm_compute; reflexivity).
    rewrite Hw. reflexivity. }
  rewrite H1, (IH Hall). reflexivity.
Qed.

(** X17.  Calls of [getNextReportNumber] that can read and write the counter
    file number the reports consecutively as long as the numbers stay below
    2^53: starting without a counter file they return 1, 2, 3, ...; starting
    from a stored integer [n] they return [n+1], [n+2], ... and leave the
    other properties of the file untouched; the file ends up holding the
    last number returned.  A counter that has reached 2^53 stays there:
    every further call returns 2^53. *)
Theorem report_numbers_consecutive (ios : list CounterIo) :
  forallb counterIoWorks ios = true ->
  ((Z.of_nat (List.length ios) < 2 ^ 53)%Z ->
   fst (reportNumbers ios None) =
     map (fun k => Resolved (integerNumber (Z.of_nat k))) (seq 1 (List.length ios)) /\
   (ios <> [] ->
    snd (reportNumbers ios None) =
    Some (Parsed {| lastNumber := JNumber (JsNumber.Finite (Z.of_nat (List.length ios)) 0);
                    otherProperties := [] |}))) /\
  (forall data n,
     lastNumber data = JNumber (JsNumber.Finite n 0) ->
     (- 2 ^ 53 <= n)%Z -> (n + Z.of_nat (List.length ios) < 2 ^ 53)%Z ->
     reportNumbers ios (Some (Parsed data)) =
     (map (fun k => Resolved (integerNumber (n + Z.of_nat k))) (seq 1 (List.length ios)),
      Some (Parsed {| lastNumber :=
                        JNumber (JsNumber.Finite (n + Z.of_nat (List.length ios)) 0);
                      otherProperties := otherProperties data |}))) /\
  (forall others,
     reportNumbers ios
       (Some (Parsed {| lastNumber := JNumber (JsNumber.Finite (2 ^ 53) 0);
                        otherProperties := others |})) =
     (repeat (Resolved (integerNumber (2 ^ 53))) (List.length ios),
      Some (Parsed {| lastNumber := JNumber (JsNumber.Finite (2 ^ 53) 0);
                      otherProperties := others |}))).
Proof.
  intros Hall. split; [| split].
  - intros Hlen. destruct ios as [| io ios].
    + split; [reflexivity | intros H; now contradiction H].
    + rewrite (reportNumbers_first io ios Hall Hlen). split; [reflexivity |].
      intros _. reflexivity.
  - intros data n Hn Hlow Hhigh. now apply reportNumbers_from.
  - intros others. now apply reportNumbers_stalled.
Qed.

Lemma report_numbers_consecutive_witness :
  let io := {| clock := 1700000000000%Z; readThrows := false; writeThrows := false |} in
  forallb counterIoWorks [io; io; io] = true /\
  (Z.of_nat (List.length [io; io; io]) < 2 ^ 53)%Z /\
  fst (reportNumbers [io; io; io] None) =
    [Resolved (integerNumber 1); Resolved (integerNumber 2); Resolved (integerNumber 3)].
Proof.
  intros io.
  assert (Hall : forallb counterIoWorks [io; io; io] = true) by reflexivity.
  assert (Hlen : (Z.of_nat (List.length [io; io; io]) < 2 ^ 53)%Z) by reflexivity.
  split; [exact Hall | split; [exact Hlen |]].
  exact (proj1 (proj1 (report_numbers_consecutive [io; io; io] Hall) Hlen)).
Defined.

(* ================================================================== *)
(** * Further properties of the index and the adapters *)
(* ================================================================== *)

(** ** Order of the index *)

Lemma firstn_cons_firstn {A : Type} (x : A) (l : list A) :
  firstn 100 (x :: firstn 100 l) = firstn 100 (x :: l).
Proof.
  rewrite !(firstn_cons 99). f_equal. rewrite firstn_firstn. reflexivity.
Qed.

Lemma gitHubMerge_reports (index : Index GitHubEntry) (report : ProcessedTestReport)
    (now : string) :
  reports (gitHubMerge index report now) =
  firstn 100 (gitHubReportSummary report :: reports index).
Proof.
  unfold gitHubMerge. cbn [reports].
  destruct (Nat.ltb_spec 100 (List.length (gitHubReportSummary report :: reports index)))
    as [Hlong | Hshort]; [reflexivity |].
  symmetry. now apply firstn_all2.
Qed.

Lemma gitHubAdapter_step_ids (io : BackendIo) (stored : Stored GitHubEntry)
    (report : ProcessedTestReport) :
  reliable io = true ->
  map gh_id (storedReports (GitHubStorageAdapter.updateReportsIndex io stored report)) =
  firstn 100 (uniqueId (execution report) :: map gh_id (storedReports stored)).
Proof.
  intros Hio. apply reliable_flags in Hio as [Hf Hs].
  unfold GitHubStorageAdapter.updateReportsIndex. rewrite Hf, Hs.
  cbn [storedReports]. rewrite gitHubMerge_reports, <- firstn_map.
  destruct stored; reflexivity.
Qed.

(** X18.  The GitHub adapter keeps the index newest first: after one or more
    uploads that reach the backend, the ids in the index are those of the
    uploads, latest first, followed by the ids that were there before, the
    whole cut after 100.  After 101 uploads onto an empty index the first
    one is gone. *)
Theorem github_index_newest_first (calls : list Call) (stored : Stored GitHubEntry) :
  calls <> [] ->
  allReliable calls = true ->
  map gh_id (storedReports (runCalls GitHubStorageAdapter.updateReportsIndex calls stored)) =
  firstn 100 (rev (uploadedIds calls) ++ map gh_id (storedReports stored)).
Proof.
  induction calls as [| c front IH] using rev_ind; intros Hne Hall; [contradiction |].
  unfold allReliable in Hall. rewrite forallb_app in Hall.
  apply andb_true_iff in Hall as [Hfront Hc]. simpl in Hc. rewrite andb_true_r in Hc.
  rewrite runCalls_snoc, (gitHubAdapter_step_ids _ _ _ Hc).
  unfold uploadedIds. rewrite map_app, rev_app_distr. simpl rev. simpl app.
  destruct front as [| c0 front].
  - reflexivity.
  - rewrite IH by (discriminate || exact Hfront).
    apply firstn_cons_firstn.
Qed.

Lemma github_index_newest_first_witness :
  let calls := [ (reliableIo, reportOf "R1" 1%Z []);
                 (reliableIo, reportOf "R2" 2%Z [onePassingResult]) ] in
  map gh_id (storedReports (runCalls GitHubStorageAdapter.updateReportsIndex calls None))
  = ["R2"; "R1"].
Proof.
  intros calls.
  rewrite (github_index_newest_first calls None); [reflexivity | discriminate | reflexivity].
Defined.

(** ** The SharePoint index *)

Lemma map_filter_id (id : string) (l : list SharePointEntry) :
  map sp_id (filter (fun r => negb (String.eqb (sp_id r) id)) l) =
  filter (fun x => negb (String.eqb x id)) (map sp_id l).
Proof.
  induction l as [| a l IH]; simpl; [reflexivity |].
  destruct (negb (String.eqb (sp_id a) id)); simpl; now rewrite IH.
Qed.

Lemma filter_absent (id : string) (l : list string) :
  ~ In id l -> filter (fun x => negb (String.eqb x id)) l = l.
Proof.
  induction l as [| a l IH]; simpl; intros H; [reflexivity |].
  destruct (String.eqb_spec a id) as [-> | Hne]; simpl.
  - exfalso. apply H. now left.
  - rewrite IH; [reflexivity |]. intros Hin. apply H. now right.
Qed.

Lemma filter_removes (id : string) (l : list string) :
  ~ In id (filter (fun x => negb (String.eqb x id)) l).
Proof.
  intros H. apply filter_In in H as [_ H].
  now rewrite String.eqb_refl in H.
Qed.

Lemma In_firstn {A : Type} (x : A) (n : nat) (l : list A) :
  In x (firstn n l) -> In x l.
Proof.
  revert n. induction l as [| a l IH]; intros [| n]; simpl; try tauto.
  intros [-> | H]; [now left | right; eauto].
Qed.

Lemma NoDup_firstn {A : Type} (n : nat) (l : list A) : NoDup l -> NoDup (firstn n l).
Proof.
  intros H. revert n. induction H as [| x l Hx _ IH]; intros n.
  - destruct n; constructor.
  - destruct n as [| n]; simpl; constructor; [| apply IH].
    intros Hin. apply Hx. now apply In_firstn in Hin.
Qed.

Lemma sharePointMerge_ids (index : Index SharePointEntry) (report : ProcessedTestReport) :
  map sp_id (reports (sharePointMerge index report)) =
  firstn 100 (uniqueId (execution report)
                :: filter (fun x => negb (String.eqb x (uniqueId (execution report))))
                          (map sp_id (reports index))).
Proof.
  unfold sharePointMerge. cbn [reports].
  rewrite <- firstn_map. cbn [map sharePointReportSummary sp_id].
  now rewrite map_filter_id.
Qed.

Lemma sharePoint_step_NoDup (io : BackendIo) (stored : Stored SharePointEntry)
    (report : ProcessedTestReport) :
  NoDup (map sp_id (storedReports stored)) ->
  NoDup (map sp_id
           (storedReports (SharePointStorageAdapter.updateReportsIndex io stored report))).
Proof.
  intros Hnd. unfold SharePointStorageAdapter.updateReportsIndex.
  destruct (storeFails io); [exact Hnd |].
  cbn [storedReports]. rewrite sharePointMerge_ids.
  apply NoDup_firstn. constructor; [apply filter_removes |].
  apply NoDup_filter.
  destruct (fetchFails io); [constructor |].
  destruct stored; [exact Hnd | constructor].
Qed.

(** X19.  The SharePoint adapter never lists a report twice: if the ids of
    the stored index are distinct, they are distinct after any run of
    uploads, whatever fails on the way; starting without an index they
    always are. *)
Theorem sharepoint_index_ids_distinct (calls : list Call) (stored : Stored SharePointEntry) :
  NoDup (map sp_id (storedReports stored)) ->
  NoDup (map sp_id
           (storedReports
              (runCalls SharePointStorageAdapter.updateReportsIndex calls stored))).
Proof.
  intros Hnd. induction calls as [| c front IH] using rev_ind; [exact Hnd |].
  rewrite runCalls_snoc. now apply sharePoint_step_NoDup.
Qed.

Lemma sharepoint_index_ids_distinct_witness :
  let calls := [ (reliableIo, reportOf "R1" 1%Z []);
                 (reliableIo, reportOf "R1" 2%Z [onePassingResult]) ] in
  NoDup (map sp_id
           (storedReports
              (runCalls SharePointStorageAdapter.updateReportsIndex calls None))).
Proof.
  intros calls.
  apply (sharepoint_index_ids_distinct calls None). constructor.
Defined.

Lemma sharePoint_step_ids (io : BackendIo) (stored : Stored SharePointEntry)
    (report : ProcessedTestReport) :
  reliable io = true ->
  map sp_id (storedReports (SharePointStorageAdapter.updateReportsIndex io stored report)) =
  firstn 100 (uniqueId (execution report)
                :: filter (fun x => negb (String.eqb x (uniqueId (execution report))))
                          (map sp_id (storedReports stored))).
Proof.
  intros Hio. apply reliable_flags in Hio as [Hf Hs].
  unfold SharePointStorageAdapter.updateReportsIndex. rewrite Hf, Hs.
  cbn [storedReports]. rewrite sharePointMerge_ids. destruct stored; reflexivity.
Qed.

(** X20.  When the uploaded reports have ids that differ from one another
    and from those already listed, the SharePoint adapter orders the index
    like the GitHub adapter: the uploads latest first, then the former
    entries, cut after 100. *)
Theorem sharepoint_index_newest_first (calls : list Call) (stored : Stored SharePointEntry) :
  calls <> [] ->
  allReliable calls = true ->
  NoDup (uploadedIds calls ++ map sp_id (storedReports stored)) ->
  map sp_id
    (storedReports (runCalls SharePointStorageAdapter.updateReportsIndex calls stored)) =
  firstn 100 (rev (uploadedIds calls) ++ map sp_id (storedReports stored)).
Proof.
  induction calls as [| c front IH] using rev_ind; intros Hne Hall Hnd; [contradiction |].
  unfold allReliable in Hall. rewrite forallb_app in Hall.
  apply andb_true_iff in Hall as [Hfront Hc]. simpl in Hc. rewrite andb_true_r in Hc.
  rewrite runCalls_snoc, (sharePoint_step_ids _ _ _ Hc).
  assert (Hids : uploadedIds (front ++ [c]) =
                 uploadedIds front ++ [uniqueId (execution (snd c))]).
  { unfold uploadedIds. now rewrite map_app. }
  rewrite Hids in *. rewrite <- app_assoc in Hnd. simpl in Hnd.
  pose proof (NoDup_remove_2 _ _ _ Hnd) as Hfresh.
  pose proof (NoDup_remove_1 _ _ _ Hnd) as Hnd'.
  rewrite rev_app_distr. simpl rev. simpl app.
  destruct front as [| c0 front'].
  - simpl. rewrite filter_absent; [reflexivity | exact Hfresh].
  - rewrite (IH ltac:(discriminate) Hfront Hnd').
    rewrite filter_absent.
    + apply firstn_cons_firstn.
    + intros Hin. apply In_firstn in Hin. apply Hfresh.
      apply in_app_or in Hin as [Hin | Hin]; apply in_or_app;
        [left; now apply in_rev | now right].
Qed.

Lemma sharepoint_index_newest_first_witness :
  let calls := [ (reliableIo, reportOf "R1" 1%Z []);
                 (reliableIo, reportOf "R2" 2%Z [onePassingResult]) ] in
  map sp_id
    (storedReports (runCalls SharePointStorageAdapter.updateReportsIndex calls None))
  = ["R2"; "R1"].
Proof.
  intros calls.
  rewrite (sharepoint_index_newest_first calls None);
    [reflexivity | discriminate | reflexivity |].
  repeat constructor; simpl; intuition discriminate.
Defined.

Lemma filter_kept_twice (id : string) (n : nat) (l : list SharePointEntry) :
  filter (fun r => negb (String.eqb (sp_id r) id))
         (firstn n (filter (fun r => negb (String.eqb (sp_id r) id)) l)) =
  firstn n (filter (fun r => negb (String.eqb (sp_id r) id)) l).
Proof.
  revert n. induction l as [| a l IH]; intros n; simpl.
  - now destruct n.
  - destruct (negb (String.eqb (sp_id a) id)) eqn:Ha; [| apply IH].
    destruct n as [| n]; simpl; [reflexivity |]. now rewrite Ha, IH.
Qed.

Lemma sharePointMerge_twice (index : Index SharePointEntry) (report : ProcessedTestReport) :
  sharePointMerge (sharePointMerge index report) report = sharePointMerge index report.
Proof.
  unfold sharePointMerge. cbn [reports lastUpdated]. f_equal.
  rewrite !(firstn_cons 99). cbn [filter sp_id sharePointReportSummary].
  rewrite String.eqb_refl. cbn [negb].
  rewrite filter_kept_twice, firstn_firstn. reflexivity.
Qed.

(** X21.  Uploading the same report to SharePoint twice in a row is the same
    as uploading it once: the second update leaves the stored index exactly
    as the first one left it. *)
Theorem sharepoint_update_idempotent
    (io1 io2 : BackendIo) (stored : Stored SharePointEntry) (report : ProcessedTestReport) :
  reliable io1 = true -> reliable io2 = true ->
  SharePointStorageAdapter.updateReportsIndex io2
    (SharePointStorageAdapter.updateReportsIndex io1 stored report) report =
  SharePointStorageAdapter.updateReportsIndex io1 stored report.
Proof.
  intros H1 H2. apply reliable_flags in H1 as [Hf1 Hs1].
  apply reliable_flags in H2 as [Hf2 Hs2].
  unfold SharePointStorageAdapter.updateReportsIndex.
  rewrite Hf1, Hs1, Hf2, Hs2. f_equal. apply sharePointMerge_twice.
Qed.

Lemma sharepoint_update_idempotent_witness :
  let report := reportOf "R1" 1%Z [onePassingResult] in
  let once := SharePointStorageAdapter.updateReportsIndex reliableIo None report in
  SharePointStorageAdapter.updateReportsIndex reliableIo once report = once.
Proof.
  intros report once.
  exact (sharepoint_update_idempotent reliableIo reliableIo None report eq_refl eq_refl).
Defined.

Lemma filter_absent_entries (id : string) (l : list SharePointEntry) :
  ~ In id (map sp_id l) ->
  filter (fun r => negb (String.eqb (sp_id r) id)) l = l.
Proof.
  induction l as [| a l IH]; simpl; intros H; [reflexivity |].
  destruct (String.eqb_spec (sp_id a) id) as [E | Hne]; simpl.
  - exfalso. apply H. now left.
  - rewrite IH; [reflexivity |]. intros Hin. apply H. now right.
Qed.

(** X22.  Deleting a report from SharePoint right after its upload takes its
    entry out of the index again and keeps the 99 newest of the other
    entries; when the index held fewer than 100 entries, none of them for
    this report, it is back to what it was.  The call answers true as soon
    as the folder is removed. *)
Theorem sharepoint_delete_after_upload
    (io1 io2 : BackendIo) (index : Index SharePointEntry) (report : ProcessedTestReport) :
  reliable io1 = true -> reliable io2 = true ->
  let id := uniqueId (execution report) in
  let uploaded :=
    SharePointStorageAdapter.updateReportsIndex io1 (Some index) report in
  let deleted := SharePointStorageAdapterMore.deleteReport false io2 uploaded id in
  fst deleted = true /\
  storedReports (snd deleted) =
    firstn 99 (filter (fun r => negb (String.eqb (sp_id r) id)) (reports index)) /\
  (~ In id (map sp_id (reports index)) -> List.length (reports index) < 100 ->
   snd deleted = Some index).
Proof.
  intros H1 H2 id uploaded deleted.
  apply reliable_flags in H1 as [Hf1 Hs1]. apply reliable_flags in H2 as [Hf2 Hs2].
  assert (Hrep : storedReports (snd deleted) =
                 firstn 99 (filter (fun r => negb (String.eqb (sp_id r) id))
                                   (reports index))).
  { unfold deleted, uploaded, SharePointStorageAdapterMore.deleteReport,
      SharePointStorageAdapter.updateReportsIndex.
    rewrite Hf1, Hs1, Hf2, Hs2. cbn [snd storedReports reports].
    unfold sharePointMerge. cbn [reports]. fold id.
    rewrite (firstn_cons 99). cbn [filter sp_id sharePointReportSummary]. fold id.
    rewrite String.eqb_refl. cbn [negb]. apply filter_kept_twice. }
  split; [reflexivity | split; [exact Hrep |]].
  intros Hfresh Hlen.
  assert (Hlast : lastUpdated (match snd deleted with
                               | Some i => i
                               | None => index
                               end) = lastUpdated index).
  { unfold deleted, uploaded, SharePointStorageAdapterMore.deleteReport,
      SharePointStorageAdapter.updateReportsIndex.
    rewrite Hf1, Hs1, Hf2, Hs2. reflexivity. }
  rewrite filter_absent_entries in Hrep by exact Hfresh.
  rewrite firstn_all2 in Hrep by lia.
  destruct (snd deleted) as [i |] eqn:E.
  - simpl in Hrep, Hlast. destruct i as [r l], index as [r0 l0].
    simpl in *. now subst.
  - exfalso. unfold deleted, uploaded, SharePointStorageAdapterMore.deleteReport,
      SharePointStorageAdapter.updateReportsIndex in E.
    rewrite Hf1, Hs1, Hf2, Hs2 in E. discriminate.
Qed.

Lemma sharepoint_delete_after_upload_witness :
  let report := reportOf "R2" 2%Z [onePassingResult] in
  let index := {| reports := [sharePointReportSummary (reportOf "R1" 1%Z [])];
                  lastUpdated := None |} in
  snd (SharePointStorageAdapterMore.deleteReport false reliableIo
         (SharePointStorageAdapter.updateReportsIndex reliableIo (Some index) report)
         "R2")
  = Some index.
Proof.
  intros report index.
  apply (proj2 (proj2 (sharepoint_delete_after_upload reliableIo reliableIo index report
                         eq_refl eq_refl))).
  - simpl. intros [H | []]. discriminate H.
  - simpl. lia.
Defined.

(** ** The GitHub adapter *)

(** X23.  After an upload that reaches the backend, [listReports] of the
    GitHub adapter lists the uploaded report first, with its id, date,
    developer, branch and summary; the listing carries no results, and the
    report number, duration and environment of the original are replaced by
    0, 0 and [local].  It lists at most 100 reports. *)
Theorem github_list_after_upload
    (io : BackendIo) (stored : Stored GitHubEntry) (report : ProcessedTestReport) :
  reliable io = true ->
  let listed :=
    GitHubStorageAdapterUpload.listReports false
      (GitHubStorageAdapter.updateReportsIndex io stored report) in
  hd_error listed =
    Some {| GitHubStorageAdapterUpload.l_uniqueId := uniqueId (execution report);
            GitHubStorageAdapterUpload.l_reportNumber := 0%Z;
            GitHubStorageAdapterUpload.l_timestamp := timestamp (execution report);
            GitHubStorageAdapterUpload.l_developer := developer (execution report);
            GitHubStorageAdapterUpload.l_branch := branch (execution report);
            GitHubStorageAdapterUpload.l_environment := "local";
            GitHubStorageAdapterUpload.l_duration := 0%Z;
            GitHubStorageAdapterUpload.l_summary := summary report;
            GitHubStorageAdapterUpload.l_results := [] |} /\
  List.length listed = Nat.min 100 (S (List.length (storedReports stored))).
Proof.
  intros Hio listed. apply reliable_flags in Hio as [Hf Hs].
  unfold listed, GitHubStorageAdapterUpload.listReports,
    GitHubStorageAdapter.updateReportsIndex.
  rewrite Hf, Hs. rewrite gitHubMerge_reports, (firstn_cons 99). split.
  - reflexivity.
  - rewrite length_map. cbn [List.length]. rewrite length_firstn.
    destruct stored as [index |]; cbn [storedReports reports List.length]; lia.
Qed.

Lemma github_list_after_upload_witness :
  let report := reportOf "R1" 1%Z [onePassingResult] in
  List.length
    (GitHubStorageAdapterUpload.listReports false
       (GitHubStorageAdapter.updateReportsIndex reliableIo None report)) = 1.
Proof.
  intros report.
  rewrite (proj2 (github_list_after_upload reliableIo None report eq_refl)).
  reflexivity.
Defined.

Lemma uploadAssets_length (reportId : string) (assets : list Asset) :
  List.length (GitHubStorageAdapterUpload.uploadAssets reportId assets) =
  countIf (fun a => regularFile a && transfers a) assets.
Proof.
  unfold GitHubStorageAdapterUpload.uploadAssets.
  induction assets as [| a l IH]; [reflexivity |].
  rewrite countIf_cons. cbn [flat_map]. rewrite length_app, IH.
  destruct (regularFile a && transfers a); reflexivity.
Qed.

(** X24.  [uploadReport] of the GitHub adapter reports success exactly when
    the storage structure and [report.json] could be written; failed assets
    and a failed index update do not change that.  On success it lists
    [report.json] first and counts it plus the assets that are regular files
    and went through; [filesUploaded] always is the number of listed files.
    On failure nothing is listed, an error text is given and the index is
    left as it was. *)
Theorem github_upload_result
    (config : GitHubStorageConfig) (io : UploadIo) (stored : Stored GitHubEntry)
    (report : ProcessedTestReport) (assets : list Asset) :
  let out := GitHubStorageAdapterUpload.uploadReport config io stored report assets in
  let res := fst out in
  filesUploaded res = List.length (uploadedFiles res) /\
  (success res = true <-> structureThrows io = None /\ reportWriteThrows io = None) /\
  (success res = true ->
   hd_error (uploadedFiles res) =
     Some (String.append "reports/"
             (String.append (uniqueId (execution report)) "/report.json")) /\
   filesUploaded res = 1 + countIf (fun a => regularFile a && transfers a) assets /\
   uploadError res = None) /\
  (success res = false ->
   uploadedFiles res = [] /\ filesUploaded res = 0 /\
   uploadError res <> None /\ snd out = stored).
Proof.
  unfold GitHubStorageAdapterUpload.uploadReport.
  destruct (structureThrows io) as [t |]; [| destruct (reportWriteThrows io) as [t |]];
    cbn [fst snd GitHubStorageAdapterUpload.failedUpload filesUploaded uploadedFiles
         success uploadError List.length hd_error].
  - repeat split; try discriminate; intros [H _]; discriminate.
  - repeat split; try discriminate; intros [_ H]; discriminate.
  - rewrite uploadAssets_length. repeat split; try discriminate; lia.
Qed.

(** ** Chunked upload to SharePoint *)

Section Chunks.

Import SharePointStorageAdapterMore.

Lemma chunkSize_pos : (0 < chunkSize)%Z.
Proof. reflexivity. Qed.

Lemma ceil_step (d : Z) :
  (0 < d)%Z ->
  ((d + chunkSize - 1) / chunkSize
   = 1 + (Z.max 0 (d - chunkSize) + chunkSize - 1) / chunkSize)%Z.
Proof.
  intros Hd. pose proof chunkSize_pos as Hc.
  replace (d + chunkSize - 1)%Z with ((d - 1) + 1 * chunkSize)%Z by lia.
  rewrite Z.div_add by lia.
  destruct (Z_le_gt_dec d chunkSize) as [Hle | Hgt].
  - rewrite Z.max_l by lia. rewrite !Z.div_small by lia. reflexivity.
  - rewrite Z.max_r by lia.
    replace (d - chunkSize + chunkSize - 1)%Z with (d - 1)%Z by lia. lia.
Qed.

Lemma chunksFrom_spec (fuel : nat) (start len : Z) :
  (0 <= start)%Z ->
  (len - start <= Z.of_nat fuel * chunkSize)%Z ->
  totalLength (chunksFrom fuel start len) = Z.max 0 (len - start) /\
  Forall (fun c => chunkFits len c /\ (start <= rangeFirst c)%Z)
         (chunksFrom fuel start len) /\
  map rangeFirst (chunksFrom fuel start len) =
    map (fun i => (start + Z.of_nat i * chunkSize)%Z)
        (seq 0 (List.length (chunksFrom fuel start len))) /\
  Z.of_nat (List.length (chunksFrom fuel start len))
    = ((Z.max 0 (len - start) + chunkSize - 1) / chunkSize)%Z.
Proof.
  pose proof chunkSize_pos as Hc.
  revert start. induction fuel as [| fuel IH]; intros start Hs Hfuel.
  - simpl in *. replace (Z.max 0 (len - start)) with 0%Z by lia.
    repeat split; try constructor.
  - cbn [chunksFrom]. destruct (Z.ltb_spec start len) as [Hlt | Hge].
    + destruct (IH (start + chunkSize)%Z) as [Hsum [Hall [Hfirst Hcount]]];
        [lia | lia |].
      unfold totalLength in *. cbn [map fold_right chunkLength List.length seq rangeFirst].
      repeat split.
      * rewrite Hsum. lia.
      * constructor.
        -- unfold chunkFits; cbn [chunkLength rangeFirst rangeLast].
           repeat split; lia.
        -- eapply Forall_impl; [| exact Hall]. intros c [Hf Hr]. split; [exact Hf | lia].
      * f_equal; [lia |]. rewrite Hfirst.
        rewrite <- (seq_shift _ 0), map_map. apply map_ext. intros i. lia.
      * rewrite Nat2Z.inj_succ, Hcount.
        replace (len - (start + chunkSize))%Z with ((len - start) - chunkSize)%Z by lia.
        rewrite (Z.max_r 0 (len - start)) by lia.
        rewrite (ceil_step (len - start)) by lia. lia.
    + replace (Z.max 0 (len - start)) with 0%Z by lia.
      repeat split; try constructor.
Qed.

(** X25.  [uploadFile] sends a content below 4 MB in one request and a
    larger one in chunks that cover it exactly: the chunk lengths add up to
    the content length, every chunk holds between 1 and 327680 bytes and
    lies inside the content, the chunks start at 0, 327680, 655360, ... and
    each ends where the next one starts or the content ends, and their
    number is the content length divided by 327680, rounded up. *)
Theorem sharepoint_chunks_cover_content (len : Z) :
  (0 <= len)%Z ->
  match uploadFile len with
  | SimpleUpload => (len < 4194304)%Z
  | ChunkedUpload cs =>
      (4194304 <= len)%Z /\
      totalLength cs = len /\
      Forall (chunkFits len) cs /\
      map rangeFirst cs =
        map (fun i => (Z.of_nat i * chunkSize)%Z) (seq 0 (List.length cs)) /\
      Z.of_nat (List.length cs) = ((len + chunkSize - 1) / chunkSize)%Z
  end.
Proof.
  intros Hlen. unfold uploadFile.
  destruct (Z.ltb_spec len (4 * 1024 * 1024)) as [Hsmall | Hlarge]; [lia |].
  pose proof chunkSize_pos as Hc.
  destruct (chunksFrom_spec (S (Z.to_nat (len / chunkSize))) 0 len)
    as [Hsum [Hall [Hfirst Hcount]]].
  - lia.
  - rewrite Nat2Z.inj_succ, Z2Nat.id by (apply Z.div_pos; lia).
    pose proof (Z.mul_succ_div_gt len chunkSize Hc). lia.
  - unfold uploadLargeFile. repeat split.
    + lia.
    + rewrite Hsum. lia.
    + eapply Forall_impl; [| exact Hall]. now intros c [Hf _].
    + exact Hfirst.
    + rewrite Hcount. rewrite Z.sub_0_r, Z.max_r by lia. reflexivity.
Qed.

Lemma sharepoint_chunks_witness :
  match uploadFile 5000000 with
  | SimpleUpload => False
  | ChunkedUpload cs => totalLength cs = 5000000%Z /\ List.length cs = 16
  end.
Proof.
  pose proof (sharepoint_chunks_cover_content 5000000 ltac:(lia)) as H.
  destruct (uploadFile 5000000) as [| cs] eqn:E.
  - lia.
  - destruct H as [_ [Hsum [_ [_ Hcount]]]]. split; [exact Hsum |].
    apply Nat2Z.inj. rewrite Hcount. reflexivity.
Defined.

End Chunks.

(** ** The uploader's index *)

(** X26.  The uploader in [github-uploader.ts] only adds to an index that
    exists, and [ensureReportsStructure] sees to that: on a backend that
    works, creating the index if it is missing and then updating it leaves
    the new report first, followed by the former entries, cut after 100;
    without that step an update on a missing index writes nothing. *)
Theorem uploader_index_after_ensure
    (io1 io2 : BackendIo) (stored : Stored GitHubEntry) (report : ProcessedTestReport) :
  reliable io1 = true -> reliable io2 = true ->
  (exists ensured,
      GitHubUploaderMore.ensureReportsIndex io1 stored = Returns ensured /\
      map gh_id (storedReports (GitHubUploader.updateReportsIndex io2 ensured report)) =
      firstn 100 (uniqueId (execution report) :: map gh_id (storedReports stored))) /\
  GitHubUploader.updateReportsIndex io2 None report = None.
Proof.
  intros H1 H2. apply reliable_flags in H1 as [Hf1 Hs1].
  apply reliable_flags in H2 as [Hf2 Hs2].
  unfold GitHubUploaderMore.ensureReportsIndex, GitHubUploader.updateReportsIndex.
  rewrite Hf1, Hs1, Hf2, Hs2. split; [| reflexivity].
  destruct stored as [index |]; eexists; (split; [reflexivity |]);
    cbn [storedReports]; rewrite gitHubMerge_reports, <- firstn_map; reflexivity.
Qed.

Lemma uploader_index_after_ensure_witness :
  let report := reportOf "R1" 1%Z [onePassingResult] in
  GitHubUploader.updateReportsIndex reliableIo None report = None.
Proof.
  intros report.
  exact (proj2 (uploader_index_after_ensure reliableIo reliableIo None report
                  eq_refl eq_refl)).
Defined.

(** ** Building the uploader from the configuration *)

Section FromConfig.

Import GitHubUploaderMore.

Lemma splitSlash_nonempty (s : string) : splitSlash s <> [].
Proof.
  destruct s as [| c s]; simpl; [discriminate |].
  destruct (Ascii.eqb c "/"); [discriminate |].
  destruct (splitSlash s); discriminate.
Qed.

(** The first part has no slash; it is the whole string when it is the only
    part, and otherwise is followed by a slash and the string the other
    parts come from. *)
Lemma splitSlash_head (s h : string) (t : list string) :
  splitSlash s = h :: t ->
  JsString.includes h "/" = false /\
  (t = [] -> s = h) /\
  (t <> [] -> exists s', s = String.append h (String "/" s') /\ splitSlash s' = t).
Proof.
  revert h t. induction s as [| c s IH]; intros h t H; simpl in H.
  - injection H as <- <-. split; [reflexivity | split]; [reflexivity |].
    intros Ht. contradiction.
  - destruct (Ascii.eqb_spec c "/"%char) as [-> | Hc].
    + injection H as <- <-. split; [reflexivity | split].
      * intros Ht. exfalso. exact (splitSlash_nonempty s Ht).
      * intros _. exists s. split; reflexivity.
    + destruct (splitSlash s) as [| h0 t0] eqn:E.
      { exfalso. exact (splitSlash_nonempty s E). }
      injection H as <- <-.
      destruct (IH h0 t0 eq_refl) as [Hh [Hone Hmore]].
      split; [| split].
      * rewrite includes_unfold. simpl.
        apply Ascii.eqb_neq in Hc. now rewrite Hc, Hh.
      * intros Ht. now rewrite (Hone Ht).
      * intros Ht. destruct (Hmore Ht) as [s' [-> Hs']].
        exists s'. split; [reflexivity | exact Hs'].
Qed.

Lemma splitSlash_plain (s : string) :
  JsString.includes s "/" = false -> splitSlash s = [s].
Proof.
  induction s as [| c s IH]; [reflexivity |].
  rewrite includes_unfold. simpl.
  destruct (Ascii.eqb c "/"%char); [discriminate |]. simpl.
  intros H. now rewrite (IH H).
Qed.

Lemma splitSlash_app (o s : string) :
  JsString.includes o "/" = false ->
  splitSlash (String.append o (String "/" s)) = o :: splitSlash s.
Proof.
  induction o as [| c o IH]; [reflexivity |].
  rewrite includes_unfold. simpl.
  destruct (Ascii.eqb c "/"%char); [discriminate |]. simpl.
  intros H. now rewrite (IH H).
Qed.

(** X27.  [fromConfig] builds an uploader exactly from a repository text
    whose first two slash-separated parts are not empty, and a token that is
    not empty: the owner and the repository name are these two parts (what
    follows a second slash is dropped), and the token of the configuration
    goes before the one of the environment.  The text [owner/repo] with a
    token always gives the uploader for that owner and repository. *)
Theorem fromConfig_accepts
    (repository : string) (configToken envToken : option string) :
  (forall o r t,
      fromConfig repository configToken envToken = Uploader o r t ->
      o <> "" /\ r <> "" /\ t <> "" /\
      JsString.includes o "/" = false /\ JsString.includes r "/" = false /\
      JsString.startsWith repository (String.append o (String "/" r)) = true /\
      (if truthyString configToken then configToken = Some t else envToken = Some t)) /\
  (forall o r t,
      repository = String.append o (String "/" r) ->
      o <> "" -> r <> "" ->
      JsString.includes o "/" = false -> JsString.includes r "/" = false ->
      t <> "" ->
      (if truthyString configToken then configToken = Some t else envToken = Some t) ->
      fromConfig repository configToken envToken = Uploader o r t).
Proof.
  split.
  - intros o r t. unfold fromConfig.
    destruct (splitSlash repository) as [| p1 [| p2 rest]] eqn:E; try discriminate.
    destruct (String.eqb_spec p1 "") as [| Hp1]; [discriminate |].
    destruct (String.eqb_spec p2 "") as [| Hp2]; [discriminate |]. simpl.
    destruct (splitSlash_head repository p1 (p2 :: rest) E) as [Ho [_ Hmore]].
    destruct (Hmore ltac:(discriminate)) as [s' [Hrepo Hs']].
    destruct (splitSlash_head s' p2 rest Hs') as [Hr [Hone Hmore']].
    assert (Hstart : JsString.startsWith repository (String.append p1 (String "/" p2)) = true).
    { apply startsWith_iff. rewrite Hrepo.
      destruct rest as [| p3 rest].
      - exists "". rewrite (Hone eq_refl). now rewrite append_empty_r.
      - destruct (Hmore' ltac:(discriminate)) as [s'' [-> _]].
        exists (String "/" s''). now rewrite append_assoc. }
    destruct (truthyString configToken) eqn:Ect.
    + destruct configToken as [ct |]; [| discriminate].
      destruct (String.eqb_spec ct "") as [| Hct]; [discriminate |].
      intros [= <- <- <-]. repeat split; assumption.
    + destruct envToken as [et |]; [| discriminate].
      destruct (String.eqb_spec et "") as [| Het]; [discriminate |].
      intros [= <- <- <-]. repeat split; assumption.
  - intros o r t -> Ho Hr Hos Hrs Ht Htok. unfold fromConfig.
    rewrite splitSlash_app by exact Hos. rewrite splitSlash_plain by exact Hrs.
    destruct (String.eqb_spec o "") as [| _]; [contradiction |].
    destruct (String.eqb_spec r "") as [| _]; [contradiction |]. simpl.
    destruct (truthyString configToken); rewrite Htok;
      destruct (String.eqb_spec t "") as [| _]; try contradiction; reflexivity.
Qed.

Lemma fromConfig_accepts_witness :
  fromConfig "acme/reports" None (Some "ghp_token") = Uploader "acme" "reports" "ghp_token".
Proof.
  apply (proj2 (fromConfig_accepts "acme/reports" None (Some "ghp_token"))
               "acme" "reports" "ghp_token");
    try reflexivity; discriminate.
Defined.

End FromConfig.

(** ** Screenshots *)

Ltac suffix_clash Ha Hb :=
  apply endsWith_iff in Ha as [?p1 ->]; apply endsWith_iff in Hb as [?p2 Hb];
  apply append_split in Hb as [[m [_ Hb]] | [m [_ Hb]]];
  do 7 (destruct m as [| ? m]; simpl in Hb; try discriminate Hb).

Lemma png_not_jpg (s : string) :
  JsString.endsWith s ".png" = true -> JsString.endsWith s ".jpg" = false.
Proof.
  intros Ha. destruct (JsString.endsWith s ".jpg") eqn:Hb; [| reflexivity].
  exfalso. suffix_clash Ha Hb.
Qed.

Lemma png_not_jpeg (s : string) :
  JsString.endsWith s ".png" = true -> JsString.endsWith s ".jpeg" = false.
Proof.
  intros Ha. destruct (JsString.endsWith s ".jpeg") eqn:Hb; [| reflexivity].
  exfalso. suffix_clash Ha Hb.
Qed.

Lemma jpg_not_jpeg (s : string) :
  JsString.endsWith s ".jpg" = true -> JsString.endsWith s ".jpeg" = false.
Proof.
  intros Ha. destruct (JsString.endsWith s ".jpeg") eqn:Hb; [| reflexivity].
  exfalso. suffix_clash Ha Hb.
Qed.

Lemma screenshot_patterns_split (name : string) :
  Nat.b2n (globMatches (Star ".png") name) + Nat.b2n (globMatches (Star ".jpg") name)
  + Nat.b2n (globMatches (Star ".jpeg") name)
  = Nat.b2n (isScreenshotName name).
Proof.
  unfold isScreenshotName, globMatches.
  destruct (JsString.startsWith name "."); simpl.
  - now rewrite !andb_false_r.
  - rewrite !andb_true_r.
    destruct (JsString.endsWith name ".png") eqn:E1.
    + now rewrite (png_not_jpg name E1), (png_not_jpeg name E1).
    + destruct (JsString.endsWith name ".jpg") eqn:E2.
      * now rewrite (jpg_not_jpeg name E2).
      * now destruct (JsString.endsWith name ".jpeg").
Qed.

Lemma screenshotFiles_parts (files : list File) :
  screenshotFiles files =
  globby (Star ".png") files ++ globby (Star ".jpg") files ++ globby (Star ".jpeg") files.
Proof. unfold screenshotFiles. simpl. now rewrite app_nil_r. Qed.

Lemma globby_names_NoDup (p : Pattern) (files : list File) :
  NoDup (map fileName files) -> NoDup (map fileName (globby p files)).
Proof.
  unfold globby. induction files as [| f l IH]; simpl; intros H; [constructor |].
  inversion H as [| ? ? Hnot Hnd]; subst.
  destruct (globMatches p (fileName f)); simpl; [| now apply IH].
  constructor; [| now apply IH].
  intros Hin. apply Hnot. apply in_map_iff in Hin as [g [Hg Hin]].
  apply filter_In in Hin as [Hin _]. apply in_map_iff. now exists g.
Qed.

Lemma globby_name_matches (p : Pattern) (files : list File) (n : string) :
  In n (map fileName (globby p files)) -> globMatches p n = true.
Proof.
  intros H. apply in_map_iff in H as [f [<- Hf]].
  unfold globby in Hf. now apply filter_In in Hf.
Qed.

Lemma join_injective (dir a b : string) : join dir a = join dir b -> a = b.
Proof.
  unfold join. induction dir as [| c dir IH]; simpl; intros H.
  - now injection H.
  - injection H as H. now apply IH.
Qed.

Lemma NoDup_map_join (dir : string) (names : list string) :
  NoDup names -> NoDup (map (join dir) names).
Proof.
  induction 1 as [| n l Hn _ IH]; simpl; constructor; [| exact IH].
  intros Hin. apply in_map_iff in Hin as [m [Hm Hin]].
  apply join_injective in Hm. now subst.
Qed.

(** X28.  [collectScreenshots] takes every file whose name ends in [.png],
    [.jpg] or [.jpeg] (dot files apart) once and no other file: the number
    of screenshots is the number of such files, and when the file names of
    the directory are distinct so are the screenshot paths. *)
Theorem screenshots_collected_once (testDir : string) (files : list File) :
  List.length (collectScreenshots testDir files) =
    countIf (fun f => isScreenshotName (fileName f)) files /\
  (NoDup (map fileName files) ->
   NoDup (map filePath (collectScreenshots testDir files))).
Proof.
  split.
  - rewrite <- (length_map filePath), collectScreenshots_paths, length_map.
    rewrite screenshotFiles_parts, !length_app.
    change (List.length (globby ?p files)) with (countIf (fun f => globMatches p (fileName f)) files).
    rewrite Nat.add_assoc. apply countIf_split3.
    apply Forall_forall. intros f _. apply screenshot_patterns_split.
  - intros Hnd. rewrite collectScreenshots_paths.
    rewrite <- (map_map fileName (join testDir)). apply NoDup_map_join.
    rewrite screenshotFiles_parts, !map_app.
    apply NoDup_app; [now apply globby_names_NoDup | |].
    + apply NoDup_app; try now apply globby_names_NoDup.
      intros n H1 H2. apply globby_name_matches in H1, H2. simpl in H1, H2.
      apply andb_true_iff in H1 as [H1 _]. apply andb_true_iff in H2 as [H2 _].
      rewrite (jpg_not_jpeg n H1) in H2. discriminate.
    + intros n H1 H2. apply globby_name_matches in H1. simpl in H1.
      apply andb_true_iff in H1 as [H1 _].
      apply in_app_or in H2 as [H2 | H2]; apply globby_name_matches in H2;
        simpl in H2; apply andb_true_iff in H2 as [H2 _].
      * rewrite (png_not_jpg n H1) in H2. discriminate.
      * rewrite (png_not_jpeg n H1) in H2. discriminate.
Qed.

(** ** The first processor *)

Section Legacy.

Import LegacyTraceProcessor.

Lemma json_not_zip (s : string) :
  JsString.endsWith s ".json" = true -> JsString.endsWith s ".zip" = false.
Proof.
  intros Ha. destruct (JsString.endsWith s ".zip") eqn:Hb; [| reflexivity].
  exfalso. suffix_clash Ha Hb.
Qed.

Lemma legacy_status (path : string) (f : FoundFile) :
  l_status (processTestResult path f) = Passed \/
  l_status (processTestResult path f) = Failed \/
  l_status (processTestResult path f) = Skipped.
Proof.
  unfold processTestResult. destruct (fileText f) as [| data]; [now left |].
  destruct (truthyString (j_status data)); [| now left]. simpl.
  destruct (j_status data) as [st |]; [| auto].
  destruct (String.eqb st "passed"); [auto |].
  destruct (String.eqb st "failed"); auto.
Qed.

(** X29.  The first processor gives one result per listed file that is a
    result file ([.json] with [results] in its path) or a trace archive
    ([.zip] with [trace] in its path), none for other files and none when
    the directory cannot be listed; every result is passed, failed or
    skipped, and the three counts of its summary add up to the total. *)
Theorem legacy_summary_partitions
    (path : string) (listing : option (list FoundFile)) :
  let out := processTestResults path listing in
  l_total (snd out) = List.length (fst out) /\
  List.length (fst out) =
    match listing with
    | Some files =>
        countIf (fun f => isResultFile (relativePath f)
                          || isTraceArchive (relativePath f)) files
    | None => 0
    end /\
  Forall (fun r => l_status r = Passed \/ l_status r = Failed \/ l_status r = Skipped)
         (fst out) /\
  l_passed (snd out) + l_failed (snd out) + l_skipped (snd out) = l_total (snd out).
Proof.
  unfold processTestResults. cbn [fst snd generateSummary l_total l_passed l_failed l_skipped].
  assert (Hst : Forall (fun r => l_status r = Passed \/ l_status r = Failed
                                 \/ l_status r = Skipped)
                       (map (processTestResult path) (findTestResults listing))).
  { apply Forall_forall. intros r Hr. apply in_map_iff in Hr as [f [<- _]].
    apply legacy_status. }
  split; [reflexivity | split; [| split; [exact Hst |]]].
  - clear Hst. rewrite length_map. destruct listing as [files |]; [| reflexivity].
    unfold findTestResults. induction files as [| f l IH]; [reflexivity |].
    rewrite countIf_cons. cbn [flat_map]. rewrite !length_app, IH.
    unfold isResultFile, isTraceArchive.
    destruct (JsString.endsWith (relativePath f) ".json") eqn:Ej.
    + rewrite (json_not_zip _ Ej).
      destruct (JsString.includes (relativePath f) "results"); reflexivity.
    + destruct (JsString.endsWith (relativePath f) ".zip");
        destruct (JsString.includes (relativePath f) "trace"); reflexivity.
  - rewrite <- (countIf_all (map (processTestResult path) (findTestResults listing))).
    apply countIf_split3. eapply Forall_impl; [| exact Hst].
    intros r [-> | [-> | ->]]; reflexivity.
Qed.

End Legacy.

(** ** The added functions on sample inputs *)

Example basename_samples :
  basename "test-results/cart-chromium/shot.png" = "shot.png" /\
  basename "report.json" = "report.json".
Proof. split; reflexivity. Qed.

Example mapIntentToPurpose_samples :
  mapIntentToPurpose "Debug" = Some "debugging" /\
  mapIntentToPurpose "CI" = Some "ci-cd" /\
  mapIntentToPurpose "smoke" = Some "development" /\
  mapIntentToPurpose "Constructor" = None.
Proof. repeat split; reflexivity. Qed.

Example summarizeResults_samples :
  let i := capturedIntent
             {| freshId := "R"; startedAt := ""; elapsed := 0%Z;
                capturedIntent :=
                  {| purpose := "development"; description := None;
                     expectFailures := false; targetTests := Some [];
                     goals := []; context := None |} |} in
  let skippedOne := {| testTitle := "b"; status := Skipped; duration := 0%Z;
                       screenshots := []; errors := []; steps := [];
                       traceFile := None |} in
  let failedOne := {| testTitle := "c"; status := TimedOut; duration := 0%Z;
                      screenshots := []; errors := []; steps := [];
                      traceFile := None |} in
  summarizeResults (map (enhanceResult i) [onePassingResult; skippedOne])
    = "All 2 tests passed" /\
  summarizeResults (map (enhanceResult i) [onePassingResult; skippedOne; failedOne])
    = "1 passed, 1 failed, 1 skipped out of 3 tests".
Proof. split; reflexivity. Qed.

Example uploadLargeFile_sample :
  SharePointStorageAdapterMore.uploadLargeFile 700000 =
  [ {| SharePointStorageAdapterMore.rangeFirst := 0;
       SharePointStorageAdapterMore.rangeLast := 327679;
       SharePointStorageAdapterMore.chunkLength := 327680 |};
    {| SharePointStorageAdapterMore.rangeFirst := 327680;
       SharePointStorageAdapterMore.rangeLast := 655359;
       SharePointStorageAdapterMore.chunkLength := 327680 |};
    {| SharePointStorageAdapterMore.rangeFirst := 655360;
       SharePointStorageAdapterMore.rangeLast := 699999;
       SharePointStorageAdapterMore.chunkLength := 44640 |} ].
Proof. reflexivity. Qed.

Example fromConfig_samples :
  GitHubUploaderMore.fromConfig "acme/reports/extra" (Some "t1") (Some "t2")
    = GitHubUploaderMore.Uploader "acme" "reports" "t1" /\
  GitHubUploaderMore.fromConfig "acme" (Some "t1") None
    = GitHubUploaderMore.InvalidRepository /\
  GitHubUploaderMore.fromConfig "/reports" (Some "t1") None
    = GitHubUploaderMore.InvalidRepository /\
  GitHubUploaderMore.fromConfig "acme/reports" (Some "") None
    = GitHubUploaderMore.TokenNotFound.
Proof. repeat split; reflexivity. Qed.

Example legacy_sample :
  let files :=
    [ {| LegacyTraceProcessor.relativePath := "run1/results.json";
         LegacyTraceProcessor.fileText :=
           LegacyTraceProcessor.Json
             {| LegacyTraceProcessor.j_status := Some "timedOut";
                LegacyTraceProcessor.j_name := Some "cart";
                LegacyTraceProcessor.j_duration := Some 1200%Z;
                LegacyTraceProcessor.j_error := None;
                LegacyTraceProcessor.j_screenshots := None;
                LegacyTraceProcessor.j_traceFile := None |} |};
      {| LegacyTraceProcessor.relativePath := "run1/trace.zip";
         LegacyTraceProcessor.fileText := LegacyTraceProcessor.NotJson |};
      {| LegacyTraceProcessor.relativePath := "run1/video.webm";
         LegacyTraceProcessor.fileText := LegacyTraceProcessor.NotJson |} ] in
  map (fun r => (LegacyTraceProcessor.l_testName r, LegacyTraceProcessor.l_status r))
      (fst (LegacyTraceProcessor.processTestResults "test-results" (Some files)))
  = [("cart", Skipped); ("trace.zip", Passed)].
Proof. reflexivity. Qed.
